(** * SolarPV-DER simulation utility: configuration resolver and PV module

    A shallow embedding of [pvder/specifications.py] and
    [pvder/DER_components.py], and the properties of the configuration
    pipeline ([SolarPVDER]) and of the photovoltaic module ([PVModule]).

    Python dictionaries that the code passes around by reference live in an
    explicit heap; exceptions are values of [exn]; every method is a function
    in a state-and-exception monad in which the state survives a raise, as the
    mutations of a Python object do.  Floating point numbers of the electrical
    model are idealised as real numbers, with the two exceptions that Python
    float arithmetic raises ([ZeroDivisionError], [OverflowError]) kept, and
    with them the underflow to 0.0 of a product that the code divides by.
    The rating of the inverter, of which [get_DER_id] makes the device ID,
    is divided as a double is. *)

From Stdlib Require Import ZArith QArith_base Reals Lra Lia List.
From stdpp Require Import gmap strings list fin_maps pretty.

(** ** Python values, types and exceptions *)

Module Py.

(** The classes the specification registry names, and the classes of the
    values a JSON configuration or a keyword argument can hold. *)
Inductive pytype : Type :=
| TNoneType | Tbool | Tint | Tfloat | Tcomplex | Tstr | Tdict
| Tclass (name : string).

(** A dictionary is a reference into the heap; a finite float is the rational
    it denotes. *)
Inductive pyval : Type :=
| VNone
| VBool (b : bool)
| VInt (z : Z)
| VFloat (q : Q)
| VComplex (re im : Q)
| VStr (s : string)
| VDict (l : positive)
| VObj (cls : string).

#[export] Instance pytype_eq_dec : EqDecision pytype.
Proof. solve_decision. Defined.

Definition type_of (v : pyval) : pytype :=
  match v with
  | VNone => TNoneType
  | VBool _ => Tbool
  | VInt _ => Tint
  | VFloat _ => Tfloat
  | VComplex _ _ => Tcomplex
  | VStr _ => Tstr
  | VDict _ => Tdict
  | VObj cls => Tclass cls
  end.

(** [issubclass]: [bool] derives from [int]; no other two classes of the
    universe are related. *)
Definition issubclass (a b : pytype) : bool :=
  match a, b with
  | Tbool, Tint => true
  | _, _ => bool_decide (a = b)
  end.

(** [isinstance(v, t)] where [t] is a class or a tuple of classes. *)
Definition isinstance (v : pyval) (t : list pytype) : bool :=
  existsb (issubclass (type_of v)) t.

(** [v is not None] *)
Definition is_not_None (v : pyval) : bool :=
  match v with VNone => false | _ => true end.

(** [v == n] for an integer [n]: numbers compare by value across [bool],
    [int], [float] and [complex]; nothing else equals a number. *)
Definition eq_int (v : pyval) (n : Z) : bool :=
  match v with
  | VBool b => Z.eqb (Z.b2z b) n
  | VInt z => Z.eqb z n
  | VFloat q => Qeq_bool q (inject_Z n)
  | VComplex re im => Qeq_bool re (inject_Z n) && Qeq_bool im (inject_Z 0)
  | _ => false
  end.

(** What an exception was built from: the arguments of the [format] call of
    each [raise] of the source, in the order they are formatted. *)
Inductive message : Type :=
| msg_key (key : string)
| msg_not_subscriptable (t : pytype)
| msg_config_not_found (derId configFile : string) (available_ids : list string)
| msg_type_mismatch (key : string) (found : pytype) (valid : list pytype)
| msg_n_phases_invalid (name parameter_ID : string) (n_phases : pyval) (model : string)
| msg_phases_mismatch (name parameter_ID : string) (n_phases : pyval) (found : nat)
| msg_n_ODE_invalid (name parameter_ID : string) (n_ODE : pyval) (model : string)
| msg_states_mismatch (name parameter_ID : string) (n_ODE : pyval) (found : nat) (model : string)
| msg_invalid_model_class (name model : string)
| msg_module_parameters (parameter_ID : string).

Inductive exn : Type :=
| KeyError (m : message)
| ValueError (m : message)
| TypeError (m : message)
| IndexError
| ZeroDivisionError
| OverflowError.

Inductive result (A : Type) : Type :=
| Ok (a : A)
| Raise (e : exn).
Arguments Ok {A} a.
Arguments Raise {A} e.

(** A method over a mutable state [S]: it returns or raises, and leaves a
    state behind either way. *)
Definition M (S A : Type) : Type := S -> result A * S.

Definition ret {S A} (a : A) : M S A := fun s => (Ok a, s).
Definition raise {S A} (e : exn) : M S A := fun s => (Raise e, s).
Definition bind {S A B} (m : M S A) (k : A -> M S B) : M S B :=
  fun s => match m s with
           | (Ok a, s') => k a s'
           | (Raise e, s') => (Raise e, s')
           end.
Definition get {S} : M S S := fun s => (Ok s, s).
Definition modify {S} (f : S -> S) : M S unit := fun s => (Ok tt, f s).

Declare Scope py_scope.
Delimit Scope py_scope with py.
Notation "x <- m ;; k" := (bind m (fun x => k))
  (at level 100, m at next level, right associativity) : py_scope.
Notation "m ;;; k" := (bind m (fun _ => k))
  (at level 100, right associativity) : py_scope.

(** [for x in xs: body x] *)
Fixpoint for_each {S A} (xs : list A) (body : A -> M S unit) : M S unit :=
  match xs with
  | [] => ret tt
  | x :: rest => bind (body x) (fun _ => for_each rest body)
  end.

End Py.

(** ** The heap of dictionaries *)

Module Heap.
Import Py.
Local Open Scope py_scope.

(** Every dictionary object has an address; [heap] maps the addresses in use
    to the contents of their dictionaries.  An address that is not in use
    reads as the empty dictionary. *)
Abbreviation dict := (gmap string pyval).
Abbreviation heap := (gmap positive (gmap string pyval)).

Definition deref (h : heap) (l : positive) : dict := default ∅ (h !! l).

(** [{}] *)
Definition new_dict : M heap positive :=
  fun h => let l := fresh (dom h) in (Ok l, <[l := ∅]> h).

(** [key in d] *)
Definition contains (l : positive) (key : string) : M heap bool :=
  fun h => (Ok (bool_decide (is_Some (deref h l !! key))), h).

(** [d[key]] *)
Definition getitem (l : positive) (key : string) : M heap pyval :=
  fun h => match deref h l !! key with
           | Some v => (Ok v, h)
           | None => (Raise (KeyError (msg_key key)), h)
           end.

(** [d.update({key: v})] *)
Definition update (l : positive) (key : string) (v : pyval) : M heap unit :=
  fun h => (Ok tt, <[l := <[key := v]> (deref h l)]> h).

(** [v[key]] for a value that may or may not be a dictionary. *)
Definition subscript (v : pyval) (key : string) : M heap pyval :=
  match v with
  | VDict l => getitem l key
  | _ => raise (TypeError (msg_not_subscriptable (type_of v)))
  end.

(** [d[key]] for a dictionary that is local to the call and never escapes
    it, which is therefore a value and not a shared object: the keyword
    arguments, collected into a dictionary of the callee's own at every call,
    and the dictionary a configuration file was just parsed into. *)
Definition local_getitem (d : dict) (key : string) : M heap pyval :=
  match d !! key with
  | Some v => ret v
  | None => raise (KeyError (msg_key key))
  end.

End Heap.

(** ** specifications.py *)

Module specifications.
Import Py.

Record argument_spec : Type :=
  { default_value : pyval; type : list pytype }.

(** [six.PY3]: [string_type = (str)] *)
Definition string_type : list pytype := [Tstr].

(** The address of the dictionary [{}] that is the default of [derConfig]:
    one object, made when the module is loaded. *)
Definition derConfig_default : positive := 1%positive.

(** The registry, in the order of the source. *)
Definition DER_argument_spec : list (string * argument_spec) :=
  [ ("derId", {| default_value := VNone; type := string_type |});
    ("powerRating", {| default_value := VNone; type := [Tint; Tfloat] |});
    ("VrmsRating", {| default_value := VNone; type := [Tint; Tfloat] |});
    ("Vdcrated", {| default_value := VNone; type := [Tint; Tfloat] |});
    ("gridModel", {| default_value := VNone; type := [Tclass "Grid"] |});
    ("verbosity", {| default_value := VStr "INFO"; type := string_type |});
    ("identifier", {| default_value := VStr EmptyString; type := string_type |});
    ("derConfig", {| default_value := VDict derConfig_default; type := [Tdict] |});
    ("gridVoltagePhaseA", {| default_value := VNone; type := [Tcomplex] |});
    ("gridVoltagePhaseB", {| default_value := VNone; type := [Tcomplex] |});
    ("gridVoltagePhaseC", {| default_value := VNone; type := [Tcomplex] |});
    ("gridFrequency", {| default_value := VNone; type := [Tint; Tfloat] |});
    ("standAlone", {| default_value := VBool true; type := [Tbool] |});
    ("steadyStateInitialization", {| default_value := VBool true; type := [Tbool] |});
    ("allowUnbalancedM", {| default_value := VBool false; type := [Tbool] |});
    ("ia0", {| default_value := VNone; type := [Tcomplex] |});
    ("xa0", {| default_value := VNone; type := [Tcomplex] |});
    ("ua0", {| default_value := VNone; type := [Tcomplex] |});
    ("xDC0", {| default_value := VNone; type := [Tfloat] |});
    ("xP0", {| default_value := VNone; type := [Tfloat] |});
    ("xQ0", {| default_value := VNone; type := [Tfloat] |}) ].

End specifications.

(** ** templates.py *)

Module templates.

(** Modelled from the spec: the entries of the table
    [templates.DER_design_template], which [DER_components.py] imports from
    [pvder/templates.py].  A template entry, keyed by model type, declares
    the required phase count, the ordered phase names, the required state
    count and the initial-state vector; [sections] are the keys of the
    entry, the configuration sections a device of that model type has. *)
Record design_template : Type :=
  { sections : list string;
    n_phases : Z;
    phases : list string;
    n_ODE : Z;
    initial_states : list string }.

End templates.

(** ** DER_components.py: class SolarPVDER *)

Module SolarPVDER.
Import Py Heap specifications.
Local Open Scope py_scope.

(** The attributes of the host object that the methods below read. *)
Record host : Type :=
  { name : string;
    parameter_ID : string;
    DER_model_type : string;
    DER_config : positive }.

(** [if not cond: raise e] *)
Definition check {S} (cond : bool) (e : exn) : M S unit :=
  if cond then ret tt else raise e.

Section Methods.

(** [templates.DER_design_template] *)
Variable DER_design_template : gmap string templates.design_template.

(** [read_config]: [utility_functions.read_json] parses the file into a
    dictionary from device IDs to configurations; the parser may allocate. *)
Variable read_config : string -> M heap dict.

(** [available_ids] lists the keys of the parsed file, each once, in the
    order the map enumerates them; the branch that prints that the
    configuration was found is [ret tt]. *)
Definition get_DER_config (configFile derId : string) : M heap pyval :=
  config_dict <- read_config configFile ;;
  let available_ids := (map_to_list config_dict).*1 in
  (if bool_decide (derId ∈ available_ids)
   then ret tt
   else raise (KeyError (msg_config_not_found derId configFile available_ids))) ;;;
  local_getitem config_dict derId.

(** The body of the loop of [get_DER_arguments] over the registry, from the
    entry [(key, value)] on; [specifications.DER_argument_spec[key]] is the
    entry [value] at hand.  The loop returns [used_arguments]. *)
Fixpoint get_DER_arguments_loop (items : list (string * argument_spec))
    (DER_config : positive) (kwargs : dict)
    (DER_arguments : positive) (used_arguments : list string)
    : M heap (list string) :=
  match items with
  | [] => ret used_arguments
  | (key, value) :: rest =>
    if bool_decide (is_Some (kwargs !! key)) then
      v <- local_getitem kwargs key ;;
      if isinstance v (type value) then
        update DER_arguments key v ;;;
        get_DER_arguments_loop rest DER_config kwargs DER_arguments
          (used_arguments ++ [key])
      else
        raise (ValueError (msg_type_mismatch key (type_of v) (type value)))
    else
      in_config <- contains DER_config key ;;
      if in_config : bool then
        v <- local_getitem kwargs key ;;
        if isinstance v (type value) then
          c <- getitem DER_config key ;;
          update DER_arguments key c ;;;
          get_DER_arguments_loop rest DER_config kwargs DER_arguments
            used_arguments
        else
          c <- getitem DER_config key ;;
          raise (ValueError (msg_type_mismatch key (type_of c) (type value)))
      else if is_not_None (default_value value) then
        update DER_arguments key (default_value value) ;;;
        get_DER_arguments_loop rest DER_config kwargs DER_arguments
          used_arguments
      else
        get_DER_arguments_loop rest DER_config kwargs DER_arguments
          used_arguments
  end.

Definition get_DER_arguments (DER_config : positive) (kwargs : dict)
    : M heap positive :=
  DER_arguments <- new_dict ;;
  used_arguments <-
    get_DER_arguments_loop DER_argument_spec DER_config kwargs DER_arguments [] ;;
  ret DER_arguments.

(** [if DER_component not in config: config.update({DER_component: {}})] *)
Definition add_missing_section (config : positive) (DER_component : string)
    : M heap unit :=
  present <- contains config DER_component ;;
  if present : bool then ret tt
  else (empty <- new_dict ;; update config DER_component (VDict empty)).

(** The loop of [setup_DER] over the template of the model type, which runs
    once the configuration and its parent configuration are loaded. *)
Definition setup_DER_sections (DER_design : templates.design_template)
    (DER_config DER_parent_config : positive) : M heap unit :=
  for_each (templates.sections DER_design) (fun DER_component =>
    add_missing_section DER_config DER_component ;;;
    add_missing_section DER_parent_config DER_component).

Definition check_basic_specs (self : host) : M heap unit :=
  match DER_design_template !! DER_model_type self with
  | Some template =>
    basic_specs <- getitem (DER_config self) "basic_specs" ;;
    n_phases <- subscript basic_specs "n_phases" ;;
    check (eq_int n_phases (templates.n_phases template))
      (ValueError (msg_n_phases_invalid (name self) (parameter_ID self)
                     n_phases (DER_model_type self))) ;;;
    check (eq_int n_phases (Z.of_nat (length (templates.phases template))))
      (ValueError (msg_phases_mismatch (name self) (parameter_ID self)
                     n_phases (length (templates.phases template)))) ;;;
    basic_specs <- getitem (DER_config self) "basic_specs" ;;
    n_ODE <- subscript basic_specs "n_ODE" ;;
    check (eq_int n_ODE (templates.n_ODE template))
      (ValueError (msg_n_ODE_invalid (name self) (parameter_ID self)
                     n_ODE (DER_model_type self))) ;;;
    check (eq_int n_ODE (Z.of_nat (length (templates.initial_states template))))
      (ValueError (msg_states_mismatch (name self) (parameter_ID self)
                     n_ODE (length (templates.initial_states template))
                     (DER_model_type self)))
  | None =>
    raise (ValueError (msg_invalid_model_class (name self) (DER_model_type self)))
  end.

End Methods.

(** The merge of one registry key as the specification words it, without
    the configuration file: the keyword argument when there is one, else the
    default when the registry declares one, else nothing. *)
Definition merged_argument (kwargs : dict) (value : argument_spec)
    (key : string) : option pyval :=
  match kwargs !! key with
  | Some v => Some v
  | None =>
    if is_not_None (default_value value) then Some (default_value value)
    else None
  end.

(** The first exception on the way through the registry, if there is one:
    the keys are taken in order, a keyword argument of an undeclared type
    stops with the [ValueError] of the first branch, and a key that only the
    configuration holds stops at the subscript [kwargs[key]] of the second
    branch. *)
Fixpoint merge_failure (items : list (string * argument_spec))
    (kwargs DER_config : dict) : option exn :=
  match items with
  | [] => None
  | (key, value) :: rest =>
    match kwargs !! key with
    | Some v =>
      if isinstance v (type value) then merge_failure rest kwargs DER_config
      else Some (ValueError (msg_type_mismatch key (type_of v) (type value)))
    | None =>
      match DER_config !! key with
      | Some _ => Some (KeyError (msg_key key))
      | None => merge_failure rest kwargs DER_config
      end
    end
  end.

(** The inputs on which no branch of [get_DER_arguments] raises: every
    keyword argument that the registry names has a declared type, and the
    configuration [DER_config] holds no registry key that the keyword
    arguments lack. *)
Definition mergeable (items : list (string * argument_spec))
    (h : heap) (DER_config : positive) (kwargs : dict) : Prop :=
  ∀ key value, (key, value) ∈ items →
    match kwargs !! key with
    | Some v => isinstance v (type value) = true
    | None => deref h DER_config !! key = None
    end.

(** How the heap [h'] after the loop of [setup_DER] relates to the heap [h]
    before it: no dictionary is lost; the dictionaries other than the two
    configurations are as they were; the dictionaries that are new are
    empty; the two configurations keep every entry they had; and an entry
    they did not have is still missing or is one of the new dictionaries. *)
Definition grown_by_sections (DER_config DER_parent_config : positive)
    (h h' : heap) : Prop :=
  dom h ⊆ dom h'
  ∧ (∀ l, l ∈ dom h → l ≠ DER_config → l ≠ DER_parent_config →
       h' !! l = h !! l)
  ∧ (∀ l, l ∉ dom h → l ∈ dom h' → h' !! l = Some ∅)
  ∧ (∀ c key v, c = DER_config ∨ c = DER_parent_config →
       deref h c !! key = Some v → deref h' c !! key = Some v)
  ∧ (∀ c key, c = DER_config ∨ c = DER_parent_config →
       deref h c !! key = None →
       deref h' c !! key = None
       ∨ (∃ e, deref h' c !! key = Some (VDict e) ∧ (e ∉ dom h) ∧ e ∈ dom h')).

(** What [self.DER_config['basic_specs'][field]] evaluates to in the heap
    [h], when both subscripts find their key. *)
Definition basic_spec (h : heap) (self : host) (field : string)
    : option pyval :=
  match deref h (DER_config self) !! "basic_specs" with
  | Some (VDict l) => deref h l !! field
  | _ => None
  end.

(** The configuration of [self] matches the template of its model type:
    the phase count of the configuration, the length of the list of phase
    names, the state count of the configuration and the length of the
    initial-state vector equal the phase count and the state count that the
    template declares. *)
Definition matches_template
    (DER_design_template : gmap string templates.design_template)
    (h : heap) (self : host) : Prop :=
  ∃ template n_phases n_ODE,
    DER_design_template !! DER_model_type self = Some template
    ∧ basic_spec h self "n_phases" = Some n_phases
    ∧ basic_spec h self "n_ODE" = Some n_ODE
    ∧ eq_int n_phases (templates.n_phases template) = true
    ∧ Z.of_nat (length (templates.phases template))
      = templates.n_phases template
    ∧ eq_int n_ODE (templates.n_ODE template) = true
    ∧ Z.of_nat (length (templates.initial_states template))
      = templates.n_ODE template.

End SolarPVDER.

(** ** DER_components.py: class PVModule *)

Module PVModule.
Import Py.
Local Open Scope py_scope.
Local Open Scope R_scope.

(** An entry of the table [module_parameters]. *)
Record module_parameters_entry : Type :=
  { entry_Np : R; entry_Ns : R; entry_Vdcmpp0 : R;
    entry_Vdcmpp_min : R; entry_Vdcmpp_max : R }.

(** The attributes of the object that the methods of [PVModule] read or
    write.  The first four belong to the host the class is mixed into. *)
Record self_t : Type :=
  { parameter_ID : string;
    DER_model_type : string;
    DER_config : gmap string (gmap string R);
    MPPT_ENABLE : bool;
    _MPP_fit_points : nat;
    Np : R; Ns : R; Vdcmpp0 : R; Vdcmpp_min : R; Vdcmpp_max : R;
    Sinsol : R; Tactual : R; Iph : R; Ipv : R;
    z : list R }.

Definition set_MPP_fit_points (v : nat) (s : self_t) : self_t :=
  {| parameter_ID := parameter_ID s; DER_model_type := DER_model_type s;
     DER_config := DER_config s; MPPT_ENABLE := MPPT_ENABLE s;
     _MPP_fit_points := v;
     Np := Np s; Ns := Ns s; Vdcmpp0 := Vdcmpp0 s;
     Vdcmpp_min := Vdcmpp_min s; Vdcmpp_max := Vdcmpp_max s;
     Sinsol := Sinsol s; Tactual := Tactual s; Iph := Iph s; Ipv := Ipv s;
     z := z s |}.

Definition set_Np (v : R) (s : self_t) : self_t :=
  {| parameter_ID := parameter_ID s; DER_model_type := DER_model_type s;
     DER_config := DER_config s; MPPT_ENABLE := MPPT_ENABLE s;
     _MPP_fit_points := _MPP_fit_points s;
     Np := v; Ns := Ns s; Vdcmpp0 := Vdcmpp0 s;
     Vdcmpp_min := Vdcmpp_min s; Vdcmpp_max := Vdcmpp_max s;
     Sinsol := Sinsol s; Tactual := Tactual s; Iph := Iph s; Ipv := Ipv s;
     z := z s |}.

Definition set_Ns (v : R) (s : self_t) : self_t :=
  {| parameter_ID := parameter_ID s; DER_model_type := DER_model_type s;
     DER_config := DER_config s; MPPT_ENABLE := MPPT_ENABLE s;
     _MPP_fit_points := _MPP_fit_points s;
     Np := Np s; Ns := v; Vdcmpp0 := Vdcmpp0 s;
     Vdcmpp_min := Vdcmpp_min s; Vdcmpp_max := Vdcmpp_max s;
     Sinsol := Sinsol s; Tactual := Tactual s; Iph := Iph s; Ipv := Ipv s;
     z := z s |}.

Definition set_Vdcmpp0 (v : R) (s : self_t) : self_t :=
  {| parameter_ID := parameter_ID s; DER_model_type := DER_model_type s;
     DER_config := DER_config s; MPPT_ENABLE := MPPT_ENABLE s;
     _MPP_fit_points := _MPP_fit_points s;
     Np := Np s; Ns := Ns s; Vdcmpp0 := v;
     Vdcmpp_min := Vdcmpp_min s; Vdcmpp_max := Vdcmpp_max s;
     Sinsol := Sinsol s; Tactual := Tactual s; Iph := Iph s; Ipv := Ipv s;
     z := z s |}.

Definition set_Vdcmpp_min (v : R) (s : self_t) : self_t :=
  {| parameter_ID := parameter_ID s; DER_model_type := DER_model_type s;
     DER_config := DER_config s; MPPT_ENABLE := MPPT_ENABLE s;
     _MPP_fit_points := _MPP_fit_points s;
     Np := Np s; Ns := Ns s; Vdcmpp0 := Vdcmpp0 s;
     Vdcmpp_min := v; Vdcmpp_max := Vdcmpp_max s;
     Sinsol := Sinsol s; Tactual := Tactual s; Iph := Iph s; Ipv := Ipv s;
     z := z s |}.

Definition set_Vdcmpp_max (v : R) (s : self_t) : self_t :=
  {| parameter_ID := parameter_ID s; DER_model_type := DER_model_type s;
     DER_config := DER_config s; MPPT_ENABLE := MPPT_ENABLE s;
     _MPP_fit_points := _MPP_fit_points s;
     Np := Np s; Ns := Ns s; Vdcmpp0 := Vdcmpp0 s;
     Vdcmpp_min := Vdcmpp_min s; Vdcmpp_max := v;
     Sinsol := Sinsol s; Tactual := Tactual s; Iph := Iph s; Ipv := Ipv s;
     z := z s |}.

Definition set_Sinsol (v : R) (s : self_t) : self_t :=
  {| parameter_ID := parameter_ID s; DER_model_type := DER_model_type s;
     DER_config := DER_config s; MPPT_ENABLE := MPPT_ENABLE s;
     _MPP_fit_points := _MPP_fit_points s;
     Np := Np s; Ns := Ns s; Vdcmpp0 := Vdcmpp0 s;
     Vdcmpp_min := Vdcmpp_min s; Vdcmpp_max := Vdcmpp_max s;
     Sinsol := v; Tactual := Tactual s; Iph := Iph s; Ipv := Ipv s;
     z := z s |}.

Definition set_Tactual (v : R) (s : self_t) : self_t :=
  {| parameter_ID := parameter_ID s; DER_model_type := DER_model_type s;
     DER_config := DER_config s; MPPT_ENABLE := MPPT_ENABLE s;
     _MPP_fit_points := _MPP_fit_points s;
     Np := Np s; Ns := Ns s; Vdcmpp0 := Vdcmpp0 s;
     Vdcmpp_min := Vdcmpp_min s; Vdcmpp_max := Vdcmpp_max s;
     Sinsol := Sinsol s; Tactual := v; Iph := Iph s; Ipv := Ipv s;
     z := z s |}.

Definition set_Iph (v : R) (s : self_t) : self_t :=
  {| parameter_ID := parameter_ID s; DER_model_type := DER_model_type s;
     DER_config := DER_config s; MPPT_ENABLE := MPPT_ENABLE s;
     _MPP_fit_points := _MPP_fit_points s;
     Np := Np s; Ns := Ns s; Vdcmpp0 := Vdcmpp0 s;
     Vdcmpp_min := Vdcmpp_min s; Vdcmpp_max := Vdcmpp_max s;
     Sinsol := Sinsol s; Tactual := Tactual s; Iph := v; Ipv := Ipv s;
     z := z s |}.

Definition set_Ipv (v : R) (s : self_t) : self_t :=
  {| parameter_ID := parameter_ID s; DER_model_type := DER_model_type s;
     DER_config := DER_config s; MPPT_ENABLE := MPPT_ENABLE s;
     _MPP_fit_points := _MPP_fit_points s;
     Np := Np s; Ns := Ns s; Vdcmpp0 := Vdcmpp0 s;
     Vdcmpp_min := Vdcmpp_min s; Vdcmpp_max := Vdcmpp_max s;
     Sinsol := Sinsol s; Tactual := Tactual s; Iph := Iph s; Ipv := v;
     z := z s |}.

Definition set_z (v : list R) (s : self_t) : self_t :=
  {| parameter_ID := parameter_ID s; DER_model_type := DER_model_type s;
     DER_config := DER_config s; MPPT_ENABLE := MPPT_ENABLE s;
     _MPP_fit_points := _MPP_fit_points s;
     Np := Np s; Ns := Ns s; Vdcmpp0 := Vdcmpp0 s;
     Vdcmpp_min := Vdcmpp_min s; Vdcmpp_max := Vdcmpp_max s;
     Sinsol := Sinsol s; Tactual := Tactual s; Iph := Iph s; Ipv := Ipv s;
     z := v |}.

(** Class attributes. *)
Definition USE_POLYNOMIAL_MPP : bool := true.
Definition class_MPP_fit_points : nat := 50.
Definition _Tactual_min : R := 273.15.
Definition _S_min : R := 10.0.
Definition _Tactual_max : R := _Tactual_min + 35.0.
Definition _S_max : R := 100.0.

Definition Iscr : R := 8.03.
Definition Kv : R := 0.0017.
Definition T0 : R := 273.15 + 25.0.
Definition Irs : R := 1.2e-7.
Definition q : R := 1.602e-19.
Definition k : R := 1.38e-23.
Definition A : R := 1.92.

(** [x / y] on Python floats *)
Definition truediv {S} (x y : R) : M S R :=
  if Req_EM_T y 0 then raise ZeroDivisionError else ret (x / y).

(** Half of the smallest positive double, [2 ** -1074]: a product of two
    floats whose exact value is at most this far from 0 is the float 0.0
    (round to nearest, ties to even). *)
Definition underflow : R := / 2 ^ 1075.

(** [x * y] on Python floats, as far as it decides whether the product is
    0.0, on which a division by it depends: it is 0.0 when a factor is, and
    when the product underflows; any other product is idealised as the real
    one. *)
Definition float_mul (x y : R) : R :=
  if Rle_dec (Rabs (x * y)) underflow then 0 else x * y.

(** The largest argument at which [math.exp] still returns a float, the
    logarithm of the largest double to the digits written. *)
Definition exp_max_arg : R := 709.782712893384.

(** [math.exp(x)] *)
Definition math_exp {S} (x : R) : M S R :=
  if Rlt_dec exp_max_arg x then raise OverflowError else ret (exp x).

(** [max(0, x)]: the first argument unless the second is greater. *)
Definition max0 (x : R) : R := if Rlt_dec 0 x then x else 0.

(** [z[i]] *)
Definition index {S} (l : list R) (i : nat) : M S R :=
  match nth_error l i with
  | Some x => ret x
  | None => raise IndexError
  end.

(** [np.linspace(start, stop, num)]: [num] evenly spaced samples, the first
    at [start] and the last at [stop]. *)
Definition linspace (start stop : R) (num : nat) : list R :=
  map (fun i => start + INR i * ((stop - start) / INR (num - 1))) (seq 0 num).

Section Methods.

(** [BaseValues.Sbase], the per-unit power base, from
    [pvder/grid_components.py]. *)
Variable Sbase : R.

(** [defaults.Tactual] *)
Variable defaults_Tactual : R.

(** The table [self.module_parameters] of the host. *)
Variable module_parameters : gmap string module_parameters_entry.

(** [scipy.optimize.fsolve(func, x0)[0]] *)
Variable fsolve : (R -> R) -> R -> R.

(** [np.polyfit(x, y, deg)] *)
Variable polyfit : list R -> list R -> nat -> list R.

(** [self.logger(message)]: what calling the logger object of the host
    does, return or raise. *)
Variable logger_call : result unit.

Definition call_logger : M self_t unit := fun s => (logger_call, s).

Definition Iph_calc (self : self_t) : R :=
  (Iscr + (Kv * (Tactual self - T0))) * (Sinsol self / 100.0).

(** [self.k*self.Tactual*self.A*self.Ns], multiplied from left to right, by
    which [Ppv_calc] and the function of [Vdcmpp] divide.  A temperature
    other than 0 can take the first product to 0.0.  [Ns] is a number of
    cells, an [int] in the table of the class, and a float other than 0.0
    times an integer other than 0 is not 0.0: the last product is 0.0 only
    when a factor is. *)
Definition exponent_divisor (self : self_t) : R :=
  float_mul (float_mul k (Tactual self)) A * Ns self.

(** The function whose root [Vdcmpp] asks [fsolve] for. *)
Definition Vdcmpp_equation (self : self_t) (Vdc0 : R) : R :=
  - ((Np self * Irs
      * (exp ((q * Vdc0) / (k * Tactual self * A * Ns self))))
     * (q / (k * Tactual self * A * Ns self)) * Vdc0)
  - ((Np self * Irs
      * (exp ((q * Vdc0) / (k * Tactual self * A * Ns self)) - 1)))
  + (Np self * Iph self).

(** The property [Vdcmpp].  [fsolve] evaluates the function at its seed
    before anything else, and the quotient [q/(k*Tactual*A*Ns)] in it is a
    division of Python floats, which raises when the float
    [k*Tactual*A*Ns] is 0.0; when it is not, the function divides by the
    product that [Vdcmpp_equation] has. *)
Definition Vdcmpp : M self_t R :=
  self <- get ;;
  modify (set_Iph (Iph_calc self)) ;;;
  self <- get ;;
  _ <- truediv q (exponent_divisor self) ;;
  ret (fsolve (Vdcmpp_equation self) (Vdcmpp0 self)).

Definition Ppv_calc (Vdc_actual : R) : M self_t R :=
  self <- get ;;
  modify (set_Iph (Iph_calc self)) ;;;
  self <- get ;;
  x <- truediv (q * Vdc_actual) (exponent_divisor self) ;;
  e <- math_exp x ;;
  modify (set_Ipv ((Np self * Iph self) - (Np self * Irs * (e - 1)))) ;;;
  self <- get ;;
  truediv (max0 (Ipv self * Vdc_actual)) Sbase.

(** The loop of [fit_MPP_poly] over [_Srange]; it returns the three lists
    it appends to. *)
Fixpoint fit_MPP_loop (_Srange : list R)
    (_Sinsol_list _Vdcmpp_list _Ppvmpp_list : list R)
    : M self_t (list R * list R * list R) :=
  match _Srange with
  | [] => ret (_Sinsol_list, _Vdcmpp_list, _Ppvmpp_list)
  | S_i :: rest =>
    modify (set_Sinsol S_i) ;;;
    _Vdcmpp <- Vdcmpp ;;
    v <- Vdcmpp ;;
    p <- Ppv_calc v ;;
    let _Ppvmpp := p * Sbase in
    fit_MPP_loop rest (_Sinsol_list ++ [S_i]) (_Vdcmpp_list ++ [_Vdcmpp])
      (_Ppvmpp_list ++ [_Ppvmpp])
  end.

(** The samples [fit_MPP_poly] takes, before it fits them. *)
Definition fit_MPP_samples : M self_t (list R * list R * list R) :=
  modify (set_Tactual 298.15) ;;;
  modify (set_MPP_fit_points 10) ;;;
  self <- get ;;
  let _Srange := linspace _S_min _S_max (_MPP_fit_points self + 1) in
  call_logger ;;;
  fit_MPP_loop _Srange [] [] [].

Definition fit_MPP_poly : M self_t unit :=
  samples <- fit_MPP_samples ;;
  let _x := samples.1.1 in
  let _y := samples.1.2 in
  modify (set_z (polyfit _x _y 3)) ;;;
  self <- get ;;
  _ <- index (z self) 0 ;;
  _ <- index (z self) 1 ;;
  _ <- index (z self) 2 ;;
  _ <- index (z self) 3 ;;
  call_logger.

Definition initialize_module_parameters : M self_t unit :=
  self <- get ;;
  match module_parameters !! parameter_ID self with
  | Some entry =>
    modify (set_Np (entry_Np entry)) ;;;
    modify (set_Ns (entry_Ns entry)) ;;;
    modify (set_Vdcmpp0 (entry_Vdcmpp0 entry)) ;;;
    modify (set_Vdcmpp_min (entry_Vdcmpp_min entry)) ;;;
    modify (set_Vdcmpp_max (entry_Vdcmpp_max entry))
  | None => raise (ValueError (msg_module_parameters (parameter_ID self)))
  end.

(** [d[key]] on the dictionaries of the host's configuration. *)
Definition config_getitem {S V} (d : gmap string V) (key : string) : M S V :=
  match d !! key with
  | Some v => ret v
  | None => raise (KeyError (msg_key key))
  end.

(** [PVModule.__init__].  Its first statement formats the rating
    [self.DER_config['inverter_ratings']['Srated']] for the log. *)
Definition __init__ (Sinsol : R) : M self_t unit :=
  self <- get ;;
  inverter_ratings <- config_getitem (DER_config self) "inverter_ratings" ;;
  _ <- config_getitem inverter_ratings "Srated" ;;
  initialize_module_parameters ;;;
  modify (set_Sinsol Sinsol) ;;;
  modify (set_Tactual defaults_Tactual) ;;;
  self <- get ;;
  (if MPPT_ENABLE self && USE_POLYNOMIAL_MPP then fit_MPP_poly else ret tt) ;;;
  self <- get ;;
  modify (set_Iph (Iph_calc self)).

End Methods.

(** The method [m] leaves the attribute [f] of the object as it was,
    whether it returns or raises. *)
Definition keeps {A B} (f : self_t -> B) (m : M self_t A) : Prop :=
  forall s, f (m s).2 = f s.

(** The smallest positive normal double, [2 ** -1022]: a product of two
    floats that is at least this far from 0 does not underflow. *)
Definition float_min : R := / 2 ^ 1022.

(** The panel current of the single-diode model at the DC voltage [V], for
    the insolation and the temperature that [self] holds. *)
Definition panel_current (self : self_t) (V : R) : R :=
  Np self * Iph_calc self
  - Np self * Irs * (exp ((q * V) / (k * Tactual self * A * Ns self)) - 1).

(** The state in which [fit_MPP_poly] solves for the voltage of the sample
    at insolation [S_i]: the insolation is set, and the photocurrent is
    brought up to date. *)
Definition sample_state (self : self_t) (S_i : R) : self_t :=
  set_Iph (Iph_calc (set_Sinsol S_i self)) (set_Sinsol S_i self).

(** The voltage [fsolve] answers for the sample at insolation [S_i]. *)
Definition sample_voltage (fsolve : (R -> R) -> R -> R) (self : self_t)
    (S_i : R) : R :=
  fsolve (Vdcmpp_equation (sample_state self S_i)) (Vdcmpp0 self).

(** The power at that voltage: what [Ppv_calc] returns, times the base. *)
Definition sample_power (Sbase : R) (fsolve : (R -> R) -> R -> R)
    (self : self_t) (S_i : R) : R :=
  Rmax 0 (panel_current (sample_state self S_i) (sample_voltage fsolve self S_i)
          * sample_voltage fsolve self S_i) / Sbase * Sbase.

(** Two states of one module: the same cells, the same seed for the solver
    and the same temperature. *)
Definition same_module (s s0 : self_t) : Prop :=
  Np s = Np s0 /\ Ns s = Ns s0 /\ Vdcmpp0 s = Vdcmpp0 s0
  /\ Tactual s = Tactual s0.

(** The insolations from 10 to 100 in steps of 9. *)
Definition MPP_fit_grid : list R :=
  [10; 19; 28; 37; 46; 55; 64; 73; 82; 91; 100].

(** [math.exp] returns at the voltage of the sample at insolation [S_i]. *)
Definition sample_in_range (fsolve : (R -> R) -> R -> R) (self : self_t)
    (S_i : R) : Prop :=
  (q * sample_voltage fsolve self S_i) / (k * Tactual self * A * Ns self)
  <= exp_max_arg.

End PVModule.

(** ** DER_components.py: the other methods of class SolarPVDER *)

Module Setup.
Import Py Heap specifications SolarPVDER.

(** What the exceptions of the methods below are built from, beyond the
    messages of [Py.message]. *)
Inductive setup_message : Type :=
| msg_no_DER_id
| msg_not_a_real_number (t : pytype)
| msg_config_not_found_for (derId : pyval) (configFile : string)
    (available_ids : list string)
| msg_not_iterable (t : pytype)
| msg_model_type_not_found (name : string) (parameter_ID : pyval)
| msg_model_type_differs (name : string) (parameter_ID : pyval)
    (DER_model_type_in_config : pyval) (DER_model_type : string).

(** An exception of the methods modelled so far, or a [KeyError],
    [ValueError] or [TypeError] with one of the messages above. *)
Inductive raised : Type :=
| earlier (e : exn)
| KeyError_ (m : setup_message)
| ValueError_ (m : setup_message)
| TypeError_ (m : setup_message).

Inductive outcome (A : Type) : Type :=
| Returned (a : A)
| Raised (e : raised).
Arguments Returned {A} a.
Arguments Raised {A} e.

Definition MS (S A : Type) : Type := S -> outcome A * S.

Definition returns {S A} (a : A) : MS S A := fun s => (Returned a, s).
Definition raises {S A} (e : raised) : MS S A := fun s => (Raised e, s).
Definition and_then {S A B} (m : MS S A) (k : A -> MS S B) : MS S B :=
  fun s => match m s with
           | (Returned a, s') => k a s'
           | (Raised e, s') => (Raised e, s')
           end.
Definition state {S} : MS S S := fun s => (Returned s, s).
Definition change {S} (f : S -> S) : MS S unit := fun s => (Returned tt, f s).

(** A method modelled so far, run as it is. *)
Definition lift {S A} (m : M S A) : MS S A :=
  fun s => match m s with
           | (Ok a, s') => (Returned a, s')
           | (Raise e, s') => (Raised (earlier e), s')
           end.

Declare Scope setup_scope.
Delimit Scope setup_scope with setup.
Notation "x <- m ;; k" := (and_then m (fun x => k))
  (at level 100, m at next level, right associativity) : setup_scope.
Notation "m ;;; k" := (and_then m (fun _ => k))
  (at level 100, right associativity) : setup_scope.
Local Open Scope setup_scope.

(** The attributes of the object that the methods below read or write;
    [class_name] is [type(self).__name__]. *)
Record instance : Type :=
  { class_name : string;
    name : string;
    events : pyval;
    DER_model_type : string;
    parameter_ID : pyval;
    DER_design_template : templates.design_template;
    DER_config : positive;
    DER_parent_ID : pyval;
    standAlone : pyval;
    steady_state_initialization : pyval;
    allow_unbalanced_m : pyval }.

Definition set_events (v : pyval) (s : instance) : instance :=
  {| class_name := class_name s; name := name s; events := v;
     DER_model_type := DER_model_type s; parameter_ID := parameter_ID s;
     DER_design_template := DER_design_template s;
     DER_config := DER_config s; DER_parent_ID := DER_parent_ID s;
     standAlone := standAlone s;
     steady_state_initialization := steady_state_initialization s;
     allow_unbalanced_m := allow_unbalanced_m s |}.

Definition set_DER_model_type (v : string) (s : instance) : instance :=
  {| class_name := class_name s; name := name s; events := events s;
     DER_model_type := v; parameter_ID := parameter_ID s;
     DER_design_template := DER_design_template s;
     DER_config := DER_config s; DER_parent_ID := DER_parent_ID s;
     standAlone := standAlone s;
     steady_state_initialization := steady_state_initialization s;
     allow_unbalanced_m := allow_unbalanced_m s |}.

Definition set_parameter_ID (v : pyval) (s : instance) : instance :=
  {| class_name := class_name s; name := name s; events := events s;
     DER_model_type := DER_model_type s; parameter_ID := v;
     DER_design_template := DER_design_template s;
     DER_config := DER_config s; DER_parent_ID := DER_parent_ID s;
     standAlone := standAlone s;
     steady_state_initialization := steady_state_initialization s;
     allow_unbalanced_m := allow_unbalanced_m s |}.

Definition set_DER_design_template (v : templates.design_template)
    (s : instance) : instance :=
  {| class_name := class_name s; name := name s; events := events s;
     DER_model_type := DER_model_type s; parameter_ID := parameter_ID s;
     DER_design_template := v;
     DER_config := DER_config s; DER_parent_ID := DER_parent_ID s;
     standAlone := standAlone s;
     steady_state_initialization := steady_state_initialization s;
     allow_unbalanced_m := allow_unbalanced_m s |}.

Definition set_DER_config (v : positive) (s : instance) : instance :=
  {| class_name := class_name s; name := name s; events := events s;
     DER_model_type := DER_model_type s; parameter_ID := parameter_ID s;
     DER_design_template := DER_design_template s;
     DER_config := v; DER_parent_ID := DER_parent_ID s;
     standAlone := standAlone s;
     steady_state_initialization := steady_state_initialization s;
     allow_unbalanced_m := allow_unbalanced_m s |}.

Definition set_DER_parent_ID (v : pyval) (s : instance) : instance :=
  {| class_name := class_name s; name := name s; events := events s;
     DER_model_type := DER_model_type s; parameter_ID := parameter_ID s;
     DER_design_template := DER_design_template s;
     DER_config := DER_config s; DER_parent_ID := v;
     standAlone := standAlone s;
     steady_state_initialization := steady_state_initialization s;
     allow_unbalanced_m := allow_unbalanced_m s |}.

Definition set_standAlone (v : pyval) (s : instance) : instance :=
  {| class_name := class_name s; name := name s; events := events s;
     DER_model_type := DER_model_type s; parameter_ID := parameter_ID s;
     DER_design_template := DER_design_template s;
     DER_config := DER_config s; DER_parent_ID := DER_parent_ID s;
     standAlone := v;
     steady_state_initialization := steady_state_initialization s;
     allow_unbalanced_m := allow_unbalanced_m s |}.

Definition set_steady_state_initialization (v : pyval) (s : instance)
    : instance :=
  {| class_name := class_name s; name := name s; events := events s;
     DER_model_type := DER_model_type s; parameter_ID := parameter_ID s;
     DER_design_template := DER_design_template s;
     DER_config := DER_config s; DER_parent_ID := DER_parent_ID s;
     standAlone := standAlone s;
     steady_state_initialization := v;
     allow_unbalanced_m := allow_unbalanced_m s |}.

Definition set_allow_unbalanced_m (v : pyval) (s : instance) : instance :=
  {| class_name := class_name s; name := name s; events := events s;
     DER_model_type := DER_model_type s; parameter_ID := parameter_ID s;
     DER_design_template := DER_design_template s;
     DER_config := DER_config s; DER_parent_ID := DER_parent_ID s;
     standAlone := standAlone s;
     steady_state_initialization := steady_state_initialization s;
     allow_unbalanced_m := v |}.

(** A method that works on the heap, run on the heap of an object. *)
Definition on_heap {A} (m : MS heap A) : MS (heap * instance) A :=
  fun s => match m s.1 with (r, h') => (r, (h', s.2)) end.

(** An assignment to an attribute of [self]. *)
Definition assign (f : instance -> instance) : MS (heap * instance) unit :=
  change (fun s => (s.1, f s.2)).

(** The attributes of [self]. *)
Definition self_ : MS (heap * instance) instance :=
  fun s => (Returned s.2, s).

(** *** get_DER_id *)

(** The number that a value is in a quotient, if it is a real number. *)
Definition real_number (v : pyval) : option Q :=
  match v with
  | VBool b => Some (inject_Z (Z.b2z b))
  | VInt z => Some (inject_Z z)
  | VFloat q => Some q
  | _ => None
  end.

(** [n / d] rounded to the nearest integer, a tie to the even one, for a
    positive [d]. *)
Definition round_half_even (n d : Z) : Z :=
  let q := (n / d)%Z in
  let r := (n mod d)%Z in
  if (2 * r <? d)%Z then q
  else if (d <? 2 * r)%Z then (q + 1)%Z
  else if Z.even q then q else (q + 1)%Z.

(** [n / d < 2 ** j], for a positive [d] *)
Definition below_pow2 (n d j : Z) : bool :=
  if (0 <=? j)%Z then (n <? d * 2 ^ j)%Z else (n * 2 ^ (- j) <? d)%Z.

(** The exponent [e] of the double nearest to the positive fraction
    [n / d]: the doubles around it are the multiples of [2 ** e], with 53
    bits; the subnormal ones are the multiples of [2 ** -1074]. *)
Definition binary64_exponent (n d : Z) : Z :=
  let e := (Z.log2 n - Z.log2 d - 52)%Z in
  let e := if below_pow2 n d (e + 52) then (e - 1)%Z else e in
  Z.max e (-1074).

(** The double nearest to the positive fraction [n / d], a tie to the even
    one, as a fraction; [None] past the largest double. *)
Definition binary64_pos (n d : Z) : option (Z * Z) :=
  let e := binary64_exponent n d in
  let m := if (0 <=? e)%Z then round_half_even n (d * 2 ^ e)
           else round_half_even (n * 2 ^ (- e)) d in
  if (971 <? e)%Z || ((e =? 971)%Z && (m =? 2 ^ 53)%Z) then None
  else Some (if (0 <=? e)%Z then ((m * 2 ^ e)%Z, 1%Z)
             else (m, (2 ^ (- e))%Z)).

(** The double nearest to the fraction [n / d] *)
Definition binary64 (n d : Z) : option (Z * Z) :=
  if (n =? 0)%Z then Some (0%Z, 1%Z)
  else match binary64_pos (Z.abs n) d with
       | Some (p, q) => Some ((Z.sgn n * p)%Z, q)
       | None => None
       end.

(** [int(x / 1e3)]: the number as a double, which an [int] is converted to
    and a float is, divided by the double 1000.0 into the nearest double,
    and truncated towards zero; [None] when the [int] is too large to
    convert. *)
Definition kilo (x : Q) : option Z :=
  match binary64 (Qnum x) (Z.pos (Qden x)) with
  | Some (p, q) =>
    match binary64 p (q * 1000) with
    | Some (p', q') => Some (Z.quot p' q')
    | None => None
    end
  | None => None
  end.

Definition get_DER_id {S} (kwargs : dict) : MS S pyval :=
  match kwargs !! "derId" with
  | Some DER_id => returns DER_id
  | None =>
    match kwargs !! "powerRating" with
    | Some powerRating =>
      match real_number powerRating with
      | Some x =>
        match kilo x with
        | Some thousands => returns (VStr (pretty thousands))
        | None => raises (earlier OverflowError)
        end
      | None =>
        raises (TypeError_ (msg_not_a_real_number (type_of powerRating)))
      end
    | None => raises (ValueError_ msg_no_DER_id)
    end
  end.

(** *** get_DER_parent_id and get_DER_parent_config *)

Definition get_DER_parent_id (DER_config : positive) : MS heap pyval :=
  present <- lift (contains DER_config "parent_config") ;;
  if present : bool then lift (getitem DER_config "parent_config")
  else returns (VStr EmptyString).

(** [if v:], for the values of the universe; an object of another class
    is true, as one that defines neither [__bool__] nor [__len__] is. *)
Definition truthy (h : heap) (v : pyval) : bool :=
  match v with
  | VNone => false
  | VBool b => b
  | VInt z => negb (Z.eqb z 0)
  | VFloat q => negb (Qeq_bool q (inject_Z 0))
  | VComplex re im =>
    negb (Qeq_bool re (inject_Z 0) && Qeq_bool im (inject_Z 0))
  | VStr s => negb (String.eqb s EmptyString)
  | VDict l => negb (bool_decide (deref h l = ∅))
  | VObj _ => true
  end.

Section Methods.

(** [templates.DER_design_template] *)
Variable DER_design_templates : gmap string templates.design_template.

(** [read_config], for files that map every device ID to a JSON object:
    the parser answers the dictionary object of every ID. *)
Variable read_config_objects : string -> M heap (gmap string positive).

Definition read_config (configFile : string) : M heap dict :=
  bind (read_config_objects configFile) (fun objects => ret (VDict <$> objects)).

(** [get_DER_config] at an ID of any type: an ID that is not a string is in
    no list of keys. *)
Definition get_DER_config_for (configFile : string) (derId : pyval)
    : MS heap pyval :=
  match derId with
  | VStr s => lift (get_DER_config read_config configFile s)
  | _ =>
    config_dict <- lift (read_config configFile) ;;
    raises (KeyError_ (msg_config_not_found_for derId configFile
                         (map_to_list config_dict).*1))
  end.

(** The line that [get_DER_parent_config] writes to the log before it
    reads the file is no part of the state. *)
Definition get_DER_parent_config (configFile : string) (derParentId : pyval)
    : MS heap pyval :=
  h <- state ;;
  if truthy h derParentId then get_DER_config_for configFile derParentId
  else (empty <- lift new_dict ;; returns (VDict empty)).

(** *** create_template *)

(** [dict((key, {}) for key in keys)] *)
Definition dict_of_empty_sections (keys : list string) : M heap positive :=
  bind new_dict (fun d =>
  bind (for_each keys (fun key =>
          bind new_dict (fun empty => update d key (VDict empty))))
       (fun _ => ret d)).

Definition create_template : MS (heap * instance) unit :=
  self <- self_ ;;
  match DER_design_templates !! DER_model_type self with
  | Some template =>
    assign (set_DER_design_template template) ;;;
    self <- self_ ;;
    d <- on_heap (lift (dict_of_empty_sections
                          (templates.sections (DER_design_template self)))) ;;
    assign (set_DER_config d)
  | None => raises (earlier (KeyError (msg_key (DER_model_type self))))
  end.

(** *** initialize_flags *)

Definition initialize_flags (DER_arguments : positive)
    : MS (heap * instance) unit :=
  v <- on_heap (lift (getitem DER_arguments "standAlone")) ;;
  assign (set_standAlone v) ;;;
  v <- on_heap (lift (getitem DER_arguments "steadyStateInitialization")) ;;
  assign (set_steady_state_initialization v) ;;;
  v <- on_heap (lift (getitem DER_arguments "allowUnbalancedM")) ;;
  assign (set_allow_unbalanced_m v).

(** *** check_model_type *)

(** [key in v]: the keys of a dictionary, the substrings of a string; the
    other values of the universe are not containers. *)
Definition contains_value (key : string) (v : pyval) : MS heap bool :=
  match v with
  | VDict l => lift (contains l key)
  | VStr s => returns (bool_decide (is_Some (String.index 0 key s)))
  | _ => raises (TypeError_ (msg_not_iterable (type_of v)))
  end.

(** [model == v] for the string [model] *)
Definition eq_str (model : string) (v : pyval) : bool :=
  match v with
  | VStr s => String.eqb model s
  | _ => false
  end.

Definition check_model_type (self : instance)
    (DER_config DER_parent_config : positive) : MS heap unit :=
  basic_specs <- lift (getitem DER_config "basic_specs") ;;
  in_config <- contains_value "model_type" basic_specs ;;
  DER_model_type_in_config <-
    (if in_config : bool then
       basic_specs <- lift (getitem DER_config "basic_specs") ;;
       lift (subscript basic_specs "model_type")
     else
       basic_specs <- lift (getitem DER_parent_config "basic_specs") ;;
       in_parent <- contains_value "model_type" basic_specs ;;
       if in_parent : bool then
         basic_specs <- lift (getitem DER_parent_config "basic_specs") ;;
         lift (subscript basic_specs "model_type")
       else
         raises (ValueError_ (msg_model_type_not_found (name self)
                                (parameter_ID self)))) ;;
  if eq_str (DER_model_type self) DER_model_type_in_config then returns tt
  else raises (ValueError_ (msg_model_type_differs (name self)
                              (parameter_ID self) DER_model_type_in_config
                              (DER_model_type self))).

(** *** setup_DER *)

(** The methods [name_instance], [initialize_logger] and
    [update_DER_config] of the classes that [SolarPVDER] derives from. *)
Variable name_instance : pyval -> MS (heap * instance) unit.
Variable initialize_logger : pyval -> MS (heap * instance) unit.
Variable update_DER_config :
  positive -> positive -> positive -> pyval -> pyval ->
  MS (heap * instance) unit.

(** The dictionary that a configuration read from a file is. *)
Definition as_dict {S} (v : pyval) : MS S positive :=
  match v with
  | VDict l => returns l
  | _ => raises (TypeError_ (msg_not_iterable (type_of v)))
  end.

(** The attributes that [check_basic_specs] reads; an ID that was found in
    a file is a string. *)
Definition as_host (self : instance) : host :=
  {| SolarPVDER.name := name self;
     SolarPVDER.parameter_ID :=
       match parameter_ID self with VStr s => s | _ => EmptyString end;
     SolarPVDER.DER_model_type := DER_model_type self;
     SolarPVDER.DER_config := DER_config self |}.

Definition setup_DER (events_ : pyval) (configFile : string) (kwargs : dict)
    : MS (heap * instance) positive :=
  assign (set_events events_) ;;;
  self <- self_ ;;
  assign (set_DER_model_type (class_name self)) ;;;
  DER_id <- get_DER_id kwargs ;;
  assign (set_parameter_ID DER_id) ;;;
  create_template ;;;
  self <- self_ ;;
  DER_config <- on_heap (get_DER_config_for configFile (parameter_ID self)) ;;
  DER_config <- as_dict DER_config ;;
  DER_arguments <- on_heap (lift (get_DER_arguments DER_config kwargs)) ;;
  identifier <- on_heap (lift (getitem DER_arguments "identifier")) ;;
  name_instance identifier ;;;
  verbosity <- on_heap (lift (getitem DER_arguments "verbosity")) ;;
  initialize_logger verbosity ;;;
  DER_parent_id <- on_heap (get_DER_parent_id DER_config) ;;
  assign (set_DER_parent_ID DER_parent_id) ;;;
  self <- self_ ;;
  DER_parent_config <-
    on_heap (get_DER_parent_config configFile (DER_parent_ID self)) ;;
  DER_parent_config <- as_dict DER_parent_config ;;
  self <- self_ ;;
  on_heap (lift (setup_DER_sections (DER_design_template self)
                   DER_config DER_parent_config)) ;;;
  self <- self_ ;;
  on_heap (check_model_type self DER_config DER_parent_config) ;;;
  self <- self_ ;;
  update_DER_config DER_config DER_parent_config DER_arguments
    (parameter_ID self) (DER_parent_ID self) ;;;
  self <- self_ ;;
  on_heap (lift (check_basic_specs DER_design_templates (as_host self))) ;;;
  returns DER_arguments.

(** The statements of [setup_DER] that follow its loop over the sections
    of the template. *)
Definition setup_DER_checks
    (DER_config DER_parent_config DER_arguments : positive)
    : MS (heap * instance) positive :=
  self <- self_ ;;
  on_heap (check_model_type self DER_config DER_parent_config) ;;;
  self <- self_ ;;
  update_DER_config DER_config DER_parent_config DER_arguments
    (parameter_ID self) (DER_parent_ID self) ;;;
  self <- self_ ;;
  on_heap (lift (check_basic_specs DER_design_templates (as_host self))) ;;;
  returns DER_arguments.

End Methods.

(** A method that returns, writes to no dictionary and leaves the template
    of the object alone, as a method that names the object or sets up its
    logger does. *)
Definition attribute_setter (m : pyval -> MS (heap * instance) unit) : Prop :=
  forall (v : pyval) (h : heap) (self : instance),
    exists self', m v (h, self) = (Returned tt, (h, self'))
                  /\ DER_design_template self' = DER_design_template self.

(** The model type that a configuration declares: the entry [model_type]
    of its own basic specifications, or else that of the basic
    specifications of its parent. *)
Definition declared_model_type (h : heap)
    (basic_specs parent_basic_specs : positive) : option pyval :=
  match deref h basic_specs !! "model_type" with
  | Some t => Some t
  | None => deref h parent_basic_specs !! "model_type"
  end.

(** The exception of [get_DER_config_for] for an ID that is no key of the
    file. *)
Definition config_not_found (derId : pyval) (configFile : string)
    (available_ids : list string) : raised :=
  match derId with
  | VStr s =>
    earlier (KeyError (msg_config_not_found s configFile available_ids))
  | _ => KeyError_ (msg_config_not_found_for derId configFile available_ids)
  end.

(** The object that a file holds for an ID, which is a string if there is
    one. *)
Definition object_of (objects : gmap string positive) (derId : pyval)
    : option positive :=
  match derId with
  | VStr s => objects !! s
  | _ => None
  end.

(** The attributes when [setup_DER] asks for the device ID. *)
Definition started (events_ : pyval) (self : instance) : instance :=
  set_DER_model_type (class_name self) (set_events events_ self).

(** The verdict of [check_model_type] on the model type [t] that a
    configuration declares. *)
Definition verdict (self : instance) (t : pyval) : outcome unit :=
  if eq_str (DER_model_type self) t then Returned tt
  else Raised (ValueError_ (msg_model_type_differs (name self)
                              (parameter_ID self) t (DER_model_type self))).

End Setup.

(** * Concrete inputs

    The heaps, dictionaries and module states at which the properties below
    are instantiated. *)

Module Examples.
Import Py Heap specifications SolarPVDER.
Local Open Scope py_scope.

(** A file with the two devices "10" and "50", whose configurations are the
    dictionaries at addresses 2 and 3. *)
Definition two_devices : dict :=
  <["10" := VDict 2]> (<["50" := VDict 3]> ∅).

(** The template of a three-phase model with two states, and a host whose
    configuration, the dictionary at address 2, holds its basic
    specifications in the dictionary at address 3. *)
Definition three_phase : templates.design_template :=
  {| templates.sections := ["basic_specs"; "initial_states"];
     templates.n_phases := 3;
     templates.phases := ["a"; "b"; "c"];
     templates.n_ODE := 2;
     templates.initial_states := ["iaR"; "iaI"] |}.

Definition design_templates : gmap string templates.design_template :=
  <["SolarPVDERThreePhase" := three_phase]> ∅.

Definition a_host : host :=
  {| name := "PVDER_1"; parameter_ID := "50";
     DER_model_type := "SolarPVDERThreePhase"; DER_config := 2 |}.

Definition heap_of_a_host : heap :=
  <[2%positive := <["basic_specs" := VDict 3]> ∅]>
    (<[3%positive := <["n_phases" := VInt 3]> (<["n_ODE" := VInt 2]> ∅)]> ∅).

(** A heap with the default dictionary of [derConfig] at address 1 and a
    configuration that sets [verbosity] at address 2. *)
Definition heap_with_verbosity : heap :=
  <[derConfig_default := ∅]>
    (<[2%positive := <["verbosity" := VStr "DEBUG"]> ∅]> ∅).

(** A heap with the default dictionary of [derConfig] at address 1 and
    empty configurations at addresses 2 and 3. *)
Definition heap_with_empty_configs : heap :=
  <[derConfig_default := ∅]> (<[2%positive := ∅]> (<[3%positive := ∅]> ∅)).

(** The merged arguments when neither a keyword argument nor the
    configuration sets anything: the six defaults. *)
Definition default_arguments : dict :=
  <["verbosity" := VStr "INFO"]>
    (<["identifier" := VStr EmptyString]>
      (<["derConfig" := VDict derConfig_default]>
        (<["standAlone" := VBool true]>
          (<["steadyStateInitialization" := VBool true]>
            (<["allowUnbalancedM" := VBool false]> ∅))))).

Import PVModule.
Local Open Scope R_scope.

(** The module of the device "10" of the table in the source (2 cells in
    parallel, 1000 in series, 750 V nominal), at full insolation and at the
    reference temperature, before any current is computed. *)
Definition module_10 : self_t :=
  {| parameter_ID := "10"; DER_model_type := "SolarPV_DER_ThreePhase";
     DER_config := <["inverter_ratings" := <["Srated" := 10e3]> ∅]> ∅;
     MPPT_ENABLE := true;
     _MPP_fit_points := class_MPP_fit_points;
     Np := 2; Ns := 1000; Vdcmpp0 := 750; Vdcmpp_min := 650; Vdcmpp_max := 800;
     Sinsol := 100; Tactual := 298.15; Iph := 0; Ipv := 0;
     z := [] |}.

(** An object with the parameter ID "999", before its module parameters are
    initialised. *)
Definition module_999 : self_t :=
  {| parameter_ID := "999"; DER_model_type := "SolarPV_DER_ThreePhase";
     DER_config := <["inverter_ratings" := <["Srated" := 999e3]> ∅]> ∅;
     MPPT_ENABLE := true;
     _MPP_fit_points := class_MPP_fit_points;
     Np := 0; Ns := 0; Vdcmpp0 := 0; Vdcmpp_min := 0; Vdcmpp_max := 0;
     Sinsol := 0; Tactual := 0; Iph := 0; Ipv := 0;
     z := [] |}.

(** The table of module parameters with the device "10" alone. *)
Definition table_10 : gmap string module_parameters_entry :=
  <["10" := {| entry_Np := 2; entry_Ns := 1000; entry_Vdcmpp0 := 750;
               entry_Vdcmpp_min := 650; entry_Vdcmpp_max := 800 |}]> ∅.

(** A solver that answers its seed, and a fit that answers as many zero
    coefficients as the degree asks for: stand-ins for the two numerical
    routines, with the shape of their answers. *)
Definition seed_solver (f : R -> R) (x0 : R) : R := x0.
Definition zero_fit (x y : list R) (deg : nat) : list R := repeat 0 (deg + 1).

(** A per-unit power base. *)
Definition Sbase_50kVA : R := 50e3.

End Examples.

(** * Concrete inputs of the set-up methods *)

Module SetupExamples.
Import Py Heap specifications SolarPVDER Setup.

(** A file that holds the device "50" alone, parsed into the dictionary at
    address 9, which has no entry. *)
Definition one_device (configFile : string) : M heap (gmap string positive) :=
  fun h => (Ok (<["50" := 9%positive]> ∅), <[9%positive := ∅]> h).

(** A heap with one configuration at address 2, without a parent. *)
Definition heap_without_parent : heap := <[2%positive := ∅]> ∅.

(** An object of the class [SolarPVDERThreePhase] on which no method has
    run yet. *)
Definition new_instance : instance :=
  {| class_name := "SolarPVDERThreePhase"; name := EmptyString;
     events := VNone; DER_model_type := EmptyString; parameter_ID := VNone;
     DER_design_template := Examples.three_phase;
     DER_config := 1; DER_parent_ID := VNone;
     standAlone := VNone; steady_state_initialization := VNone;
     allow_unbalanced_m := VNone |}.

(** A configuration at address 2 and its parent at address 3, with their
    basic specifications at addresses 4 and 5: the configuration declares
    no model type, the parent declares the three-phase model. *)
Definition heap_with_parent_type : heap :=
  <[2%positive := <["basic_specs" := VDict 4]> ∅]>
    (<[3%positive := <["basic_specs" := VDict 5]> ∅]>
      (<[4%positive := ∅]>
        (<[5%positive := <["model_type" := VStr "SolarPVDERThreePhase"]> ∅]>
          ∅))).

(** What a file holds for the three-phase device "50": its basic
    specifications, which will be the dictionary at address 21, and no
    other section. *)
Definition loaded_three_phase : dict := <["basic_specs" := VDict 21]> ∅.

(** A parser that makes the dictionaries at addresses 20 and 21 of that
    file. *)
Definition three_phase_device (configFile : string)
    : M heap (gmap string positive) :=
  fun h =>
    (Ok (<["50" := 20%positive]> ∅),
     <[20%positive := loaded_three_phase]>
       (<[21%positive :=
            <["model_type" := VStr "SolarPVDERThreePhase"]>
              (<["n_phases" := VInt 3]> (<["n_ODE" := VInt 2]> ∅))]> h)).

(** Stand-ins for the three methods of the classes that [SolarPVDER]
    derives from: naming and logging that do nothing, and an update that
    takes the loaded configuration for the configuration of the object and
    writes to no dictionary. *)
Definition no_name (identifier : pyval) : MS (heap * instance) unit :=
  returns tt.
Definition no_logger (verbosity : pyval) : MS (heap * instance) unit :=
  returns tt.
Definition adopt_config (DER_config DER_parent_config DER_arguments : positive)
    (DER_id DER_parent_id : pyval) : MS (heap * instance) unit :=
  assign (set_DER_config DER_config).

(** A heap that holds the default dictionary of [derConfig] and nothing
    else. *)
Definition heap_at_start : heap := <[derConfig_default := ∅]> ∅.

End SetupExamples.

(** * Properties of the configuration resolver *)

Module ResolverProofs.
Import Py Heap specifications SolarPVDER Examples.
Local Open Scope py_scope.

(** ** Reading the heap after a write *)

Lemma deref_insert_eq (h : heap) (l : positive) (d : dict) :
  deref (<[l := d]> h) l = d.
Proof. unfold deref. by rewrite lookup_insert_eq. Qed.

Lemma deref_insert_ne (h : heap) (l l' : positive) (d : dict) :
  l ≠ l' → deref (<[l := d]> h) l' = deref h l'.
Proof. intros Hne. unfold deref. by rewrite lookup_insert_ne. Qed.

Lemma subset_elem (h h' : heap) (l : positive) :
  dom h ⊆ dom h' → l ∈ dom h → l ∈ dom h'.
Proof. intros Hsub Hl. by apply Hsub. Qed.

Lemma fresh_not_in_dom (h : heap) : fresh (dom h) ∉ dom h.
Proof. apply is_fresh. Qed.

Lemma live_not_fresh (h : heap) (l : positive) :
  l ∈ dom h → l ≠ fresh (dom h).
Proof. intros Hl ->. by apply (fresh_not_in_dom h). Qed.

(** ** get_DER_config *)

Lemma elem_of_available_ids (config_dict : dict) (derId : string) :
  derId ∈ (map_to_list config_dict).*1 ↔ is_Some (config_dict !! derId).
Proof.
  rewrite list_elem_of_fmap. split.
  - intros [[i v] [-> Hin]]. apply elem_of_map_to_list in Hin. by exists v.
  - intros [v Hv]. exists (derId, v). split; [done|].
    by apply elem_of_map_to_list.
Qed.

(** C6: a device ID that is not a key of the parsed configuration file makes
    [get_DER_config] raise a [KeyError] built from the ID, the file and the
    list of the keys of the file, each listed once; an ID that is a key makes
    it return the configuration stored under it. *)
Theorem get_DER_config_found_or_listed
    (read_config : string → M heap dict) (configFile derId : string)
    (h h1 : heap) (config_dict : dict) :
  read_config configFile h = (Ok config_dict, h1) →
  (config_dict !! derId = None →
   ∃ available_ids,
     get_DER_config read_config configFile derId h
     = (Raise (KeyError (msg_config_not_found derId configFile available_ids)), h1)
     ∧ NoDup available_ids
     ∧ ∀ i, i ∈ available_ids ↔ is_Some (config_dict !! i))
  ∧ (∀ config, config_dict !! derId = Some config →
     get_DER_config read_config configFile derId h = (Ok config, h1)).
Proof.
  intros Hread. unfold get_DER_config, bind. rewrite Hread. split.
  - intros Hnone. exists ((map_to_list config_dict).*1).
    split; [|split].
    + rewrite bool_decide_eq_false_2; [done|].
      rewrite elem_of_available_ids, Hnone. by intros [? ?].
    + apply NoDup_fst_map_to_list.
    + apply elem_of_available_ids.
  - intros config Hsome.
    rewrite bool_decide_eq_true_2 by (apply elem_of_available_ids; eauto).
    unfold ret, local_getitem. by rewrite Hsome.
Qed.

Lemma get_DER_config_found_or_listed_witness :
  (∃ available_ids,
     get_DER_config (fun _ => ret two_devices) "config.json" "250" ∅
     = (Raise (KeyError (msg_config_not_found "250" "config.json" available_ids)), ∅)
     ∧ NoDup available_ids
     ∧ ∀ i, i ∈ available_ids ↔ is_Some (two_devices !! i))
  ∧ get_DER_config (fun _ => ret two_devices) "config.json" "50" ∅
    = (Ok (VDict 3), ∅).
Proof.
  pose proof (get_DER_config_found_or_listed
                (fun _ => ret two_devices) "config.json" "250" ∅ ∅ two_devices
                eq_refl) as [Habsent _].
  pose proof (get_DER_config_found_or_listed
                (fun _ => ret two_devices) "config.json" "50" ∅ ∅ two_devices
                eq_refl) as [_ Hpresent].
  split.
  - apply Habsent. reflexivity.
  - apply Hpresent. reflexivity.
Defined.

(** ** check_basic_specs *)

Lemma Qeq_bool_inject_Z (x y : Z) :
  Qeq_bool (inject_Z x) (inject_Z y) = true → x = y.
Proof.
  intros H. apply Qeq_bool_iff in H. unfold Qeq in H. simpl in H. lia.
Qed.

(** A value equal to two integers: the integers are the same. *)
Lemma eq_int_functional (v : pyval) (a b : Z) :
  eq_int v a = true → eq_int v b = true → a = b.
Proof.
  destruct v as [|c|z|f|re im|s|l|cls]; simpl; try discriminate.
  - intros Ha Hb. apply Z.eqb_eq in Ha, Hb. congruence.
  - intros Ha Hb. apply Z.eqb_eq in Ha, Hb. congruence.
  - intros Ha Hb. apply Qeq_bool_iff in Ha, Hb.
    apply Qeq_bool_inject_Z. apply Qeq_bool_iff.
    rewrite <- Ha. exact Hb.
  - intros Ha Hb. apply andb_prop in Ha as [Ha _]. apply andb_prop in Hb as [Hb _].
    apply Qeq_bool_iff in Ha, Hb.
    apply Qeq_bool_inject_Z. apply Qeq_bool_iff.
    rewrite <- Ha. exact Hb.
Qed.

Lemma eq_int_length (v : pyval) (a : Z) (n : nat) :
  eq_int v a = true → (eq_int v (Z.of_nat n) = true ↔ Z.of_nat n = a).
Proof.
  intros Ha. split.
  - intros Hn. by apply (eq_int_functional v).
  - by intros ->.
Qed.

(** What the two subscripts of [check_basic_specs] do when the field is
    there, and what the method does from the field on. *)
Lemma basic_spec_read (h : heap) (self : host) (field : string) (v : pyval)
    {B} (k : pyval → M heap B) :
  basic_spec h self field = Some v →
  bind (getitem (DER_config self) "basic_specs")
       (fun basic_specs => bind (subscript basic_specs field) k) h
  = k v h.
Proof.
  unfold basic_spec, bind, getitem, subscript.
  destruct (deref h (DER_config self) !! "basic_specs") as [[]|]; try discriminate.
  unfold getitem. by intros ->.
Qed.

Lemma basic_spec_missing (h : heap) (self : host) (field : string)
    {B} (k : pyval → M heap B) :
  basic_spec h self field = None →
  ∃ e, bind (getitem (DER_config self) "basic_specs")
         (fun basic_specs => bind (subscript basic_specs field) k) h
       = (Raise e, h).
Proof.
  unfold basic_spec, bind, getitem, subscript.
  destruct (deref h (DER_config self) !! "basic_specs") as [[]|];
    unfold raise, getitem; eauto.
  intros ->. eauto.
Qed.

(** The method, once the template is found and both fields are read. *)
Lemma check_basic_specs_run
    (tpls : gmap string templates.design_template) (self : host) (h : heap)
    (t : templates.design_template) (n_phases n_ODE : pyval) :
  tpls !! DER_model_type self = Some t →
  basic_spec h self "n_phases" = Some n_phases →
  basic_spec h self "n_ODE" = Some n_ODE →
  check_basic_specs tpls self h =
  (if negb (eq_int n_phases (templates.n_phases t)) then
     Raise (ValueError (msg_n_phases_invalid (name self) (parameter_ID self)
                          n_phases (DER_model_type self)))
   else if negb (eq_int n_phases (Z.of_nat (length (templates.phases t)))) then
     Raise (ValueError (msg_phases_mismatch (name self) (parameter_ID self)
                          n_phases (length (templates.phases t))))
   else if negb (eq_int n_ODE (templates.n_ODE t)) then
     Raise (ValueError (msg_n_ODE_invalid (name self) (parameter_ID self)
                          n_ODE (DER_model_type self)))
   else if negb (eq_int n_ODE (Z.of_nat (length (templates.initial_states t)))) then
     Raise (ValueError (msg_states_mismatch (name self) (parameter_ID self)
                          n_ODE (length (templates.initial_states t))
                          (DER_model_type self)))
   else Ok tt, h).
Proof.
  intros Ht Hp Ho. unfold check_basic_specs. rewrite Ht.
  rewrite (basic_spec_read h self "n_phases" n_phases) by done.
  unfold check at 1 2.
  destruct (eq_int n_phases (templates.n_phases t)); simpl; [|done].
  destruct (eq_int n_phases (Z.of_nat _)); simpl; [|done].
  unfold bind at 1 2; simpl.
  rewrite (basic_spec_read h self "n_ODE" n_ODE) by done.
  unfold check, bind.
  destruct (eq_int n_ODE (templates.n_ODE t)); simpl; [|done].
  by destruct (eq_int n_ODE (Z.of_nat _)).
Qed.

Lemma check_basic_specs_frame
    (tpls : gmap string templates.design_template) (self : host) (h : heap) :
  (check_basic_specs tpls self h).2 = h.
Proof.
  unfold check_basic_specs, bind, getitem, subscript, check, ret, raise.
  repeat (case_match; simplify_eq; simpl; try done).
  all: unfold getitem in *.
  all: repeat (case_match; simplify_eq; simpl; try done).
Qed.

Lemma check_basic_specs_missing_field
    (tpls : gmap string templates.design_template) (self : host) (h : heap) :
  basic_spec h self "n_phases" = None ∨ basic_spec h self "n_ODE" = None →
  ∃ e, check_basic_specs tpls self h = (Raise e, h).
Proof.
  intros Hmissing.
  destruct (check_basic_specs tpls self h) as [[[]|e] h'] eqn:Hrun.
  - exfalso. revert Hrun Hmissing.
    unfold check_basic_specs, basic_spec, bind, getitem, subscript, check, ret, raise.
    repeat (case_match; simplify_eq; simpl; try done).
    all: unfold getitem in *.
    all: repeat (case_match; simplify_eq; simpl; try done).
    all: intros _ [?|?]; congruence.
  - exists e. f_equal.
    pose proof (check_basic_specs_frame tpls self h) as Hf.
    by rewrite Hrun in Hf.
Qed.

(** C5: [check_basic_specs] returns exactly when the configuration matches
    the template of the model type in the four counts; it never changes a
    dictionary; an unknown model type is refused with an error naming it;
    and, the two counts of the configuration being there, the first count
    that does not match is refused with the error naming that count. *)
Theorem check_basic_specs_iff_matches
    (tpls : gmap string templates.design_template) (self : host) (h : heap) :
  (check_basic_specs tpls self h = (Ok tt, h) ↔ matches_template tpls h self)
  ∧ (check_basic_specs tpls self h).2 = h
  ∧ (tpls !! DER_model_type self = None →
     check_basic_specs tpls self h
     = (Raise (ValueError (msg_invalid_model_class (name self)
                             (DER_model_type self))), h))
  ∧ (∀ t n_phases n_ODE,
       tpls !! DER_model_type self = Some t →
       basic_spec h self "n_phases" = Some n_phases →
       basic_spec h self "n_ODE" = Some n_ODE →
       (eq_int n_phases (templates.n_phases t) = false →
        check_basic_specs tpls self h
        = (Raise (ValueError (msg_n_phases_invalid (name self)
                    (parameter_ID self) n_phases (DER_model_type self))), h))
       ∧ (eq_int n_phases (templates.n_phases t) = true →
          Z.of_nat (length (templates.phases t)) ≠ templates.n_phases t →
          check_basic_specs tpls self h
          = (Raise (ValueError (msg_phases_mismatch (name self)
                      (parameter_ID self) n_phases
                      (length (templates.phases t)))), h))
       ∧ (eq_int n_phases (templates.n_phases t) = true →
          Z.of_nat (length (templates.phases t)) = templates.n_phases t →
          eq_int n_ODE (templates.n_ODE t) = false →
          check_basic_specs tpls self h
          = (Raise (ValueError (msg_n_ODE_invalid (name self)
                      (parameter_ID self) n_ODE (DER_model_type self))), h))
       ∧ (eq_int n_phases (templates.n_phases t) = true →
          Z.of_nat (length (templates.phases t)) = templates.n_phases t →
          eq_int n_ODE (templates.n_ODE t) = true →
          Z.of_nat (length (templates.initial_states t)) ≠ templates.n_ODE t →
          check_basic_specs tpls self h
          = (Raise (ValueError (msg_states_mismatch (name self)
                      (parameter_ID self) n_ODE
                      (length (templates.initial_states t))
                      (DER_model_type self))), h))).
Proof.
  split; [|split; [|split]].
  - split.
    + intros Hok.
      destruct (tpls !! DER_model_type self) as [t|] eqn:Ht;
        [|by unfold check_basic_specs in Hok; rewrite Ht in Hok].
      destruct (basic_spec h self "n_phases") as [np|] eqn:Hp;
        [|by destruct (check_basic_specs_missing_field tpls self h) as [e He];
             [left|congruence]].
      destruct (basic_spec h self "n_ODE") as [no|] eqn:Ho;
        [|by destruct (check_basic_specs_missing_field tpls self h) as [e He];
             [right|congruence]].
      rewrite (check_basic_specs_run tpls self h t np no) in Hok by done.
      destruct (eq_int np (templates.n_phases t)) eqn:E1; simpl in Hok; [|done].
      destruct (eq_int np (Z.of_nat _)) eqn:E2; simpl in Hok; [|done].
      destruct (eq_int no (templates.n_ODE t)) eqn:E3; simpl in Hok; [|done].
      destruct (eq_int no (Z.of_nat _)) eqn:E4; simpl in Hok; [|done].
      exists t, np, no. repeat split; try done.
      * by apply (eq_int_length np).
      * by apply (eq_int_length no).
    + intros (t & np & no & Ht & Hp & Ho & E1 & L1 & E3 & L2).
      rewrite (check_basic_specs_run tpls self h t np no) by done.
      rewrite L1, L2, E1, E3. done.
  - apply check_basic_specs_frame.
  - intros Ht. unfold check_basic_specs. by rewrite Ht.
  - intros t np no Ht Hp Ho.
    rewrite (check_basic_specs_run tpls self h t np no) by done.
    repeat split.
    + by intros ->.
    + intros E1 Hne. rewrite E1. simpl.
      destruct (eq_int np (Z.of_nat _)) eqn:E2; [|done].
      exfalso. apply Hne. by apply (eq_int_length np).
    + intros E1 L1 ->. by rewrite L1, E1.
    + intros E1 L1 E3 Hne. rewrite L1, E1, E3. simpl.
      destruct (eq_int no (Z.of_nat _)) eqn:E4; [|done].
      exfalso. apply Hne. by apply (eq_int_length no).
Qed.

Lemma check_basic_specs_iff_matches_witness :
  check_basic_specs design_templates a_host heap_of_a_host
  = (Ok tt, heap_of_a_host).
Proof.
  apply (check_basic_specs_iff_matches design_templates a_host heap_of_a_host).
  exists three_phase, (VInt 3), (VInt 2).
  repeat split; reflexivity.
Defined.

(** ** get_DER_arguments *)

(** The loop writes to the dictionary it fills and to no other. *)
Lemma get_DER_arguments_loop_frame (items : list (string * argument_spec))
    (cfg : positive) (kwargs : dict) (r : positive) :
  ∀ (used : list string) (h : heap) (l : positive),
    l ≠ r →
    (get_DER_arguments_loop items cfg kwargs r used h).2 !! l = h !! l.
Proof.
  induction items as [|[key value] rest IH]; intros used h l Hl; [done|].
  simpl. unfold bind, local_getitem, contains, getitem, update, ret, raise.
  repeat (case_match; simplify_eq; simpl; try done).
  all: try (rewrite IH by done; by rewrite ?lookup_insert_ne).
Qed.

Lemma mergeable_tail (key : string) (value : argument_spec)
    (rest : list (string * argument_spec)) (h h1 : heap)
    (cfg : positive) (kwargs : dict) :
  deref h1 cfg = deref h cfg →
  mergeable ((key, value) :: rest) h cfg kwargs →
  mergeable rest h1 cfg kwargs.
Proof.
  intros Hsame Hm k v Hin. rewrite Hsame. apply Hm. by right.
Qed.

(** On mergeable inputs the loop runs to its end, and leaves in the
    dictionary it fills the merged argument of every key it went through. *)
Lemma get_DER_arguments_loop_merges (items : list (string * argument_spec))
    (cfg : positive) (kwargs : dict) (r : positive) :
  cfg ≠ r →
  NoDup items.*1 →
  ∀ (used : list string) (h : heap),
    mergeable items h cfg kwargs →
    ∃ used' h',
      get_DER_arguments_loop items cfg kwargs r used h = (Ok used', h')
      ∧ (∀ key value, (key, value) ∈ items →
           deref h' r !! key
           = match merged_argument kwargs value key with
             | Some v => Some v
             | None => deref h r !! key
             end)
      ∧ (∀ key, key ∉ items.*1 → deref h' r !! key = deref h r !! key).
Proof.
  intros Hcfg. induction items as [|[key value] rest IH]; intros Hnd used h Hm.
  - exists used, h. split; [done|]. split; [|done].
    intros ?? Hin. inversion Hin.
  - apply NoDup_cons in Hnd as [Hfresh Hnd].
    pose proof (Hm key value ltac:(left)) as Hhead.
    simpl. unfold bind, local_getitem, contains, update, ret.
    destruct (kwargs !! key) as [v|] eqn:Hkw.
    + (* the keyword argument *)
      rewrite bool_decide_eq_true_2 by eauto. rewrite Hhead.
      set (h1 := <[r := <[key := v]> (deref h r)]> h).
      destruct (IH Hnd (used ++ [key]) h1) as (used' & h' & Hrun & Hin & Hout).
      { apply (mergeable_tail key value rest h); [|done].
        by apply deref_insert_ne. }
      exists used', h'. split; [done|]. split.
      * intros k v' [Heq|Hrest]%elem_of_cons.
        -- simplify_eq. rewrite Hout by done. unfold merged_argument.
           rewrite Hkw. unfold h1. by rewrite deref_insert_eq, lookup_insert_eq.
        -- rewrite (Hin k v' Hrest). destruct (merged_argument kwargs v' k); [done|].
           unfold h1. rewrite deref_insert_eq, lookup_insert_ne; [done|].
           intros ->. apply Hfresh. apply list_elem_of_fmap. by exists (k, v').
      * intros k Hk. apply not_elem_of_cons in Hk as [Hne Hk].
        rewrite (Hout k Hk). unfold h1.
        by rewrite deref_insert_eq, lookup_insert_ne.
    + rewrite bool_decide_eq_false_2 by (by intros [? ?]).
      rewrite Hhead. rewrite bool_decide_eq_false_2 by (by intros [? ?]).
      destruct (is_not_None (default_value value)) eqn:Hdef.
      * (* the default *)
        set (h1 := <[r := <[key := default_value value]> (deref h r)]> h).
        destruct (IH Hnd used h1) as (used' & h' & Hrun & Hin & Hout).
        { apply (mergeable_tail key value rest h); [|done].
          by apply deref_insert_ne. }
        exists used', h'. split; [done|]. split.
        -- intros k v' [Heq|Hrest]%elem_of_cons.
           ++ simplify_eq. rewrite Hout by done. unfold merged_argument.
              rewrite Hkw, Hdef. unfold h1.
              by rewrite deref_insert_eq, lookup_insert_eq.
           ++ rewrite (Hin k v' Hrest).
              destruct (merged_argument kwargs v' k); [done|].
              unfold h1. rewrite deref_insert_eq, lookup_insert_ne; [done|].
              intros ->. apply Hfresh. apply list_elem_of_fmap. by exists (k, v').
        -- intros k Hk. apply not_elem_of_cons in Hk as [Hne Hk].
           rewrite (Hout k Hk). unfold h1.
           by rewrite deref_insert_eq, lookup_insert_ne.
      * (* neither: the key is left out *)
        destruct (IH Hnd used h) as (used' & h' & Hrun & Hin & Hout).
        { by apply (mergeable_tail key value rest h). }
        exists used', h'. split; [done|]. split.
        -- intros k v' [Heq|Hrest]%elem_of_cons.
           ++ simplify_eq. rewrite Hout by done. unfold merged_argument.
              by rewrite Hkw, Hdef.
           ++ by rewrite (Hin k v' Hrest).
        -- intros k Hk. apply not_elem_of_cons in Hk as [Hne Hk].
           by rewrite (Hout k Hk).
Qed.

(** The loop raises the first exception on the way, when there is one. *)
Lemma get_DER_arguments_loop_failure (items : list (string * argument_spec))
    (cfg : positive) (kwargs : dict) (r : positive) (e : exn) :
  cfg ≠ r →
  ∀ (used : list string) (h : heap),
    merge_failure items kwargs (deref h cfg) = Some e →
    ∃ h', get_DER_arguments_loop items cfg kwargs r used h = (Raise e, h').
Proof.
  intros Hcfg. induction items as [|[key value] rest IH]; intros used h Hfail;
    [discriminate|].
  cbn [merge_failure] in Hfail. cbn [get_DER_arguments_loop].
  unfold bind, local_getitem, contains, update, ret, raise.
  destruct (kwargs !! key) as [v|] eqn:Hkw.
  - rewrite bool_decide_eq_true_2 by eauto.
    destruct (isinstance v (type value)); [|simplify_eq; eauto].
    apply IH. by rewrite deref_insert_ne.
  - rewrite bool_decide_eq_false_2 by (by intros [? ?]).
    destruct (deref h cfg !! key) as [c|] eqn:Hc.
    + rewrite bool_decide_eq_true_2 by eauto. simplify_eq. eauto.
    + rewrite bool_decide_eq_false_2 by (by intros [? ?]).
      destruct (is_not_None (default_value value)); apply IH; [|done].
      by rewrite deref_insert_ne.
Qed.

Lemma merge_failure_None_mergeable (items : list (string * argument_spec))
    (h : heap) (cfg : positive) (kwargs : dict) :
  merge_failure items kwargs (deref h cfg) = None ↔
  mergeable items h cfg kwargs.
Proof.
  induction items as [|[key value] rest IH]; simpl.
  - split; [|done]. intros _ k v Hin. inversion Hin.
  - split.
    + intros Hnone k v [Heq|Hin]%elem_of_cons.
      * injection Heq as -> ->. destruct (kwargs !! key);
          [by destruct (isinstance _ _)|by destruct (deref h cfg !! key)].
      * apply IH; [|done].
        destruct (kwargs !! key);
          [by destruct (isinstance _ _)|by destruct (deref h cfg !! key)].
    + intros Hm. pose proof (Hm key value ltac:(left)) as Hhead.
      assert (Hrest : mergeable rest h cfg kwargs)
        by (intros k v Hin; apply Hm; by right).
      apply IH in Hrest.
      destruct (kwargs !! key); by rewrite Hhead.
Qed.

(** With keyword arguments of the declared types, the first exception is
    the [KeyError] of a key that only the configuration holds. *)
Lemma merge_failure_well_typed (items : list (string * argument_spec))
    (kwargs cfg : dict) (e : exn) :
  (∀ key value v, (key, value) ∈ items → kwargs !! key = Some v →
     isinstance v (type value) = true) →
  merge_failure items kwargs cfg = Some e →
  ∃ key, e = KeyError (msg_key key)
         ∧ key ∈ items.*1 ∧ kwargs !! key = None ∧ is_Some (cfg !! key).
Proof.
  induction items as [|[key value] rest IH]; intros Htyped Hfail;
    [discriminate|].
  assert (Hrest : ∀ k v x, (k, v) ∈ rest → kwargs !! k = Some x →
            isinstance x (type v) = true)
    by (intros k v x Hin; apply Htyped; by right).
  cbn [merge_failure] in Hfail.
  destruct (kwargs !! key) as [v|] eqn:Hkw.
  - rewrite (Htyped key value v) in Hfail by (done || by left).
    destruct (IH Hrest Hfail) as (k & -> & Hin & Hk & Hc).
    exists k. repeat split; try done. rewrite fmap_cons. by right.
  - destruct (cfg !! key) as [c|] eqn:Hc.
    + simplify_eq. exists key.
      split; [done|]. split; [rewrite fmap_cons; by left|].
      split; [done|by rewrite Hc].
    + destruct (IH Hrest Hfail) as (k & -> & Hin & Hk & Hc').
      exists k. repeat split; try done. rewrite fmap_cons. by right.
Qed.

Lemma merge_failure_config_key (items : list (string * argument_spec))
    (kwargs cfg : dict) (key : string) (value : argument_spec) :
  (key, value) ∈ items → kwargs !! key = None → is_Some (cfg !! key) →
  is_Some (merge_failure items kwargs cfg).
Proof.
  induction items as [|[k0 v0] rest IH]; intros Hin Hkw Hcfg;
    [inversion Hin|].
  cbn [merge_failure]. apply elem_of_cons in Hin as [Heq|Hin].
  - simplify_eq. rewrite Hkw. destruct Hcfg as [c ->]. eauto.
  - destruct (kwargs !! k0); [destruct (isinstance _ _); eauto|].
    destruct (cfg !! k0); eauto.
Qed.

Lemma DER_argument_spec_NoDup : NoDup DER_argument_spec.*1.
Proof.
  refine (bool_decide_unpack (NoDup DER_argument_spec.*1) _).
  vm_compute. exact I.
Qed.

Example get_DER_arguments_verbosity_in_config :
  get_DER_arguments 2 ∅ heap_with_verbosity
  = (Raise (KeyError (msg_key "verbosity")), <[3%positive := ∅]> heap_with_verbosity).
Proof. vm_compute. reflexivity. Qed.

(** ** The loop of setup_DER over the sections of the template *)

Lemma grown_by_sections_refl (cfg parent : positive) (h : heap) :
  grown_by_sections cfg parent h h.
Proof.
  repeat split; try done.
  intros c key _ Hnone. by left.
Qed.

Lemma grown_by_sections_trans (cfg parent : positive) (h h1 h2 : heap) :
  cfg ∈ dom h → parent ∈ dom h →
  grown_by_sections cfg parent h h1 →
  grown_by_sections cfg parent h1 h2 →
  grown_by_sections cfg parent h h2.
Proof.
  intros Hcfg Hpar (Ha & Hb & Hc & He & Hg) (Ha' & Hb' & Hc' & He' & Hg').
  split; [set_solver|]. split; [|split; [|split]].
  - intros l Hl H1 H2. rewrite Hb' by set_solver. by apply Hb.
  - intros l Hl Hl2. destruct (decide (l ∈ dom h1)) as [Hin|Hout].
    + rewrite Hb'; [by apply Hc|done| |]; intros ->; done.
    + by apply Hc'.
  - intros c key v Hc_ Hv. apply He'; [done|]. by apply He.
  - intros c key Hc_ Hnone.
    destruct (Hg c key Hc_ Hnone) as [Hn|(e & Hv & He1 & He2)].
    + destruct (Hg' c key Hc_ Hn) as [Hn'|(e & Hv & He1 & He2)]; [by left|].
      right. exists e. split; [done|]. split; [|done].
      intros Hin. apply He1. by apply (subset_elem h h1).
    + right. exists e. split; [by apply He'|]. split; [done|].
      by apply (subset_elem h1 h2).
Qed.

(** One [add_missing_section] on either configuration. *)
Lemma add_missing_section_grows (cfg parent c : positive) (key : string)
    (h : heap) :
  c = cfg ∨ c = parent → cfg ∈ dom h → parent ∈ dom h →
  ∃ h', add_missing_section c key h = (Ok tt, h')
        ∧ grown_by_sections cfg parent h h'
        ∧ is_Some (deref h' c !! key)
        ∧ (∀ c' key', c' ∈ dom h → key' ≠ key →
             deref h' c' !! key' = deref h c' !! key').
Proof.
  intros Hc Hcfg Hpar.
  assert (Hlive : c ∈ dom h) by (by destruct Hc as [-> | ->]).
  unfold add_missing_section, bind, contains, new_dict, update, ret.
  destruct (deref h c !! key) as [v|] eqn:Hkey.
  - rewrite bool_decide_eq_true_2 by eauto.
    exists h. split; [done|]. split; [apply grown_by_sections_refl|].
    split; [by rewrite Hkey|done].
  - rewrite bool_decide_eq_false_2 by (by intros [? ?]).
    set (e := fresh (dom h)).
    assert (He : e ∉ dom h) by apply fresh_not_in_dom.
    assert (Hce : c ≠ e) by (intros ->; done).
    rewrite (deref_insert_ne h e c) by done.
    eexists. split; [done|]. split; [|split].
    + split; [intros l Hl; by do 2 apply dom_insert_subseteq|].
      split; [|split; [|split]].
      * intros l Hl H1 H2.
        rewrite !lookup_insert_ne; [done| |]; intros ->; [done|].
        destruct Hc; done.
      * intros l Hl Hl2. rewrite !dom_insert_L in Hl2.
        apply elem_of_union in Hl2 as [Hl2|Hl2];
          [apply elem_of_singleton in Hl2; by subst l|].
        apply elem_of_union in Hl2 as [Hl2|Hl2]; [|done].
        apply elem_of_singleton in Hl2. subst l.
        by rewrite lookup_insert_ne, lookup_insert_eq.
      * intros c' k v Hc' Hv.
        destruct (decide (c' = c)) as [->|Hne].
        -- rewrite deref_insert_eq. rewrite lookup_insert_ne; [done|].
           intros ->. congruence.
        -- rewrite !deref_insert_ne; [done| |done].
           intros ->. destruct Hc'; subst; done.
      * intros c' k Hc' Hnone.
        destruct (decide (c' = c)) as [->|Hne].
        -- rewrite deref_insert_eq. destruct (decide (key = k)) as [->|Hk].
           ++ right. exists e. rewrite lookup_insert_eq. split; [done|].
              split; [done|]. apply dom_insert_subseteq.
              rewrite dom_insert_L. apply elem_of_union_l.
              by apply elem_of_singleton.
           ++ left. by rewrite lookup_insert_ne.
        -- left. rewrite !deref_insert_ne; [done| |done].
           intros ->. destruct Hc'; subst; done.
    + by rewrite deref_insert_eq, lookup_insert_eq.
    + intros c' key' Hc' Hk.
      destruct (decide (c' = c)) as [->|Hne].
      * rewrite deref_insert_eq. by rewrite lookup_insert_ne.
      * rewrite !deref_insert_ne; [done| |done]. intros ->. done.
Qed.

(** One turn of the loop: both configurations get the section. *)
Lemma setup_DER_sections_turn (cfg parent : positive) (key : string)
    (h : heap) :
  cfg ∈ dom h → parent ∈ dom h →
  ∃ h', bind (add_missing_section cfg key)
             (fun _ => add_missing_section parent key) h = (Ok tt, h')
        ∧ grown_by_sections cfg parent h h'
        ∧ is_Some (deref h' cfg !! key)
        ∧ is_Some (deref h' parent !! key)
        ∧ (∀ c' key', c' ∈ dom h → key' ≠ key →
             deref h' c' !! key' = deref h c' !! key').
Proof.
  intros Hcfg Hpar.
  destruct (add_missing_section_grows cfg parent cfg key h)
    as (h1 & Hrun1 & Hg1 & Hs1 & Ho1); [by left|done|done|].
  assert (Hdom : dom h ⊆ dom h1) by apply Hg1.
  destruct (add_missing_section_grows cfg parent parent key h1)
    as (h2 & Hrun2 & Hg2 & Hs2 & Ho2); [by right|set_solver|set_solver|].
  exists h2. unfold bind. rewrite Hrun1. split; [done|].
  split; [by apply (grown_by_sections_trans cfg parent h h1 h2)|].
  split; [|split; [done|]].
  - destruct Hs1 as [v Hv]. exists v.
    destruct Hg2 as (_ & _ & _ & He & _). apply He; [by left|done].
  - intros c' key' Hc' Hk. rewrite Ho2 by set_solver. by apply Ho1.
Qed.

Lemma setup_DER_sections_grows (t : templates.design_template)
    (cfg parent : positive) (h : heap) :
  cfg ∈ dom h → parent ∈ dom h →
  ∃ h', setup_DER_sections t cfg parent h = (Ok tt, h')
        ∧ grown_by_sections cfg parent h h'
        ∧ (∀ key, key ∈ templates.sections t →
             is_Some (deref h' cfg !! key) ∧ is_Some (deref h' parent !! key))
        ∧ (∀ c key, c ∈ dom h → key ∉ templates.sections t →
             deref h' c !! key = deref h c !! key).
Proof.
  unfold setup_DER_sections. generalize (templates.sections t) as keys.
  intros keys. revert h.
  induction keys as [|key rest IH]; intros h Hcfg Hpar.
  - exists h. split; [done|]. split; [apply grown_by_sections_refl|].
    split; [|done]. intros key Hin. inversion Hin.
  - destruct (setup_DER_sections_turn cfg parent key h)
      as (h1 & Hrun1 & Hg1 & Hs1 & Hp1 & Ho1); [done|done|].
    assert (Hdom : dom h ⊆ dom h1) by apply Hg1.
    destruct (IH h1) as (h2 & Hrun2 & Hg2 & Hs2 & Ho2);
      [set_solver|set_solver|].
    exists h2. cbn [for_each]. unfold bind at 1. rewrite Hrun1.
    split; [done|].
    split; [by apply (grown_by_sections_trans cfg parent h h1 h2)|].
    split.
    + intros k [->|Hin]%elem_of_cons; [|by apply Hs2].
      destruct Hg2 as (_ & _ & _ & He & _).
      destruct Hs1 as [v Hv]. destruct Hp1 as [v' Hv'].
      split; [exists v|exists v']; apply He; auto.
    + intros c k Hc Hk. apply not_elem_of_cons in Hk as [Hne Hk].
      rewrite Ho2; [|by apply (subset_elem h h1)|done]. by apply Ho1.
Qed.

(** ** What the resolver writes *)

Lemma get_DER_arguments_frame (cfg : positive) (kwargs : dict) (h : heap)
    (l : positive) :
  l ∈ dom h → (get_DER_arguments cfg kwargs h).2 !! l = h !! l.
Proof.
  intros Hl. unfold get_DER_arguments. generalize DER_argument_spec as items.
  intros items. unfold bind at 1, new_dict.
  set (r := fresh (dom h)). set (h1 := <[r := ∅]> h).
  assert (Hne : l ≠ r) by (by apply live_not_fresh).
  pose proof (get_DER_arguments_loop_frame items cfg kwargs r [] h1 l Hne)
    as Hframe.
  unfold bind.
  destruct (get_DER_arguments_loop items cfg kwargs r [] h1)
    as [[used|e] h'] eqn:Hrun; simpl in *;
    rewrite Hframe; unfold h1; by rewrite lookup_insert_ne.
Qed.

Lemma get_DER_arguments_fresh (cfg : positive) (kwargs : dict) (h h' : heap)
    (r : positive) :
  get_DER_arguments cfg kwargs h = (Ok r, h') → r ∉ dom h.
Proof.
  unfold get_DER_arguments. generalize DER_argument_spec as items.
  intros items. unfold bind, new_dict, ret.
  destruct (get_DER_arguments_loop items _ _ _ _ _) as [[used|e] h1];
    intros Hrun; [|discriminate].
  injection Hrun as <- _. apply fresh_not_in_dom.
Qed.

(** The loop of [setup_DER], run on its own, adds the section
    [basic_specs] to a configuration that lacks it, so that the
    configuration is not the dictionary it was. *)
Lemma setup_DER_sections_changes_config :
  deref heap_with_empty_configs 2 !! "basic_specs" = None
  ∧ deref (setup_DER_sections three_phase 2 3 heap_with_empty_configs).2 2
      !! "basic_specs" = Some (VDict 4)
  ∧ deref (setup_DER_sections three_phase 2 3 heap_with_empty_configs).2 2
    ≠ deref heap_with_empty_configs 2.
Proof.
  split; [reflexivity|]. split; [vm_compute; reflexivity|].
  intros Heq.
  assert (Hkey : deref (setup_DER_sections three_phase 2 3
                          heap_with_empty_configs).2 2 !! "basic_specs"
                 = deref heap_with_empty_configs 2 !! "basic_specs")
    by (by rewrite Heq).
  vm_compute in Hkey. discriminate Hkey.
Qed.

(** ** The merge *)

Lemma live_of_entry (h : heap) (cfg : positive) (key : string) :
  is_Some (deref h cfg !! key) → cfg ∈ dom h.
Proof.
  unfold deref. intros [v Hv]. apply elem_of_dom.
  destruct (h !! cfg); [done|]. simpl in Hv. by rewrite lookup_empty in Hv.
Qed.

(** The outcome of [get_DER_arguments] on a configuration that is a live
    dictionary: it raises the first exception on the way through the
    registry, or else returns a new dictionary that holds the merged
    argument of every key of the registry. *)
Lemma get_DER_arguments_outcome (cfg : positive) (kwargs : dict) (h : heap) :
  cfg ∈ dom h →
  match merge_failure DER_argument_spec kwargs (deref h cfg) with
  | Some e => ∃ h', get_DER_arguments cfg kwargs h = (Raise e, h')
  | None =>
    ∃ r h', get_DER_arguments cfg kwargs h = (Ok r, h')
            ∧ (r ∉ dom h)
            ∧ ∀ key value, (key, value) ∈ DER_argument_spec →
                deref h' r !! key = merged_argument kwargs value key
  end.
Proof.
  intros Hlive. unfold get_DER_arguments.
  pose proof DER_argument_spec_NoDup as Hnd. revert Hnd.
  generalize DER_argument_spec as items. intros items Hnd.
  set (r := fresh (dom h)). set (h1 := <[r := ∅]> h).
  assert (Hne : cfg ≠ r) by (by apply live_not_fresh).
  assert (Hsame : deref h1 cfg = deref h cfg)
    by (unfold h1; by rewrite deref_insert_ne).
  destruct (merge_failure items kwargs (deref h cfg)) as [e|] eqn:Hfail.
  - destruct (get_DER_arguments_loop_failure items cfg kwargs r e Hne [] h1)
      as (h' & Hrun); [by rewrite Hsame|].
    exists h'. unfold bind, new_dict. fold r h1. by rewrite Hrun.
  - destruct (get_DER_arguments_loop_merges items cfg kwargs r Hne Hnd [] h1)
      as (used & h' & Hrun & Hin & _).
    { apply merge_failure_None_mergeable. by rewrite Hsame. }
    exists r, h'. unfold bind, new_dict, ret. fold r h1. rewrite Hrun.
    split; [done|]. split; [apply fresh_not_in_dom|].
    intros key value Hkv. rewrite (Hin key value Hkv).
    destruct (merged_argument kwargs value key); [done|].
    unfold h1. by rewrite deref_insert_eq, lookup_empty.
Qed.

(** C1, where the code departs from it: a registry key that the
    configuration holds and the keyword arguments lack makes
    [get_DER_arguments] raise, whatever the type of the value that the
    configuration holds, so that this value is never returned; and when the
    keyword arguments have the declared types, what is raised is the
    [KeyError] of the subscript [kwargs[key]] at such a key. *)
Theorem get_DER_arguments_config_value_raises
    (cfg : positive) (kwargs : dict) (h : heap)
    (key : string) (value : argument_spec) :
  (key, value) ∈ DER_argument_spec →
  kwargs !! key = None →
  is_Some (deref h cfg !! key) →
  ∃ e h',
    get_DER_arguments cfg kwargs h = (Raise e, h')
    ∧ ((∀ k v x, (k, v) ∈ DER_argument_spec → kwargs !! k = Some x →
          isinstance x (type v) = true) →
       ∃ k, e = KeyError (msg_key k)
            ∧ kwargs !! k = None ∧ is_Some (deref h cfg !! k)).
Proof.
  intros Hin Hkw Hcfg.
  pose proof (get_DER_arguments_outcome cfg kwargs h
                (live_of_entry h cfg key Hcfg)) as Hout.
  destruct (merge_failure_config_key DER_argument_spec kwargs (deref h cfg)
              key value Hin Hkw Hcfg) as [e Hfail].
  rewrite Hfail in Hout. destruct Hout as (h' & Hrun).
  exists e, h'. split; [exact Hrun|]. intros Htyped.
  destruct (merge_failure_well_typed DER_argument_spec kwargs (deref h cfg) e
              Htyped Hfail) as (k & He & _ & Hk & Hc).
  by exists k.
Qed.

Lemma get_DER_arguments_config_value_raises_witness :
  ∃ e h', get_DER_arguments 2 ∅ heap_with_verbosity = (Raise e, h')
          ∧ ∃ k, e = KeyError (msg_key k).
Proof.
  destruct (get_DER_arguments_config_value_raises 2 ∅ heap_with_verbosity
              "verbosity"
              {| default_value := VStr "INFO"; type := string_type |})
    as (e & h' & Hrun & Hkey).
  - apply list_elem_of_In. simpl. tauto.
  - reflexivity.
  - exists (VStr "DEBUG"). reflexivity.
  - exists e, h'. split; [exact Hrun|].
    destruct Hkey as (k & He & _).
    + intros k v x _ Hx. rewrite lookup_empty in Hx. discriminate Hx.
    + by exists k.
Defined.

(** The parts of the merge that do not go through the configuration: on a
    live configuration, [get_DER_arguments] raises the first exception that
    [merge_failure] finds in the order of the registry, which for a keyword
    argument of an undeclared type is the [ValueError] built from the key,
    the type found and the types declared; without such an exception it
    returns a new dictionary in which every key of the registry has the
    keyword argument if there is one, and else the default if the registry
    declares one. *)
Theorem get_DER_arguments_first_failure_or_merge
    (cfg : positive) (kwargs : dict) (h : heap) :
  cfg ∈ dom h →
  match merge_failure DER_argument_spec kwargs (deref h cfg) with
  | Some e => ∃ h', get_DER_arguments cfg kwargs h = (Raise e, h')
  | None =>
    ∃ r h', get_DER_arguments cfg kwargs h = (Ok r, h')
            ∧ (r ∉ dom h)
            ∧ ∀ key value, (key, value) ∈ DER_argument_spec →
                deref h' r !! key = merged_argument kwargs value key
  end.
Proof. apply get_DER_arguments_outcome. Qed.

Lemma get_DER_arguments_first_failure_or_merge_witness :
  ∃ h', get_DER_arguments 2 (<["powerRating" := VStr "50"]> ∅)
          heap_with_empty_configs
        = (Raise (ValueError (msg_type_mismatch "powerRating" Tstr
                                [Tint; Tfloat])), h').
Proof.
  assert (Hlive : 2%positive ∈ dom heap_with_empty_configs)
    by (vm_compute; reflexivity).
  assert (Hfail : merge_failure DER_argument_spec
                    (<["powerRating" := VStr "50"]> ∅)
                    (deref heap_with_empty_configs 2)
                  = Some (ValueError (msg_type_mismatch "powerRating" Tstr
                                        [Tint; Tfloat])))
    by (vm_compute; reflexivity).
  pose proof (get_DER_arguments_first_failure_or_merge 2
                (<["powerRating" := VStr "50"]> ∅) heap_with_empty_configs
                Hlive) as Hout.
  rewrite Hfail in Hout. exact Hout.
Defined.

(** C3, as the code has it: on inputs on which no branch raises,
    [get_DER_arguments] returns a new dictionary that holds, for every key
    of the registry, the keyword argument if there is one and else the
    default if the registry declares one; a key without a default that the
    keyword arguments and the configuration lack is left out of it, and the
    call returns all the same. *)
Theorem get_DER_arguments_omits_key_without_default
    (cfg : positive) (kwargs : dict) (h : heap) :
  cfg ∈ dom h →
  mergeable DER_argument_spec h cfg kwargs →
  ∃ r h',
    get_DER_arguments cfg kwargs h = (Ok r, h')
    ∧ (r ∉ dom h)
    ∧ (∀ key value, (key, value) ∈ DER_argument_spec →
         deref h' r !! key = merged_argument kwargs value key)
    ∧ (∀ key value, (key, value) ∈ DER_argument_spec →
         default_value value = VNone →
         kwargs !! key = None → deref h cfg !! key = None →
         deref h' r !! key = None).
Proof.
  intros Hlive Hm.
  pose proof (get_DER_arguments_outcome cfg kwargs h Hlive) as Hout.
  apply merge_failure_None_mergeable in Hm. rewrite Hm in Hout.
  destruct Hout as (r & h' & Hrun & Hfresh & Hmerged).
  exists r, h'. split; [done|]. split; [done|]. split; [done|].
  intros key value Hkv Hdef Hkw _. rewrite (Hmerged key value Hkv).
  unfold merged_argument. by rewrite Hkw, Hdef.
Qed.

Lemma get_DER_arguments_omits_key_without_default_witness :
  ∃ r h',
    get_DER_arguments 2 ∅ heap_with_empty_configs = (Ok r, h')
    ∧ deref h' r !! "verbosity" = Some (VStr "INFO")
    ∧ deref h' r !! "derId" = None.
Proof.
  destruct (get_DER_arguments_omits_key_without_default
              2 ∅ heap_with_empty_configs)
    as (r & h' & Hrun & _ & Hmerged & Homit).
  - vm_compute. reflexivity.
  - intros key value _. reflexivity.
  - exists r, h'. split; [exact Hrun|]. split.
    + apply (Hmerged "verbosity"
               {| default_value := VStr "INFO"; type := string_type |}).
      apply list_elem_of_In. simpl. tauto.
    + apply (Homit "derId" {| default_value := VNone; type := string_type |}).
      * apply list_elem_of_In. simpl. tauto.
      * reflexivity.
      * reflexivity.
      * reflexivity.
Defined.

(** C3, as stated, fails: with no keyword argument and an empty
    configuration, [derId], which has no default, is in neither, and
    [get_DER_arguments] returns the six defaults rather than raise. *)
Lemma get_DER_arguments_returns_without_derId :
  (("derId", {| default_value := VNone; type := string_type |})
     ∈ DER_argument_spec)
  ∧ (∅ : dict) !! "derId" = None
  ∧ deref heap_with_empty_configs 2 !! "derId" = None
  ∧ get_DER_arguments 2 ∅ heap_with_empty_configs
    = (Ok 4%positive, <[4%positive := default_arguments]> heap_with_empty_configs)
  ∧ default_arguments !! "derId" = None
  ∧ ¬ ∃ e h', get_DER_arguments 2 ∅ heap_with_empty_configs = (Raise e, h').
Proof.
  assert (Hrun : get_DER_arguments 2 ∅ heap_with_empty_configs
                 = (Ok 4%positive,
                    <[4%positive := default_arguments]> heap_with_empty_configs))
    by (vm_compute; reflexivity).
  split; [apply list_elem_of_In; simpl; tauto|].
  split; [reflexivity|]. split; [reflexivity|]. split; [exact Hrun|].
  split; [reflexivity|].
  intros (e & h' & Hraise). rewrite Hrun in Hraise. discriminate Hraise.
Qed.

(** ** The dictionary that the merge returns *)

(** Every default of the registry has the type that the registry declares
    for its key. *)
Lemma registry_defaults_typed (key : string) (value : argument_spec) :
  (key, value) ∈ DER_argument_spec →
  is_not_None (default_value value) = true →
  isinstance (default_value value) (type value) = true.
Proof.
  assert (Hall : forallb (fun kv : string * argument_spec =>
                    implb (is_not_None (default_value kv.2))
                          (isinstance (default_value kv.2) (type kv.2)))
                   DER_argument_spec = true) by (vm_compute; reflexivity).
  intros Hin Hdef. apply list_elem_of_In in Hin.
  pose proof (proj1 (forallb_forall _ _) Hall (key, value) Hin) as Hkv.
  simpl in Hkv. by rewrite Hdef in Hkv.
Qed.

(** No type of the registry is the type of [None]. *)
Lemma registry_types_exclude_None (key : string) (value : argument_spec) :
  (key, value) ∈ DER_argument_spec → isinstance VNone (type value) = false.
Proof.
  assert (Hall : forallb (fun kv : string * argument_spec =>
                    negb (isinstance VNone (type kv.2)))
                   DER_argument_spec = true) by (vm_compute; reflexivity).
  intros Hin. apply list_elem_of_In in Hin.
  pose proof (proj1 (forallb_forall _ _) Hall (key, value) Hin) as Hkv.
  simpl in Hkv. by apply negb_true_iff in Hkv.
Qed.

(** What a call that returned has done. *)
Lemma get_DER_arguments_returned (cfg : positive) (kwargs : dict)
    (h h' : heap) (r : positive) :
  cfg ∈ dom h →
  get_DER_arguments cfg kwargs h = (Ok r, h') →
  mergeable DER_argument_spec h cfg kwargs
  ∧ (∀ key value, (key, value) ∈ DER_argument_spec →
       deref h' r !! key = merged_argument kwargs value key)
  ∧ (∀ key, key ∉ DER_argument_spec.*1 → deref h' r !! key = None).
Proof.
  intros Hlive. unfold get_DER_arguments.
  pose proof DER_argument_spec_NoDup as Hnd. revert Hnd.
  generalize DER_argument_spec as items. intros items Hnd.
  set (r0 := fresh (dom h)). set (h1 := <[r0 := ∅]> h).
  assert (Hne : cfg ≠ r0) by (by apply live_not_fresh).
  assert (Hsame : deref h1 cfg = deref h cfg)
    by (unfold h1; by rewrite deref_insert_ne).
  destruct (merge_failure items kwargs (deref h cfg)) as [e|] eqn:Hfail.
  - destruct (get_DER_arguments_loop_failure items cfg kwargs r0 e Hne [] h1)
      as (h2 & Hrun); [by rewrite Hsame|].
    unfold bind, new_dict. fold r0 h1. rewrite Hrun. discriminate.
  - apply merge_failure_None_mergeable in Hfail.
    destruct (get_DER_arguments_loop_merges items cfg kwargs r0 Hne Hnd [] h1)
      as (used & h2 & Hrun & Hin & Hout).
    { intros key value Hkv. rewrite Hsame. by apply Hfail. }
    unfold bind, new_dict, ret. fold r0 h1. rewrite Hrun.
    intros [= <- <-]. split; [done|]. split.
    + intros key value Hkv. rewrite (Hin key value Hkv).
      destruct (merged_argument kwargs value key); [done|].
      unfold h1. by rewrite deref_insert_eq, lookup_empty.
    + intros key Hkey. rewrite (Hout key Hkey).
      unfold h1. by rewrite deref_insert_eq, lookup_empty.
Qed.

Lemma registry_key_entry (key : string) :
  key ∈ DER_argument_spec.*1 → ∃ value, (key, value) ∈ DER_argument_spec.
Proof.
  intros Hin. apply list_elem_of_fmap in Hin as [[k v] [-> Hin]]. by exists v.
Qed.

(** The dictionary that [get_DER_arguments] returns: its keys are keys of
    the registry, so that a keyword argument that the registry does not
    name is left out without a word; every key for which the registry has
    a default is in it; every entry has a type that the registry declares
    for its key, and none is [None]; and the entry [derConfig], unless it
    was passed as a keyword argument, is the one dictionary that the
    registry holds as its default, the same object for every call. *)
Theorem get_DER_arguments_result_typed (cfg : positive) (kwargs : dict)
    (h h' : heap) (r : positive) :
  cfg ∈ dom h →
  get_DER_arguments cfg kwargs h = (Ok r, h') →
  (∀ key, is_Some (deref h' r !! key) → key ∈ DER_argument_spec.*1)
  ∧ (∀ key value, (key, value) ∈ DER_argument_spec →
       is_not_None (default_value value) = true →
       is_Some (deref h' r !! key))
  ∧ (∀ key value v, (key, value) ∈ DER_argument_spec →
       deref h' r !! key = Some v →
       isinstance v (type value) = true ∧ v ≠ VNone)
  ∧ (kwargs !! "derConfig" = None →
     deref h' r !! "derConfig" = Some (VDict derConfig_default)).
Proof.
  intros Hlive Hrun.
  destruct (get_DER_arguments_returned cfg kwargs h h' r Hlive Hrun)
    as (Hm & Hin & Hout).
  split; [|split; [|split]].
  - intros key Hsome.
    destruct (decide (key ∈ DER_argument_spec.*1)) as [|Hnot]; [done|].
    rewrite (Hout key Hnot) in Hsome. by destruct Hsome.
  - intros key value Hkv Hdef. rewrite (Hin key value Hkv).
    unfold merged_argument. destruct (kwargs !! key); [by eexists|].
    rewrite Hdef. by eexists.
  - intros key value v Hkv Hv. rewrite (Hin key value Hkv) in Hv.
    assert (Htyped : isinstance v (type value) = true).
    { unfold merged_argument in Hv. pose proof (Hm key value Hkv) as Hk.
      destruct (kwargs !! key) as [x|]; [by simplify_eq|].
      destruct (is_not_None (default_value value)) eqn:Hdef; [|done].
      simplify_eq. by apply (registry_defaults_typed key). }
    split; [done|]. intros ->.
    by rewrite (registry_types_exclude_None key value Hkv) in Htyped.
  - intros Hkw.
    rewrite (Hin "derConfig" {| default_value := VDict derConfig_default;
                                type := [Tdict] |}).
    + unfold merged_argument. by rewrite Hkw.
    + apply list_elem_of_In. simpl. tauto.
Qed.

Lemma get_DER_arguments_result_typed_witness :
  deref (<[4%positive := default_arguments]> heap_with_empty_configs) 4
    !! "derConfig" = Some (VDict derConfig_default)
  ∧ ∀ key,
      is_Some (deref (<[4%positive := default_arguments]>
                        heap_with_empty_configs) 4 !! key) →
      key ∈ DER_argument_spec.*1.
Proof.
  destruct (get_DER_arguments_result_typed 2 ∅ heap_with_empty_configs
              (<[4%positive := default_arguments]> heap_with_empty_configs) 4)
    as (Hkeys & _ & _ & Hshared).
  - vm_compute. reflexivity.
  - vm_compute. reflexivity.
  - split; [apply Hshared; reflexivity|exact Hkeys].
Defined.

End ResolverProofs.

(** * Properties of the PV module *)

Module PVModuleProofs.
Import Py PVModule Examples.
Local Open Scope py_scope.
Local Open Scope R_scope.

(** ** Constants and arithmetic *)

Lemma k_pos : 0 < k.
Proof. unfold k. lra. Qed.

Lemma A_pos : 0 < A.
Proof. unfold A. lra. Qed.

Lemma T0_value : T0 = 298.15.
Proof. unfold T0. lra. Qed.

Lemma denominator_nonzero (T Ns_ : R) :
  T <> 0 -> Ns_ <> 0 -> k * T * A * Ns_ <> 0.
Proof.
  intros HT HN. pose proof k_pos as Hk. pose proof A_pos as HA.
  intros Hzero.
  apply Rmult_integral in Hzero as [Hzero|Hzero]; [|done].
  apply Rmult_integral in Hzero as [Hzero|Hzero]; [|lra].
  apply Rmult_integral in Hzero as [Hzero|Hzero]; [lra|done].
Qed.

(** *** The float product that the exponent is divided by *)

Lemma underflow_pos : 0 < underflow.
Proof. unfold underflow. apply Rinv_0_lt_compat, pow_lt. lra. Qed.

Lemma underflow_lt_float_min : underflow < float_min.
Proof.
  unfold underflow, float_min. apply Rinv_lt_contravar.
  - apply Rmult_lt_0_compat; apply pow_lt; lra.
  - apply Rlt_pow; [lra|lia].
Qed.

Lemma float_mul_exact (x y : R) :
  underflow < Rabs (x * y) -> float_mul x y = x * y.
Proof.
  intros Hxy. unfold float_mul.
  destruct (Rle_dec (Rabs (x * y)) underflow); [lra|done].
Qed.

Lemma float_mul_underflow (x y : R) :
  Rabs (x * y) <= underflow -> float_mul x y = 0.
Proof.
  intros Hxy. unfold float_mul.
  destruct (Rle_dec (Rabs (x * y)) underflow); [done|lra].
Qed.

(** A temperature at which [k*Tactual] does not underflow: the float
    product is the real one. *)
Lemma exponent_divisor_exact (self : self_t) :
  underflow < Rabs (k * Tactual self) ->
  exponent_divisor self = k * Tactual self * A * Ns self.
Proof.
  intros HT. unfold exponent_divisor.
  rewrite (float_mul_exact k) by done.
  rewrite float_mul_exact; [done|].
  rewrite Rabs_mult, (Rabs_pos_eq A) by (unfold A; lra).
  pose proof underflow_pos as Hu. unfold A. nra.
Qed.

Lemma exponent_divisor_nonzero (self : self_t) :
  underflow < Rabs (k * Tactual self) -> Ns self <> 0 ->
  exponent_divisor self <> 0.
Proof.
  intros HT HN. rewrite exponent_divisor_exact by done.
  apply denominator_nonzero; [|done].
  intros Hzero. rewrite Hzero, Rmult_0_r, Rabs_R0 in HT.
  pose proof underflow_pos. lra.
Qed.

(** A temperature at which [k*Tactual] underflows: the float product is
    0.0. *)
Lemma exponent_divisor_underflow (self : self_t) :
  Rabs (k * Tactual self) <= underflow -> exponent_divisor self = 0.
Proof.
  intros HT. unfold exponent_divisor.
  rewrite (float_mul_underflow k) by done.
  rewrite float_mul_underflow.
  - apply Rmult_0_l.
  - rewrite Rmult_0_l, Rabs_R0. left. apply underflow_pos.
Qed.

Lemma normal_clear_of_underflow (x : R) :
  float_min <= Rabs x -> underflow < Rabs x.
Proof. pose proof underflow_lt_float_min. lra. Qed.

(** At 298.15 K, the temperature of the fit, [k*Tactual] is far from the
    underflow. *)
Lemma fit_temperature_normal : float_min <= Rabs (k * 298.15).
Proof.
  rewrite Rabs_pos_eq by (unfold k; lra). unfold float_min, k. lra.
Qed.

Lemma div_le_bound (x y c : R) : 0 < y -> x <= c * y -> x / y <= c.
Proof.
  intros Hy Hx. apply (Rmult_le_reg_r y); [done|].
  unfold Rdiv. rewrite Rmult_assoc, Rinv_l, Rmult_1_r; lra.
Qed.

Lemma max0_Rmax (x : R) : max0 x = Rmax 0 x.
Proof.
  unfold max0, Rmax. destruct (Rlt_dec 0 x), (Rle_dec 0 x); lra.
Qed.

Lemma truediv_ok {S} (x y : R) (s : S) :
  y <> 0 -> truediv x y s = (Ok (x / y), s).
Proof. intros Hy. unfold truediv. by destruct (Req_EM_T y 0). Qed.

Lemma truediv_zero {S} (x y : R) (s : S) :
  y = 0 -> truediv x y s = (Raise ZeroDivisionError, s).
Proof. intros Hy. unfold truediv. by destruct (Req_EM_T y 0). Qed.

Lemma math_exp_ok {S} (x : R) (s : S) :
  x <= exp_max_arg -> math_exp x s = (Ok (exp x), s).
Proof.
  intros Hx. unfold math_exp. destruct (Rlt_dec exp_max_arg x); [lra|done].
Qed.

(** ** Iph_calc *)

(** C8: the photocurrent is [(Iscr + Kv (T - T0)) (S / 100)] at every
    insolation [S] and temperature [T]; it is [Iscr] at insolation 100 and
    temperature [T0]; and insolation outside [0, 100] is not clamped: the
    photocurrent is linear in the insolation, negative at the reference
    temperature below insolation 0 and above [Iscr] beyond insolation 100. *)
Theorem Iph_calc_linear_unclamped (self : self_t) :
  Iph_calc self = (Iscr + Kv * (Tactual self - T0)) * (Sinsol self / 100)
  /\ (Sinsol self = 100 -> Tactual self = T0 -> Iph_calc self = Iscr)
  /\ (forall c : R,
        Iph_calc (set_Sinsol (c * Sinsol self) self) = c * Iph_calc self)
  /\ (Tactual self = T0 -> Sinsol self < 0 -> Iph_calc self < 0)
  /\ (Tactual self = T0 -> 100 < Sinsol self -> Iscr < Iph_calc self).
Proof.
  unfold Iph_calc. repeat split.
  - f_equal. lra.
  - intros -> ->. lra.
  - intros c. simpl. lra.
  - intros -> HS. unfold Iscr. lra.
  - intros -> HS. unfold Iscr. lra.
Qed.

Lemma Iph_calc_linear_unclamped_witness : Iph_calc module_10 = Iscr.
Proof.
  apply (Iph_calc_linear_unclamped module_10).
  - reflexivity.
  - simpl. unfold T0. lra.
Defined.

(** ** Ppv_calc *)

Lemma exponent_divisor_set_Iph (x : R) (self : self_t) :
  exponent_divisor (set_Iph x self) = exponent_divisor self.
Proof. reflexivity. Qed.

Lemma Ppv_calc_run (Sbase V : R) (self : self_t) :
  underflow < Rabs (k * Tactual self) -> Ns self <> 0 -> Sbase <> 0 ->
  (q * V) / (k * Tactual self * A * Ns self) <= exp_max_arg ->
  Ppv_calc Sbase V self
  = (Ok (Rmax 0 (panel_current self V * V) / Sbase),
     set_Ipv (panel_current self V) (set_Iph (Iph_calc self) self)).
Proof.
  intros HT HN HS Hexp.
  unfold Ppv_calc, bind, get, modify.
  rewrite exponent_divisor_set_Iph.
  rewrite truediv_ok by (by apply exponent_divisor_nonzero).
  rewrite exponent_divisor_exact by done.
  rewrite math_exp_ok by done. simpl.
  rewrite truediv_ok by done.
  by rewrite max0_Rmax.
Qed.

Lemma Ppv_calc_underflow (Sbase V : R) (self : self_t) :
  Rabs (k * Tactual self) <= underflow ->
  (Ppv_calc Sbase V self).1 = Raise ZeroDivisionError.
Proof.
  intros HT. unfold Ppv_calc, bind, get, modify.
  rewrite exponent_divisor_set_Iph.
  rewrite truediv_zero; [done|]. by apply exponent_divisor_underflow.
Qed.





(** [Ppv_calc] raises in the same way at a temperature of 1e-310 K, which
    is not 0: the float [k*Tactual] is 0.0. *)
Lemma Ppv_calc_raises_below_underflow :
  (Ppv_calc Sbase_50kVA 0 (set_Tactual 1e-310 module_10)).1
  = Raise ZeroDivisionError.
Proof.
  apply Ppv_calc_underflow. simpl.
  rewrite Rabs_pos_eq by (unfold k; lra). unfold k, underflow. lra.
Qed.

(** ** initialize_module_parameters and __init__ *)

Section Construction.

Variables (Sbase defaults_Tactual : R).
Variable module_parameters : gmap string module_parameters_entry.
Variable fsolve : (R -> R) -> R -> R.
Variable polyfit : list R -> list R -> nat -> list R.
Variable logger_call : result unit.

Lemma initialize_module_parameters_missing (self : self_t) :
  module_parameters !! parameter_ID self = None ->
  initialize_module_parameters module_parameters self
  = (Raise (ValueError (msg_module_parameters (parameter_ID self))), self).
Proof.
  intros Hnone. unfold initialize_module_parameters, bind, get.
  by rewrite Hnone.
Qed.

(** C9: when the parameter ID of the host is not in the table of module
    parameters, [initialize_module_parameters] raises the [ValueError] built
    from that ID and writes no attribute; [__init__] then raises too and
    leaves the object as it found it, and what it raises is that
    [ValueError] whenever its first statement, which formats the rating
    of the inverter for the log, finds the rating in the configuration of
    the host. *)
Theorem PVModule_init_parameters_not_found (Sinsol0 : R) (self : self_t) :
  module_parameters !! parameter_ID self = None ->
  initialize_module_parameters module_parameters self
  = (Raise (ValueError (msg_module_parameters (parameter_ID self))), self)
  /\ (exists e,
        __init__ Sbase defaults_Tactual module_parameters fsolve polyfit
          logger_call Sinsol0 self = (Raise e, self))
  /\ (forall (inverter_ratings : gmap string R) (Srated : R),
        DER_config self !! "inverter_ratings" = Some inverter_ratings ->
        inverter_ratings !! "Srated" = Some Srated ->
        __init__ Sbase defaults_Tactual module_parameters fsolve polyfit
          logger_call Sinsol0 self
        = (Raise (ValueError (msg_module_parameters (parameter_ID self))),
           self)).
Proof.
  intros Hnone. split; [by apply initialize_module_parameters_missing|].
  assert (Hfound : forall (inverter_ratings : gmap string R) (Srated : R),
             DER_config self !! "inverter_ratings" = Some inverter_ratings ->
             inverter_ratings !! "Srated" = Some Srated ->
             __init__ Sbase defaults_Tactual module_parameters fsolve polyfit
               logger_call Sinsol0 self
             = (Raise (ValueError (msg_module_parameters (parameter_ID self))),
                self)).
  { intros ratings Srated Hr Hs.
    unfold __init__, bind at 1, get. unfold bind at 1, config_getitem. rewrite Hr.
    unfold bind at 1, ret. rewrite Hs.
    unfold bind at 1. by rewrite initialize_module_parameters_missing. }
  split; [|exact Hfound].
  destruct (DER_config self !! "inverter_ratings") as [ratings|] eqn:Hr.
  - destruct (ratings !! "Srated") as [Srated|] eqn:Hs.
    + eexists. by apply (Hfound ratings Srated).
    + eexists. unfold __init__, bind at 1, get. unfold bind at 1, config_getitem.
      rewrite Hr. unfold bind at 1, ret. rewrite Hs. reflexivity.
  - eexists. unfold __init__, bind at 1, get. unfold bind at 1, config_getitem.
    rewrite Hr. reflexivity.
Qed.

End Construction.

Lemma PVModule_init_parameters_not_found_witness :
  __init__ Sbase_50kVA 298.15 table_10 seed_solver zero_fit (Ok tt) 100
    module_999
  = (Raise (ValueError (msg_module_parameters "999")), module_999).
Proof.
  eapply (PVModule_init_parameters_not_found Sbase_50kVA 298.15 table_10
            seed_solver zero_fit (Ok tt) 100 module_999).
  - reflexivity.
  - reflexivity.
  - reflexivity.
Defined.

(** ** Attributes that a method leaves alone *)

Section Keeps.

Context {B : Type} (f : self_t -> B).

Lemma keeps_ret {T} (a : T) : keeps f (ret a).
Proof. by intros s. Qed.

Lemma keeps_raise {T} (e : exn) : keeps f (raise (A := T) e).
Proof. by intros s. Qed.

Lemma keeps_get : keeps f get.
Proof. by intros s. Qed.

Lemma keeps_modify (g : self_t -> self_t) :
  (forall s, f (g s) = f s) -> keeps f (modify g).
Proof. intros Hg s. apply Hg. Qed.

Lemma keeps_bind {T U} (m : M self_t T) (c : T -> M self_t U) :
  keeps f m -> (forall a, keeps f (c a)) -> keeps f (bind m c).
Proof.
  intros Hm Hc s. unfold bind. specialize (Hm s).
  destruct (m s) as [[a|e] s']; simpl in *; [|done].
  by rewrite Hc.
Qed.

Lemma keeps_truediv (x y : R) : keeps f (truediv x y).
Proof. intros s. unfold truediv. by destruct (Req_EM_T y 0). Qed.

Lemma keeps_math_exp (x : R) : keeps f (math_exp x).
Proof. intros s. unfold math_exp. by destruct (Rlt_dec exp_max_arg x). Qed.

Lemma keeps_index (l : list R) (i : nat) : keeps f (index l i).
Proof. intros s. unfold index. by destruct (nth_error l i). Qed.

Lemma keeps_call_logger (logger_call : result unit) :
  keeps f (call_logger logger_call).
Proof. by intros s. Qed.

End Keeps.

(** Apply the rules above along the structure of a method. *)
Ltac keeps_steps :=
  repeat first
    [ apply keeps_bind; [|intros ?]
    | apply keeps_ret | apply keeps_raise | apply keeps_get
    | apply keeps_truediv | apply keeps_math_exp | apply keeps_index
    | apply keeps_call_logger
    | apply keeps_modify; intros ?; reflexivity ].

Section Fit.

Variable Sbase : R.
Variable fsolve : (R -> R) -> R -> R.
Variable polyfit : list R -> list R -> nat -> list R.
Variable logger_call : result unit.

Lemma Vdcmpp_keeps_Tactual : keeps Tactual (Vdcmpp fsolve).
Proof. unfold Vdcmpp. keeps_steps. Qed.

Lemma Ppv_calc_keeps_Tactual (V : R) : keeps Tactual (Ppv_calc Sbase V).
Proof. unfold Ppv_calc. keeps_steps. Qed.

Lemma fit_MPP_loop_keeps_Tactual (_Srange : list R) :
  forall accS accV accP,
    keeps Tactual (fit_MPP_loop Sbase fsolve _Srange accS accV accP).
Proof.
  induction _Srange as [|S_i rest IH]; intros accS accV accP; simpl.
  - apply keeps_ret.
  - apply keeps_bind; [|intros _].
    { (* the insolation is set, the temperature is not *)
      apply keeps_modify. intros s. reflexivity. }
    apply keeps_bind; [apply Vdcmpp_keeps_Tactual|intros v1].
    apply keeps_bind; [apply Vdcmpp_keeps_Tactual|intros v2].
    apply keeps_bind; [apply Ppv_calc_keeps_Tactual|intros p].
    apply IH.
Qed.

Lemma fit_MPP_samples_Tactual (self : self_t) :
  Tactual (fit_MPP_samples Sbase fsolve logger_call self).2 = 298.15.
Proof.
  unfold fit_MPP_samples. unfold bind at 1, modify. unfold bind at 1.
  unfold bind at 1, get. unfold bind at 1, call_logger.
  destruct logger_call as [[]|e]; [|done].
  by rewrite fit_MPP_loop_keeps_Tactual.
Qed.

Lemma fit_MPP_poly_Tactual (self : self_t) :
  Tactual (fit_MPP_poly Sbase fsolve polyfit logger_call self).2 = 298.15.
Proof.
  unfold fit_MPP_poly. unfold bind at 1.
  pose proof (fit_MPP_samples_Tactual self) as Hs.
  destruct (fit_MPP_samples Sbase fsolve logger_call self)
    as [[samples|e] s1]; simpl in Hs; [|done].
  rewrite <- Hs.
  match goal with |- Tactual (?m s1).2 = _ => assert (keeps Tactual m) as Hk end.
  { keeps_steps. }
  apply Hk.
Qed.

End Fit.

(** ** The temperature after the fit *)

Lemma initialize_module_parameters_found
    (module_parameters : gmap string module_parameters_entry)
    (entry : module_parameters_entry) (self : self_t) :
  module_parameters !! parameter_ID self = Some entry ->
  initialize_module_parameters module_parameters self
  = (Ok tt,
     set_Vdcmpp_max (entry_Vdcmpp_max entry)
       (set_Vdcmpp_min (entry_Vdcmpp_min entry)
         (set_Vdcmpp0 (entry_Vdcmpp0 entry)
           (set_Ns (entry_Ns entry) (set_Np (entry_Np entry) self))))).
Proof.
  intros Hsome. unfold initialize_module_parameters, bind at 1, get.
  by rewrite Hsome.
Qed.

(** C10: whatever temperature the module held, after [fit_MPP_poly], be it
    left by a return or by a raise, the attribute [Tactual] is 298.15; the
    photocurrent and the panel current computed from then on are those of
    298.15, and neither [Ppv_calc] nor [Vdcmpp] sets the temperature back;
    and [__init__], which sets the temperature to [defaults.Tactual] and
    then runs the fit when [MPPT_ENABLE] holds, leaves 298.15 as well. *)
Theorem fit_MPP_poly_overwrites_Tactual
    (Sbase defaults_Tactual : R)
    (module_parameters : gmap string module_parameters_entry)
    (fsolve : (R -> R) -> R -> R) (polyfit : list R -> list R -> nat -> list R)
    (logger_call : result unit) (self : self_t) :
  let fitted := (fit_MPP_poly Sbase fsolve polyfit logger_call self).2 in
  Tactual fitted = 298.15
  /\ Iph_calc fitted = (Iscr + Kv * (298.15 - T0)) * (Sinsol fitted / 100)
  /\ (forall V : R,
        panel_current fitted V
        = Np fitted * Iph_calc fitted
          - Np fitted * Irs
            * (exp ((q * V) / (k * 298.15 * A * Ns fitted)) - 1))
  /\ (forall V : R, Tactual (Ppv_calc Sbase V fitted).2 = 298.15)
  /\ Tactual (Vdcmpp fsolve fitted).2 = 298.15
  /\ (forall (Sinsol0 : R) (entry : module_parameters_entry)
        (inverter_ratings : gmap string R) (Srated : R),
        MPPT_ENABLE self = true ->
        module_parameters !! parameter_ID self = Some entry ->
        DER_config self !! "inverter_ratings" = Some inverter_ratings ->
        inverter_ratings !! "Srated" = Some Srated ->
        Tactual (__init__ Sbase defaults_Tactual module_parameters fsolve
                   polyfit logger_call Sinsol0 self).2 = 298.15).
Proof.
  intros fitted.
  assert (HT : Tactual fitted = 298.15) by apply fit_MPP_poly_Tactual.
  split; [exact HT|]. split; [|split; [|split; [|split]]].
  - unfold Iph_calc. rewrite HT. f_equal. lra.
  - intros V. unfold panel_current. by rewrite HT.
  - intros V. by rewrite Ppv_calc_keeps_Tactual.
  - by rewrite Vdcmpp_keeps_Tactual.
  - intros Sinsol0 entry ratings Srated Hmppt Hentry Hr Hs.
    unfold __init__, bind at 1, get. unfold bind at 1, config_getitem. rewrite Hr.
    unfold bind at 1, ret. rewrite Hs.
    unfold bind at 1. rewrite (initialize_module_parameters_found _ entry) by done.
    unfold bind at 1, modify. unfold bind at 1. unfold bind at 1.
    unfold bind at 1. simpl. rewrite Hmppt. simpl.
    match goal with
    | |- context [fit_MPP_poly Sbase fsolve polyfit logger_call ?s0] =>
        pose proof (fit_MPP_poly_Tactual Sbase fsolve polyfit logger_call s0) as Hfit;
        destruct (fit_MPP_poly Sbase fsolve polyfit logger_call s0)
          as [[[]|e] s1]
    end; simpl in *; exact Hfit.
Qed.

Lemma fit_MPP_poly_overwrites_Tactual_witness :
  Tactual (__init__ Sbase_50kVA 300 table_10 seed_solver zero_fit (Ok tt)
             100 module_10).2 = 298.15.
Proof.
  eapply (fit_MPP_poly_overwrites_Tactual Sbase_50kVA 300 table_10
            seed_solver zero_fit (Ok tt) module_10).
  - reflexivity.
  - reflexivity.
  - reflexivity.
  - reflexivity.
Defined.

(** ** The samples of the fit *)

Lemma Vdcmpp_equation_ext (s s' : self_t) :
  Np s = Np s' -> Ns s = Ns s' -> Tactual s = Tactual s' -> Iph s = Iph s' ->
  Vdcmpp_equation s = Vdcmpp_equation s'.
Proof. unfold Vdcmpp_equation. by intros -> -> -> ->. Qed.

Lemma panel_current_ext (s s' : self_t) (V : R) :
  Np s = Np s' -> Ns s = Ns s' -> Tactual s = Tactual s' ->
  Sinsol s = Sinsol s' ->
  panel_current s V = panel_current s' V.
Proof. unfold panel_current, Iph_calc. by intros -> -> -> ->. Qed.

Lemma sample_voltage_ext (fsolve : (R -> R) -> R -> R) (s s0 : self_t)
    (S_i : R) :
  same_module s s0 ->
  sample_voltage fsolve s S_i = sample_voltage fsolve s0 S_i.
Proof.
  intros (HNp & HNs & HV & HT). unfold sample_voltage. rewrite HV.
  f_equal. apply Vdcmpp_equation_ext; simpl; try done.
  unfold Iph_calc. simpl. by rewrite HT.
Qed.

Lemma Vdcmpp_run (fsolve : (R -> R) -> R -> R) (self : self_t) :
  underflow < Rabs (k * Tactual self) -> Ns self <> 0 ->
  Vdcmpp fsolve self
  = (Ok (fsolve (Vdcmpp_equation (set_Iph (Iph_calc self) self))
           (Vdcmpp0 self)),
     set_Iph (Iph_calc self) self).
Proof.
  intros HT HN. unfold Vdcmpp, bind, get, modify. simpl.
  by rewrite truediv_ok by (by apply exponent_divisor_nonzero).
Qed.

Section Samples.

Variable Sbase : R.
Variable fsolve : (R -> R) -> R -> R.
Hypothesis Sbase_nonzero : Sbase <> 0.

(** One turn of the loop of the fit, followed by [continue]. *)
Lemma fit_MPP_turn {T} (continue : R -> R -> M self_t T)
    (s s0 : self_t) (S_i : R) :
  same_module s s0 -> underflow < Rabs (k * Tactual s0) -> Ns s0 <> 0 ->
  sample_in_range fsolve s0 S_i ->
  exists s',
    bind (modify (set_Sinsol S_i)) (fun _ =>
      bind (Vdcmpp fsolve) (fun _Vdcmpp =>
        bind (Vdcmpp fsolve) (fun v =>
          bind (Ppv_calc Sbase v) (fun p => continue _Vdcmpp (p * Sbase))))) s
    = continue (sample_voltage fsolve s0 S_i)
        (sample_power Sbase fsolve s0 S_i) s'
    /\ same_module s' s0.
Proof.
  intros Hsame HT HN Hrange.
  pose proof Hsame as (HNp & HNs & HV & HTs).
  pose proof (sample_voltage_ext fsolve s s0 S_i Hsame) as Hv.
  unfold bind at 1, modify.
  unfold bind at 1. rewrite Vdcmpp_run by (simpl; congruence).
  unfold bind at 1. rewrite Vdcmpp_run by (simpl; congruence).
  fold (sample_state s S_i).
  assert (Hv1 : fsolve (Vdcmpp_equation (sample_state s S_i))
                  (Vdcmpp0 (set_Sinsol S_i s))
                = sample_voltage fsolve s0 S_i) by (by rewrite <- Hv).
  assert (Hv2 : fsolve (Vdcmpp_equation
                          (set_Iph (Iph_calc (sample_state s S_i))
                             (sample_state s S_i)))
                  (Vdcmpp0 (sample_state s S_i))
                = sample_voltage fsolve s0 S_i).
  { rewrite <- Hv. reflexivity. }
  rewrite Hv1, Hv2.
  unfold bind at 1. rewrite Ppv_calc_run; simpl; try congruence.
  - eexists. split.
    + f_equal. unfold sample_power. f_equal. f_equal. f_equal. f_equal.
      apply panel_current_ext; simpl; congruence.
    + repeat split; simpl; congruence.
  - unfold sample_in_range in Hrange. by rewrite HTs, HNs.
Qed.

Lemma fit_MPP_loop_run (s0 : self_t) (_Srange : list R) :
  underflow < Rabs (k * Tactual s0) -> Ns s0 <> 0 ->
  (forall S_i, S_i ∈ _Srange -> sample_in_range fsolve s0 S_i) ->
  forall (s : self_t) (accS accV accP : list R),
    same_module s s0 ->
    exists s',
      fit_MPP_loop Sbase fsolve _Srange accS accV accP s
      = (Ok (accS ++ _Srange,
             accV ++ map (sample_voltage fsolve s0) _Srange,
             accP ++ map (sample_power Sbase fsolve s0) _Srange), s')
      /\ same_module s' s0.
Proof.
  intros HT HN. induction _Srange as [|S_i rest IH];
    intros Hrange s accS accV accP Hsame.
  - exists s. simpl. by rewrite !app_nil_r.
  - cbn [fit_MPP_loop].
    destruct (fit_MPP_turn
                (fun _Vdcmpp _Ppvmpp =>
                   fit_MPP_loop Sbase fsolve rest (accS ++ [S_i])
                     (accV ++ [_Vdcmpp]) (accP ++ [_Ppvmpp]))
                s s0 S_i Hsame HT HN)
      as (s1 & Hturn & Hsame1).
    { apply Hrange. by left. }
    rewrite Hturn.
    destruct (IH (fun S_j Hin => Hrange S_j (list_elem_of_further _ _ _ Hin))
                s1 (accS ++ [S_i])
                (accV ++ [sample_voltage fsolve s0 S_i])
                (accP ++ [sample_power Sbase fsolve s0 S_i]) Hsame1)
      as (s' & Hrun & Hsame').
    exists s'. split; [|done]. rewrite Hrun. simpl.
    by rewrite <- !app_assoc.
Qed.

End Samples.

Lemma linspace_MPP_fit_grid : linspace _S_min _S_max (10 + 1) = MPP_fit_grid.
Proof.
  unfold linspace, _S_min, _S_max, MPP_fit_grid. simpl.
  repeat (apply f_equal2; [lra|]). reflexivity.
Qed.

Lemma fit_MPP_samples_run (Sbase : R) (fsolve : (R -> R) -> R -> R)
    (logger_call : result unit) (self : self_t) :
  logger_call = Ok tt -> Sbase <> 0 -> Ns self <> 0 ->
  (forall S_i, S_i ∈ MPP_fit_grid ->
     sample_in_range fsolve (set_MPP_fit_points 10 (set_Tactual 298.15 self))
       S_i) ->
  exists s',
    fit_MPP_samples Sbase fsolve logger_call self
    = (Ok (MPP_fit_grid,
           map (sample_voltage fsolve
                  (set_MPP_fit_points 10 (set_Tactual 298.15 self)))
             MPP_fit_grid,
           map (sample_power Sbase fsolve
                  (set_MPP_fit_points 10 (set_Tactual 298.15 self)))
             MPP_fit_grid), s')
    /\ same_module s' (set_MPP_fit_points 10 (set_Tactual 298.15 self)).
Proof.
  intros Hlog HS HN Hrange.
  unfold fit_MPP_samples. unfold bind at 1, modify. unfold bind at 1.
  unfold bind at 1, get. unfold bind at 1, call_logger. rewrite Hlog.
  cbn [_MPP_fit_points set_MPP_fit_points]. rewrite linspace_MPP_fit_grid.
  destruct (fit_MPP_loop_run Sbase fsolve HS
              (set_MPP_fit_points 10 (set_Tactual 298.15 self)) MPP_fit_grid)
    with (s := set_MPP_fit_points 10 (set_Tactual 298.15 self))
         (accS := @nil R) (accV := @nil R) (accP := @nil R)
    as (s' & Hrun & Hsame); try done.
  - simpl. apply normal_clear_of_underflow, fit_temperature_normal.
  - exists s'. split; [|done]. rewrite Hrun. reflexivity.
Qed.

(** C4, as the code has it: with a logger that can be called, a power base
    other than 0, a module with cells in series and samples at which
    [math.exp] does not overflow, [fit_MPP_poly] samples the insolation at
    the eleven points 10, 19, ..., 100, the bounds [_S_min] and [_S_max]
    and the nine points that part them evenly; it holds the temperature at
    298.15, asks [Vdcmpp] for the voltage and [Ppv_calc] for the power of
    every sample, and stores in [z] what [polyfit] answers for the
    insolations, the voltages and the degree 3: four coefficients, when
    [polyfit] answers one more coefficient than the degree. *)
Theorem fit_MPP_poly_samples_eleven_points
    (Sbase : R) (fsolve : (R -> R) -> R -> R)
    (polyfit : list R -> list R -> nat -> list R)
    (logger_call : result unit) (self : self_t) :
  let fitting := set_MPP_fit_points 10 (set_Tactual 298.15 self) in
  logger_call = Ok tt -> Sbase <> 0 -> Ns self <> 0 ->
  (forall x y deg, length (polyfit x y deg) = (deg + 1)%nat) ->
  (forall S_i, S_i ∈ MPP_fit_grid -> sample_in_range fsolve fitting S_i) ->
  linspace _S_min _S_max (10 + 1) = MPP_fit_grid
  /\ length MPP_fit_grid = 11%nat
  /\ exists s',
       fit_MPP_samples Sbase fsolve logger_call self
       = (Ok (MPP_fit_grid,
              map (sample_voltage fsolve fitting) MPP_fit_grid,
              map (sample_power Sbase fsolve fitting) MPP_fit_grid), s')
       /\ Tactual s' = 298.15
       /\ fit_MPP_poly Sbase fsolve polyfit logger_call self
          = (Ok tt,
             set_z (polyfit MPP_fit_grid
                      (map (sample_voltage fsolve fitting) MPP_fit_grid) 3%nat) s')
       /\ length (polyfit MPP_fit_grid
                    (map (sample_voltage fsolve fitting) MPP_fit_grid) 3%nat)
          = 4%nat.
Proof.
  intros fitting Hlog HS HN Hfit Hrange.
  split; [apply linspace_MPP_fit_grid|]. split; [reflexivity|].
  destruct (fit_MPP_samples_run Sbase fsolve logger_call self Hlog HS HN Hrange)
    as (s' & Hrun & Hsame).
  exists s'. split; [exact Hrun|]. split; [apply Hsame|]. split; [|apply Hfit].
  unfold fit_MPP_poly. unfold bind at 1. rewrite Hrun.
  cbn [fst snd]. unfold bind at 1, modify. unfold bind at 1, get.
  cbn [z set_z].
  pose proof (Hfit MPP_fit_grid
                (map (sample_voltage fsolve fitting) MPP_fit_grid) 3%nat) as Hlen.
  fold fitting.
  destruct (polyfit MPP_fit_grid
              (map (sample_voltage fsolve fitting) MPP_fit_grid) 3%nat)
    as [|z0 [|z1 [|z2 [|z3 zs]]]]; try discriminate Hlen.
  unfold bind, index, call_logger. simpl. by rewrite Hlog.
Qed.

(** At 750 V the exponent of the diode equation of the module "10" is far
    from the overflow of [math.exp]. *)
Lemma module_10_in_range (S_i : R) :
  sample_in_range seed_solver
    (set_MPP_fit_points 10 (set_Tactual 298.15 module_10)) S_i.
Proof.
  unfold sample_in_range, sample_voltage, seed_solver. simpl.
  unfold q, k, A, exp_max_arg.
  apply div_le_bound; lra.
Qed.

Lemma fit_MPP_poly_samples_eleven_points_witness :
  exists s',
    fit_MPP_poly Sbase_50kVA seed_solver zero_fit (Ok tt) module_10
    = (Ok tt, set_z [0; 0; 0; 0] s')
    /\ Tactual s' = 298.15.
Proof.
  destruct (fit_MPP_poly_samples_eleven_points Sbase_50kVA seed_solver
              zero_fit (Ok tt) module_10)
    as (_ & _ & s' & _ & HT & Hfit & _).
  - reflexivity.
  - unfold Sbase_50kVA. lra.
  - simpl. lra.
  - intros x y deg. apply repeat_length.
  - intros S_i _. apply module_10_in_range.
  - exists s'. split; [exact Hfit|exact HT].
Defined.

(** C4, as stated, fails: the samples of the fit are eleven, not ten. *)
Lemma fit_MPP_poly_takes_eleven_samples :
  exists Vs Ps s',
    fit_MPP_samples Sbase_50kVA seed_solver (Ok tt) module_10
    = (Ok (MPP_fit_grid, Vs, Ps), s')
    /\ length MPP_fit_grid = 11%nat
    /\ length MPP_fit_grid <> 10%nat.
Proof.
  destruct (fit_MPP_samples_run Sbase_50kVA seed_solver (Ok tt) module_10)
    as (s' & Hrun & _).
  - reflexivity.
  - unfold Sbase_50kVA. lra.
  - simpl. lra.
  - intros S_i _. apply module_10_in_range.
  - eexists _, _, s'. split; [exact Hrun|]. split; [reflexivity|discriminate].
Qed.

(** ** The photocurrent is never stale *)

(** Neither [Ppv_calc] nor [Vdcmpp] uses the photocurrent and the panel
    current that the object holds: what they answer is the same whatever
    the attributes [Iph] and [Ipv] were, and when they are done, returned
    or raised, [Iph] is the photocurrent of the insolation and the
    temperature of the object, which they leave as they were. *)
Theorem currents_recomputed (Sbase : R) (fsolve : (R -> R) -> R -> R)
    (V stale_Iph stale_Ipv : R) (self : self_t) :
  (Ppv_calc Sbase V (set_Iph stale_Iph (set_Ipv stale_Ipv self))).1
  = (Ppv_calc Sbase V self).1
  /\ (Vdcmpp fsolve (set_Iph stale_Iph (set_Ipv stale_Ipv self))).1
     = (Vdcmpp fsolve self).1
  /\ Iph (Ppv_calc Sbase V self).2 = Iph_calc self
  /\ Iph (Vdcmpp fsolve self).2 = Iph_calc self
  /\ Sinsol (Ppv_calc Sbase V self).2 = Sinsol self
  /\ Tactual (Ppv_calc Sbase V self).2 = Tactual self
  /\ Sinsol (Vdcmpp fsolve self).2 = Sinsol self
  /\ Tactual (Vdcmpp fsolve self).2 = Tactual self.
Proof.
  repeat split.
  - unfold Ppv_calc, bind, get, modify, truediv, math_exp, ret, raise.
    rewrite !exponent_divisor_set_Iph.
    change (exponent_divisor (set_Ipv stale_Ipv self))
      with (exponent_divisor self).
    destruct (Req_EM_T (exponent_divisor self) 0); [done|].
    destruct (Rlt_dec exp_max_arg _); [done|]. simpl.
    by destruct (Req_EM_T Sbase 0).
  - unfold Vdcmpp, bind, get, modify, truediv, ret, raise.
    rewrite !exponent_divisor_set_Iph.
    change (exponent_divisor (set_Ipv stale_Ipv self))
      with (exponent_divisor self).
    by destruct (Req_EM_T (exponent_divisor self) 0).
  - unfold Ppv_calc, bind, get, modify, truediv, math_exp, ret, raise.
    rewrite !exponent_divisor_set_Iph.
    change (exponent_divisor (set_Ipv stale_Ipv self))
      with (exponent_divisor self).
    destruct (Req_EM_T (exponent_divisor self) 0); [done|].
    destruct (Rlt_dec exp_max_arg _); [done|]. simpl.
    by destruct (Req_EM_T Sbase 0).
  - unfold Vdcmpp, bind, get, modify, truediv, ret, raise.
    rewrite !exponent_divisor_set_Iph.
    change (exponent_divisor (set_Ipv stale_Ipv self))
      with (exponent_divisor self).
    by destruct (Req_EM_T (exponent_divisor self) 0).
  - assert (Hk : keeps Sinsol (Ppv_calc Sbase V))
      by (unfold Ppv_calc; keeps_steps).
    apply Hk.
  - apply Ppv_calc_keeps_Tactual.
  - assert (Hk : keeps Sinsol (Vdcmpp fsolve))
      by (unfold Vdcmpp; keeps_steps).
    apply Hk.
  - apply Vdcmpp_keeps_Tactual.
Qed.

(** ** More insolation, no less power *)





(** ** The equation of the maximum power point *)

Lemma derivable_pt_lim_value (f : R -> R) (x l l' : R) :
  l' = l -> derivable_pt_lim f x l' -> derivable_pt_lim f x l.
Proof. by intros ->. Qed.

Lemma derivable_pt_lim_ext (f g : R -> R) (x l : R) :
  (forall v, f v = g v) -> derivable_pt_lim f x l -> derivable_pt_lim g x l.
Proof.
  intros Heq Hf eps Heps. destruct (Hf eps Heps) as [delta Hdelta].
  exists delta. intros h Hh Hsmall. rewrite <- !Heq. by apply Hdelta.
Qed.

(** The derivative of [(C - B (exp (a v) - 1)) v] in [v]. *)
Lemma derive_power (C B a V : R) :
  derivable_pt_lim (fun v => (C - B * (exp (v * a) - 1)) * v) V
    ((C - B * (exp (V * a) - 1)) - B * exp (V * a) * a * V).
Proof.
  assert (Hlin : derivable_pt_lim (fun v => v * a) V a).
  { apply (derivable_pt_lim_value _ _ _ (1 * fct_cte a V + id V * 0));
      [unfold fct_cte, id; ring|].
    apply (derivable_pt_lim_mult id (fct_cte a)).
    - apply derivable_pt_lim_id.
    - apply derivable_pt_lim_const. }
  assert (Hexp : derivable_pt_lim (fun v => exp (v * a)) V (exp (V * a) * a)).
  { apply (derivable_pt_lim_comp (fun v => v * a) exp); [exact Hlin|].
    apply derivable_pt_lim_exp. }
  assert (Hcur : derivable_pt_lim (fun v => C - B * (exp (v * a) - 1)) V
                   (0 - B * (exp (V * a) * a - 0))).
  { apply (derivable_pt_lim_minus (fct_cte C)
             (fun v => B * (exp (v * a) - 1))).
    - apply derivable_pt_lim_const.
    - apply (derivable_pt_lim_scal (fun v => exp (v * a) - 1)).
      apply (derivable_pt_lim_minus (fun v => exp (v * a)) (fct_cte 1)).
      + exact Hexp.
      + apply derivable_pt_lim_const. }
  apply (derivable_pt_lim_value _ _ _
           ((0 - B * (exp (V * a) * a - 0)) * id V
            + (C - B * (exp (V * a) - 1)) * 1));
    [unfold id; ring|].
  apply (derivable_pt_lim_mult (fun v => C - B * (exp (v * a) - 1)) id).
  - exact Hcur.
  - apply derivable_pt_lim_id.
Qed.

Lemma exponent_linear (self : self_t) (v : R) :
  (q * v) / (k * Tactual self * A * Ns self)
  = v * (q / (k * Tactual self * A * Ns self)).
Proof. unfold Rdiv. ring. Qed.

Lemma Vdcmpp_equation_derivative (self : self_t) (V : R) :
  Iph self = Iph_calc self ->
  derivable_pt_lim (fun v => panel_current self v * v) V
    (Vdcmpp_equation self V).
Proof.
  intros HIph.
  apply (derivable_pt_lim_ext
           (fun v => (Np self * Iph_calc self
                      - Np self * Irs
                        * (exp (v * (q / (k * Tactual self * A * Ns self)))
                           - 1)) * v)).
  { intros v. unfold panel_current. by rewrite exponent_linear. }
  apply (derivable_pt_lim_value _ _ _
           ((Np self * Iph_calc self
             - Np self * Irs
               * (exp (V * (q / (k * Tactual self * A * Ns self))) - 1))
            - Np self * Irs
              * exp (V * (q / (k * Tactual self * A * Ns self)))
              * (q / (k * Tactual self * A * Ns self)) * V)).
  - unfold Vdcmpp_equation. rewrite exponent_linear, HIph. ring.
  - apply derive_power.
Qed.

Lemma Vdcmpp_underflow (fsolve : (R -> R) -> R -> R) (self : self_t) :
  Rabs (k * Tactual self) <= underflow ->
  (Vdcmpp fsolve self).1 = Raise ZeroDivisionError.
Proof.
  intros HT. unfold Vdcmpp, bind, get, modify.
  rewrite exponent_divisor_set_Iph.
  rewrite truediv_zero; [done|]. by apply exponent_divisor_underflow.
Qed.

(** On a module with at least one cell in series, at a temperature at which
    the float [k*Tactual] is a normal double, that is, does not underflow,
    [Vdcmpp] returns what [fsolve] answers, from the seed [Vdcmpp0], for a
    function that is the derivative, in the voltage, of the power [Ipv V]
    of the panel at the insolation and the temperature of the object: a
    root is a voltage at which the power is stationary.  At voltage 0 the
    function is the photocurrent of the cells in parallel, so that 0 is no
    root while the panel is lit.  At a temperature so near 0 that
    [k*Tactual] underflows to 0.0, as at 0 itself, [Vdcmpp] raises
    [ZeroDivisionError]. *)
Theorem Vdcmpp_equation_is_power_derivative
    (fsolve : (R -> R) -> R -> R) (self : self_t) :
  (float_min <= Rabs (k * Tactual self) -> 1 <= Ns self ->
   Vdcmpp fsolve self
   = (Ok (fsolve (Vdcmpp_equation (set_Iph (Iph_calc self) self))
            (Vdcmpp0 self)),
      set_Iph (Iph_calc self) self)
   /\ (forall V : R,
         derivable_pt_lim (fun v => panel_current self v * v) V
           (Vdcmpp_equation (set_Iph (Iph_calc self) self) V))
   /\ Vdcmpp_equation (set_Iph (Iph_calc self) self) 0
      = Np self * Iph_calc self)
  /\ (Rabs (k * Tactual self) <= underflow / 2 ->
      (Vdcmpp fsolve self).1 = Raise ZeroDivisionError).
Proof.
  split.
  - intros HT HN. apply normal_clear_of_underflow in HT.
    split; [apply Vdcmpp_run; [done|lra]|]. split.
    + intros V.
      apply (Vdcmpp_equation_derivative (set_Iph (Iph_calc self) self) V).
      reflexivity.
    + unfold Vdcmpp_equation. rewrite exponent_linear, Rmult_0_l, exp_0.
      simpl. unfold Rdiv. ring.
  - intros HT. apply Vdcmpp_underflow. pose proof underflow_pos. lra.
Qed.

Lemma Vdcmpp_equation_is_power_derivative_witness :
  Vdcmpp seed_solver module_10
  = (Ok 750, set_Iph (Iph_calc module_10) module_10).
Proof.
  apply (Vdcmpp_equation_is_power_derivative seed_solver module_10).
  - apply fit_temperature_normal.
  - simpl. lra.
Defined.

(** ** What the constructor leaves *)

Lemma bind_Ok_inv {S T U} (m : M S T) (c : T -> M S U) (s s' : S) (r : U) :
  bind m c s = (Ok r, s') ->
  exists a s1, m s = (Ok a, s1) /\ c a s1 = (Ok r, s').
Proof.
  unfold bind. destruct (m s) as [[a|e] s1]; [|done].
  intros Hc. by exists a, s1.
Qed.

Section Insolation.

Variable Sbase : R.
Variable fsolve : (R -> R) -> R -> R.

Lemma Vdcmpp_keeps_Sinsol : keeps Sinsol (Vdcmpp fsolve).
Proof. unfold Vdcmpp. keeps_steps. Qed.

Lemma Ppv_calc_keeps_Sinsol (V : R) : keeps Sinsol (Ppv_calc Sbase V).
Proof. unfold Ppv_calc. keeps_steps. Qed.

(** A loop that returns leaves the insolation of its last sample. *)
Lemma fit_MPP_loop_Sinsol (_Srange : list R) :
  forall (accS accV accP : list R) (s s' : self_t)
         (r : list R * list R * list R),
    fit_MPP_loop Sbase fsolve _Srange accS accV accP s = (Ok r, s') ->
    Sinsol s' = default (Sinsol s) (last _Srange).
Proof.
  induction _Srange as [|S_i rest IH]; intros accS accV accP s s' r Hrun.
  - simpl in Hrun. unfold ret in Hrun. by simplify_eq.
  - cbn [fit_MPP_loop] in Hrun.
    apply bind_Ok_inv in Hrun as ([] & s1 & Hset & Hrun).
    apply bind_Ok_inv in Hrun as (v1 & s2 & Hv1 & Hrun).
    apply bind_Ok_inv in Hrun as (v2 & s3 & Hv2 & Hrun).
    apply bind_Ok_inv in Hrun as (p & s4 & Hp & Hrun).
    apply IH in Hrun. rewrite Hrun, last_cons.
    assert (HS : Sinsol s4 = S_i).
    { pose proof (Ppv_calc_keeps_Sinsol v2 s3) as H4. rewrite Hp in H4.
      pose proof (Vdcmpp_keeps_Sinsol s2) as H3. rewrite Hv2 in H3.
      pose proof (Vdcmpp_keeps_Sinsol s1) as H2. rewrite Hv1 in H2.
      unfold modify in Hset. simplify_eq. simpl in *. congruence. }
    rewrite HS. by destruct (last rest).
Qed.

End Insolation.

(** The run of [fit_MPP_poly] when its samples can be taken. *)
Lemma fit_MPP_poly_run (Sbase : R) (fsolve : (R -> R) -> R -> R)
    (polyfit : list R -> list R -> nat -> list R)
    (logger_call : result unit) (self : self_t) :
  logger_call = Ok tt -> Sbase <> 0 -> Ns self <> 0 ->
  (forall x y deg, length (polyfit x y deg) = (deg + 1)%nat) ->
  (forall S_i, S_i ∈ MPP_fit_grid ->
     sample_in_range fsolve (set_MPP_fit_points 10 (set_Tactual 298.15 self))
       S_i) ->
  exists s',
    fit_MPP_poly Sbase fsolve polyfit logger_call self = (Ok tt, s')
    /\ same_module s' (set_MPP_fit_points 10 (set_Tactual 298.15 self))
    /\ Sinsol s' = 100
    /\ length (z s') = 4%nat.
Proof.
  intros Hlog HS HN Hfit Hrange.
  destruct (fit_MPP_samples_run Sbase fsolve logger_call self Hlog HS HN Hrange)
    as (s1 & Hrun & Hsame).
  assert (HSinsol : Sinsol s1 = 100).
  { pose proof Hrun as Hloop. unfold fit_MPP_samples in Hloop.
    unfold bind at 1, modify in Hloop. unfold bind at 1 in Hloop.
    unfold bind at 1, get in Hloop. unfold bind at 1, call_logger in Hloop.
    rewrite Hlog in Hloop.
    cbn [_MPP_fit_points set_MPP_fit_points] in Hloop.
    rewrite linspace_MPP_fit_grid in Hloop.
    apply fit_MPP_loop_Sinsol in Hloop. rewrite Hloop. reflexivity. }
  pose proof (Hfit MPP_fit_grid
                (map (sample_voltage fsolve
                        (set_MPP_fit_points 10 (set_Tactual 298.15 self)))
                   MPP_fit_grid) 3%nat) as Hlen.
  exists (set_z (polyfit MPP_fit_grid
                   (map (sample_voltage fsolve
                           (set_MPP_fit_points 10 (set_Tactual 298.15 self)))
                      MPP_fit_grid) 3%nat) s1).
  split; [|split; [exact Hsame|split; [exact HSinsol|exact Hlen]]].
  unfold fit_MPP_poly. unfold bind at 1. rewrite Hrun.
  cbn [fst snd]. unfold bind at 1, modify. unfold bind at 1, get.
  cbn [z set_z].
  destruct (polyfit MPP_fit_grid
              (map (sample_voltage fsolve
                      (set_MPP_fit_points 10 (set_Tactual 298.15 self)))
                 MPP_fit_grid) 3%nat)
    as [|z0 [|z1 [|z2 [|z3 zs]]]]; try discriminate Hlen.
  unfold bind, index, call_logger. simpl. by rewrite Hlog.
Qed.

(** When the rating of the inverter is in the configuration of the host and
    its parameter ID in the table of module parameters, [__init__] loads
    the five parameters of the module and then:
    - without [MPPT_ENABLE] it returns, whatever the numbers are, and leaves
      the insolation it was given, the temperature [defaults.Tactual] and
      the photocurrent of the two;
    - with [MPPT_ENABLE], when the fit can take its samples, it returns and
      leaves the insolation 100 of the last sample and the temperature
      298.15 of the fit, whatever insolation it was given and whatever
      [defaults.Tactual] is; the photocurrent it leaves is then [Iscr]. *)
Theorem PVModule_init_outcome
    (Sbase defaults_Tactual : R)
    (module_parameters : gmap string module_parameters_entry)
    (fsolve : (R -> R) -> R -> R) (polyfit : list R -> list R -> nat -> list R)
    (logger_call : result unit) (Sinsol0 : R) (self : self_t)
    (entry : module_parameters_entry) (inverter_ratings : gmap string R)
    (Srated : R) :
  let loaded :=
    set_Vdcmpp_max (entry_Vdcmpp_max entry)
      (set_Vdcmpp_min (entry_Vdcmpp_min entry)
        (set_Vdcmpp0 (entry_Vdcmpp0 entry)
          (set_Ns (entry_Ns entry) (set_Np (entry_Np entry) self)))) in
  let created := set_Tactual defaults_Tactual (set_Sinsol Sinsol0 loaded) in
  module_parameters !! parameter_ID self = Some entry ->
  DER_config self !! "inverter_ratings" = Some inverter_ratings ->
  inverter_ratings !! "Srated" = Some Srated ->
  (MPPT_ENABLE self = false ->
     __init__ Sbase defaults_Tactual module_parameters fsolve polyfit
       logger_call Sinsol0 self
     = (Ok tt, set_Iph (Iph_calc created) created)
     /\ Iph_calc created
        = (Iscr + Kv * (defaults_Tactual - T0)) * (Sinsol0 / 100))
  /\ (MPPT_ENABLE self = true ->
      logger_call = Ok tt -> Sbase <> 0 -> entry_Ns entry <> 0 ->
      (forall x y deg, length (polyfit x y deg) = (deg + 1)%nat) ->
      (forall S_i, S_i ∈ MPP_fit_grid ->
         sample_in_range fsolve
           (set_MPP_fit_points 10 (set_Tactual 298.15 created)) S_i) ->
      exists s',
        __init__ Sbase defaults_Tactual module_parameters fsolve polyfit
          logger_call Sinsol0 self = (Ok tt, s')
        /\ Sinsol s' = 100 /\ Tactual s' = 298.15 /\ Iph s' = Iscr
        /\ Np s' = entry_Np entry /\ Ns s' = entry_Ns entry
        /\ Vdcmpp0 s' = entry_Vdcmpp0 entry
        /\ length (z s') = 4%nat).
Proof.
  intros loaded created Hentry Hr Hs.
  assert (Hstart : forall T (rest : M self_t T),
             bind get (fun self0 =>
               bind (config_getitem (DER_config self0) "inverter_ratings")
                 (fun ratings =>
                    bind (config_getitem (S := self_t) ratings "Srated")
                      (fun _ =>
                         bind (initialize_module_parameters module_parameters)
                           (fun _ =>
                              bind (modify (set_Sinsol Sinsol0)) (fun _ =>
                                bind (modify (set_Tactual defaults_Tactual))
                                  (fun _ => rest)))))) self
             = rest created).
  { intros T rest. unfold bind at 1, get.
    unfold bind at 1, config_getitem. rewrite Hr.
    unfold bind at 1, ret. rewrite Hs.
    unfold bind at 1.
    rewrite (initialize_module_parameters_found _ entry) by done.
    unfold bind at 1, modify. unfold bind at 1. reflexivity. }
  split.
  - intros Hmppt. split.
    + unfold __init__. rewrite Hstart.
      unfold bind at 1, get. change (MPPT_ENABLE created) with (MPPT_ENABLE self).
      rewrite Hmppt. reflexivity.
    + unfold Iph_calc, created. simpl. f_equal. f_equal. lra.
  - intros Hmppt Hlog HS HN Hfit Hrange.
    destruct (fit_MPP_poly_run Sbase fsolve polyfit logger_call created
                Hlog HS HN Hfit Hrange)
      as (s1 & Hrun & (HNp & HNs & HV & HT) & HSinsol & Hz).
    exists (set_Iph (Iph_calc s1) s1).
    split; [|repeat split].
    + unfold __init__. rewrite Hstart.
      unfold bind at 1, get. change (MPPT_ENABLE created) with (MPPT_ENABLE self).
      rewrite Hmppt. cbn [andb USE_POLYNOMIAL_MPP].
      unfold bind at 1. rewrite Hrun. reflexivity.
    + exact HSinsol.
    + exact HT.
    + simpl in HT. simpl. unfold Iph_calc. rewrite HSinsol, HT, T0_value. lra.
    + exact HNp.
    + exact HNs.
    + exact HV.
    + exact Hz.
Qed.

Lemma PVModule_init_outcome_witness :
  exists s',
    __init__ Sbase_50kVA 300 table_10 seed_solver zero_fit (Ok tt) 55
      module_10 = (Ok tt, s')
    /\ Sinsol s' = 100 /\ Tactual s' = 298.15 /\ Iph s' = Iscr.
Proof.
  destruct (PVModule_init_outcome Sbase_50kVA 300 table_10 seed_solver
              zero_fit (Ok tt) 55 module_10
              {| entry_Np := 2; entry_Ns := 1000; entry_Vdcmpp0 := 750;
                 entry_Vdcmpp_min := 650; entry_Vdcmpp_max := 800 |}
              (<["Srated" := 10e3]> ∅) 10e3)
    as (_ & Hfit).
  - reflexivity.
  - reflexivity.
  - reflexivity.
  - destruct Hfit as (s' & Hrun & HS & HT & HI & _).
    + reflexivity.
    + reflexivity.
    + unfold Sbase_50kVA. lra.
    + simpl. lra.
    + intros x y deg. apply repeat_length.
    + intros S_i _.
      unfold sample_in_range, sample_voltage, seed_solver. simpl.
      unfold q, k, A, exp_max_arg.
      apply div_le_bound; lra.
    + by exists s'.
Defined.

End PVModuleProofs.

(** * Properties of the set-up methods *)

Module SetupProofs.
Import Py Heap specifications SolarPVDER Setup SetupExamples.
Local Open Scope setup_scope.

(** ** Running an earlier method *)

Lemma lift_Ok {S A} (m : M S A) (s s' : S) (a : A) :
  m s = (Ok a, s') → lift m s = (Returned a, s').
Proof. unfold lift. by intros ->. Qed.

Lemma lift_Raise {S A} (m : M S A) (s s' : S) (e : exn) :
  m s = (Raise e, s') → lift m s = (Raised (earlier e), s').
Proof. unfold lift. by intros ->. Qed.

(** ** get_DER_id *)

Section Doubles.

Local Open Scope Z_scope.

Lemma round_half_even_exact (a d : Z) :
  0 < d -> round_half_even (a * d) d = a.
Proof.
  intros Hd. unfold round_half_even.
  rewrite Z.div_mul, Z.mod_mul by lia.
  destruct (Z.ltb_spec (2 * 0) d); [done|lia].
Qed.

Lemma binary64_exponent_integer (k c : Z) :
  0 < c -> 0 < k < 2 ^ 53 ->
  -1074 <= binary64_exponent (k * c) c <= 0.
Proof.
  intros Hc [Hk0 Hk]. unfold binary64_exponent.
  assert (Hlog : Z.log2 k < 53) by (by apply Z.log2_lt_pow2).
  pose proof (Z.log2_mul_above k c ltac:(lia) ltac:(lia)) as Hmul.
  set (e0 := Z.log2 (k * c) - Z.log2 c - 52) in *.
  assert (He0 : e0 <= 1) by lia.
  destruct (below_pow2 (k * c) c (e0 + 52)) eqn:Hb; [lia|].
  destruct (Z.eq_dec e0 1) as [He1|]; [|lia].
  rewrite He1 in Hb. unfold below_pow2 in Hb.
  change (0 <=? 1 + 52) with true in Hb. cbv iota in Hb.
  apply Z.ltb_ge in Hb. change (1 + 52) with 53 in Hb. nia.
Qed.

Lemma binary64_pos_integer (k c : Z) :
  0 < c -> 0 < k < 2 ^ 53 ->
  exists p q, binary64_pos (k * c) c = Some (p, q) /\ 0 < q /\ p = k * q.
Proof.
  intros Hc Hk. pose proof (binary64_exponent_integer k c Hc Hk) as He.
  unfold binary64_pos. set (e := binary64_exponent (k * c) c) in *.
  destruct (Z.ltb_spec 971 e); [lia|].
  destruct (Z.eqb_spec e 971); [lia|]. cbn [orb andb].
  destruct (Z.leb_spec 0 e).
  - assert (e = 0) as -> by lia. change (2 ^ 0) with 1.
    rewrite !Z.mul_1_r, round_half_even_exact by done.
    exists k, 1. split; [done|lia].
  - replace (k * c * 2 ^ (- e)) with (k * 2 ^ (- e) * c) by ring.
    rewrite round_half_even_exact by done.
    exists (k * 2 ^ (- e)), (2 ^ (- e)). split; [done|].
    split; [apply Z.pow_pos_nonneg; lia|done].
Qed.

Lemma binary64_integer (k c : Z) :
  0 < c -> Z.abs k < 2 ^ 53 ->
  exists p q, binary64 (k * c) c = Some (p, q) /\ 0 < q /\ p = k * q.
Proof.
  intros Hc Hk. unfold binary64.
  destruct (Z.eqb_spec (k * c) 0) as [Hz|Hnz].
  - exists 0, 1. assert (k = 0) as -> by nia. split; [done|lia].
  - assert (Hk0 : k <> 0) by (intros ->; lia).
    rewrite Z.abs_mul, (Z.abs_eq c) by lia.
    destruct (binary64_pos_integer (Z.abs k) c) as (p & q & -> & Hq & ->);
      [done|lia|].
    exists (Z.sgn (k * c) * (Z.abs k * q)), q. split; [done|]. split; [done|].
    rewrite Z.sgn_mul, (Z.sgn_pos c) by lia.
    rewrite Z.mul_1_r, Z.mul_assoc. f_equal.
    rewrite Z.mul_comm. apply Z.abs_sgn.
Qed.

Lemma kilo_thousands (k : Z) :
  Z.abs (1000 * k) < 2 ^ 53 -> kilo (inject_Z (1000 * k)) = Some k.
Proof.
  intros Hk. unfold kilo, inject_Z. cbn [Qnum Qden].
  destruct (binary64_integer (1000 * k) 1) as (p & q & Hp & Hq & ->);
    [lia|done|].
  rewrite Z.mul_1_r in Hp. rewrite Hp.
  replace (1000 * k * q) with (k * (q * 1000)) by ring.
  destruct (binary64_integer k (q * 1000)) as (p' & q' & -> & Hq' & ->);
    [lia|lia|].
  f_equal. apply Z.quot_mul. lia.
Qed.

Lemma kilo_overflow (n : Z) :
  2 ^ 1024 <= Z.abs n -> kilo (inject_Z n) = None.
Proof.
  intros Hn. unfold kilo, inject_Z. cbn [Qnum Qden]. unfold binary64.
  destruct (Z.eqb_spec n 0) as [->|Hnz]; [simpl in Hn; lia|].
  assert (Hlog : 1024 <= Z.log2 (Z.abs n)).
  { change 1024 with (Z.log2 (2 ^ 1024)). by apply Z.log2_le_mono. }
  assert (binary64_pos (Z.abs n) 1 = None) as ->; [|done].
  unfold binary64_pos.
  assert (He : 971 < binary64_exponent (Z.abs n) 1).
  { unfold binary64_exponent. change (Z.log2 1) with 0.
    destruct (below_pow2 (Z.abs n) 1 (Z.log2 (Z.abs n) - 0 - 52 + 52)) eqn:Hb;
      [|lia].
    unfold below_pow2 in Hb.
    replace (Z.log2 (Z.abs n) - 0 - 52 + 52) with (Z.log2 (Z.abs n)) in Hb
      by lia.
    destruct (Z.leb_spec 0 (Z.log2 (Z.abs n))); [|lia].
    apply Z.ltb_lt in Hb.
    pose proof (Z.log2_spec (Z.abs n) ltac:(lia)). lia. }
  destruct (Z.ltb_spec 971 (binary64_exponent (Z.abs n) 1)); [done|lia].
Qed.

End Doubles.

(** The device ID: a [derId] among the keyword arguments is the ID as it
    is, of whatever type, and whatever the power rating; without it, a power
    rating of exactly [1000 k] volt-ampere below [2 ** 53] in size, where
    the division of doubles is exact, be it an [int] or a [float], gives
    the decimal numeral of [k], so that different ratings in kVA give
    different IDs; an [int] of size [2 ** 1024] or more, which is too large
    to convert to a float, raises the [OverflowError]; a rating that is
    not a real number raises a [TypeError], and arguments with neither key
    raise the [ValueError]. *)
Theorem get_DER_id_of_rating {S} (kwargs : dict) (s : S) :
  (∀ v, kwargs !! "derId" = Some v → get_DER_id kwargs s = (Returned v, s))
  ∧ (∀ k rating,
       kwargs !! "derId" = None →
       kwargs !! "powerRating" = Some rating →
       (Z.abs (1000 * k) < 2 ^ 53)%Z →
       rating = VInt (1000 * k) ∨ rating = VFloat (inject_Z (1000 * k)) →
       get_DER_id kwargs s = (Returned (VStr (pretty k)), s))
  ∧ (∀ k k' : Z, pretty k = pretty k' → k = k')
  ∧ (∀ n : Z,
       kwargs !! "derId" = None →
       kwargs !! "powerRating" = Some (VInt n) →
       (2 ^ 1024 <= Z.abs n)%Z →
       get_DER_id kwargs s = (Raised (earlier OverflowError), s))
  ∧ (∀ rating,
       kwargs !! "derId" = None →
       kwargs !! "powerRating" = Some rating →
       real_number rating = None →
       get_DER_id kwargs s
       = (Raised (TypeError_ (msg_not_a_real_number (type_of rating))), s))
  ∧ (kwargs !! "derId" = None → kwargs !! "powerRating" = None →
     get_DER_id kwargs s = (Raised (ValueError_ msg_no_DER_id), s)).
Proof.
  unfold get_DER_id. split; [|split; [|split; [|split; [|split]]]].
  - by intros v ->.
  - intros k rating -> -> Hk [-> | ->]; simpl; by rewrite kilo_thousands.
  - intros k k' Heq. by apply (inj pretty).
  - intros n -> -> Hn. simpl. by rewrite kilo_overflow.
  - by intros rating -> -> ->.
  - by intros -> ->.
Qed.

Lemma get_DER_id_of_rating_witness :
  get_DER_id (<["powerRating" := VFloat (inject_Z (1000 * 50))]> ∅) tt
  = (Returned (VStr "50"), tt).
Proof.
  destruct (get_DER_id_of_rating
              (<["powerRating" := VFloat (inject_Z (1000 * 50))]> ∅) tt)
    as (_ & Hrating & _).
  apply (Hrating 50%Z (VFloat (inject_Z (1000 * 50)))).
  - reflexivity.
  - reflexivity.
  - reflexivity.
  - right. reflexivity.
Defined.

(** Past [2 ** 53] the rating is rounded twice, when it is converted and
    when it is divided: the [int] 9007199254740993000 is no multiple of
    1000 any more as a double, and the ID is not the numeral of its
    thousands. *)
Lemma get_DER_id_rounds_as_double :
  get_DER_id (<["powerRating" := VInt 9007199254740993000]> ∅) tt
  = (Returned (VStr "9007199254740994"), tt).
Proof. vm_compute. reflexivity. Qed.

(** ** get_DER_config_for, get_DER_parent_id and get_DER_parent_config *)

Section Parent.

Variable read_config_objects : string → M heap (gmap string positive).

(** A string ID in a file that parses: the object of the ID, or the
    [KeyError] that lists the IDs of the file. *)
Lemma get_DER_config_for_string (configFile s : string) (h h1 : heap)
    (objects : gmap string positive) :
  read_config_objects configFile h = (Ok objects, h1) →
  get_DER_config_for read_config_objects configFile (VStr s) h
  = match objects !! s with
    | Some l => (Returned (VDict l), h1)
    | None =>
      (Raised (earlier (KeyError
                 (msg_config_not_found s configFile
                    (map_to_list (VDict <$> objects)).*1))), h1)
    end.
Proof.
  intros Hread. unfold get_DER_config_for, lift, get_DER_config.
  unfold bind at 1. unfold read_config, bind at 1. rewrite Hread.
  unfold ret at 1. unfold bind.
  destruct (objects !! s) as [l|] eqn:Hs.
  - rewrite bool_decide_eq_true_2.
    + unfold ret, local_getitem. by rewrite lookup_fmap, Hs.
    + apply ResolverProofs.elem_of_available_ids.
      rewrite lookup_fmap, Hs. by eexists.
  - rewrite bool_decide_eq_false_2; [done|].
    rewrite ResolverProofs.elem_of_available_ids, lookup_fmap, Hs.
    by intros [? ?].
Qed.

(** The parent of a configuration: [get_DER_parent_id] answers the entry
    [parent_config] of the configuration, or the empty string when there is
    none, and writes nothing; for a parent ID that is false, as the empty
    string, [None] and 0 are, [get_DER_parent_config] answers a new empty
    dictionary and does not read the file, so that a configuration without
    a parent gets an empty parent configuration; a parent ID that is a
    string other than the empty one is looked up in the file as the ID of
    the configuration itself is. *)
Theorem get_DER_parent_config_of (configFile : string) (cfg : positive)
    (h : heap) :
  get_DER_parent_id cfg h
  = (Returned (default (VStr EmptyString) (deref h cfg !! "parent_config")), h)
  ∧ (∀ derParentId, truthy h derParentId = false →
       get_DER_parent_config read_config_objects configFile derParentId h
       = (Returned (VDict (fresh (dom h))), <[fresh (dom h) := ∅]> h))
  ∧ truthy h (VStr EmptyString) = false
  ∧ truthy h VNone = false
  ∧ truthy h (VInt 0) = false
  ∧ (deref h cfg !! "parent_config" = None →
     and_then (get_DER_parent_id cfg)
       (get_DER_parent_config read_config_objects configFile) h
     = (Returned (VDict (fresh (dom h))), <[fresh (dom h) := ∅]> h))
  ∧ (∀ s objects h1,
       s ≠ EmptyString →
       read_config_objects configFile h = (Ok objects, h1) →
       get_DER_parent_config read_config_objects configFile (VStr s) h
       = match objects !! s with
         | Some l => (Returned (VDict l), h1)
         | None =>
           (Raised (earlier (KeyError
                      (msg_config_not_found s configFile
                         (map_to_list (VDict <$> objects)).*1))), h1)
         end).
Proof.
  assert (Hid : get_DER_parent_id cfg h
                = (Returned (default (VStr EmptyString)
                               (deref h cfg !! "parent_config")), h)).
  { unfold get_DER_parent_id, and_then, lift, contains, getitem.
    destruct (deref h cfg !! "parent_config") as [v|] eqn:Hv.
    - rewrite bool_decide_eq_true_2 by eauto. by rewrite Hv.
    - by rewrite bool_decide_eq_false_2 by (by intros [? ?]). }
  assert (Hfalsy : ∀ derParentId, truthy h derParentId = false →
            get_DER_parent_config read_config_objects configFile derParentId h
            = (Returned (VDict (fresh (dom h))), <[fresh (dom h) := ∅]> h)).
  { intros v Hv. unfold get_DER_parent_config, and_then, state. by rewrite Hv. }
  split; [exact Hid|]. split; [exact Hfalsy|].
  split; [done|]. split; [done|]. split; [done|]. split.
  - intros Hnone. unfold and_then at 1. rewrite Hid, Hnone. by apply Hfalsy.
  - intros s objects h1 Hs Hread.
    unfold get_DER_parent_config, and_then, state.
    assert (truthy h (VStr s) = true) as ->.
    { simpl. apply negb_true_iff. by apply String.eqb_neq. }
    by apply get_DER_config_for_string.
Qed.

End Parent.

Lemma get_DER_parent_config_of_witness :
  and_then (get_DER_parent_id 2)
    (get_DER_parent_config one_device "config.json") heap_without_parent
  = (Returned (VDict (fresh (dom heap_without_parent))),
     <[fresh (dom heap_without_parent) := ∅]> heap_without_parent).
Proof.
  apply (get_DER_parent_config_of one_device "config.json" 2
           heap_without_parent).
  reflexivity.
Defined.

(** ** create_template *)

(** The loop that fills the dictionary [d] with a new empty dictionary for
    every key. *)
Lemma empty_sections_loop (d : positive) (keys : list string) :
  ∀ h : heap, d ∈ dom h →
    ∃ h',
      for_each keys (fun key =>
        bind new_dict (fun empty => update d key (VDict empty))) h
      = (Ok tt, h')
      ∧ dom h ⊆ dom h'
      ∧ (∀ l, l ∈ dom h → l ≠ d → h' !! l = h !! l)
      ∧ (∀ l, l ∉ dom h → l ∈ dom h' → h' !! l = Some ∅)
      ∧ (∀ key, key ∉ keys → deref h' d !! key = deref h d !! key)
      ∧ (∀ key, key ∈ keys →
           ∃ e, deref h' d !! key = Some (VDict e) ∧ (e ∉ dom h) ∧ e ∈ dom h')
      ∧ (∀ key key' e, key ∈ keys → key' ∈ keys →
           deref h' d !! key = Some (VDict e) →
           deref h' d !! key' = Some (VDict e) → key = key').
Proof.
  induction keys as [|key0 rest IH]; intros h Hd.
  - exists h. split; [done|]. split; [done|]. split; [done|]. split; [done|].
    split; [done|]. split; intros key; [intros Hin|intros key' e Hin];
      inversion Hin.
  - cbn [for_each]. unfold bind at 1. unfold bind at 1, new_dict, update.
    set (e0 := fresh (dom h)).
    assert (He0 : e0 ∉ dom h) by apply ResolverProofs.fresh_not_in_dom.
    assert (Hde : d ≠ e0) by (intros ->; done).
    rewrite (ResolverProofs.deref_insert_ne h e0 d) by done.
    set (h1 := <[d := <[key0 := VDict e0]> (deref h d)]> (<[e0 := ∅]> h)).
    assert (Hdom1 : dom h ⊆ dom h1).
    { intros l Hl. unfold h1. by do 2 apply dom_insert_subseteq. }
    assert (He01 : e0 ∈ dom h1).
    { unfold h1. apply dom_insert_subseteq. rewrite dom_insert_L.
      apply elem_of_union_l. by apply elem_of_singleton. }
    assert (Hd1 : deref h1 d = <[key0 := VDict e0]> (deref h d))
      by (unfold h1; by rewrite ResolverProofs.deref_insert_eq).
    destruct (IH h1) as (h' & Hrun & Hsub & Hold & Hnew & Hout & Hin & Hinj).
    { by apply Hdom1. }
    exists h'. split; [exact Hrun|].
    split; [intros l Hl; by apply Hsub, Hdom1|].
    split; [|split; [|split; [|split]]].
    + intros l Hl Hld. rewrite Hold; [|by apply Hdom1|done].
      unfold h1. rewrite !lookup_insert_ne; [done| |done].
      intros ->. done.
    + intros l Hl Hl'. destruct (decide (l ∈ dom h1)) as [Hl1|Hl1].
      * assert (l = e0) as ->.
        { unfold h1 in Hl1. rewrite !dom_insert_L in Hl1.
          apply elem_of_union in Hl1 as [Hl1|Hl1];
            [apply elem_of_singleton in Hl1; by subst l|].
          apply elem_of_union in Hl1 as [Hl1|Hl1]; [|done].
          by apply elem_of_singleton in Hl1. }
        rewrite Hold; [|done|by intros <-].
        unfold h1. by rewrite lookup_insert_ne, lookup_insert_eq.
      * by apply Hnew.
    + intros key Hkey. apply not_elem_of_cons in Hkey as [Hne Hkey].
      rewrite Hout by done. rewrite Hd1. by rewrite lookup_insert_ne.
    + intros key Hkey. destruct (decide (key ∈ rest)) as [Hrest|Hrest].
      * destruct (Hin key Hrest) as (e & Hv & He & He').
        exists e. split; [done|]. split; [|done].
        intros Hb. apply He. by apply Hdom1.
      * apply elem_of_cons in Hkey as [->|Hkey]; [|done].
        exists e0. rewrite Hout by done. rewrite Hd1, lookup_insert_eq.
        split; [done|]. split; [done|]. by apply Hsub.
    + intros key key' e Hkey Hkey' Hv Hv'.
      destruct (decide (key ∈ rest)) as [Hrest|Hrest];
        destruct (decide (key' ∈ rest)) as [Hrest'|Hrest'].
      * by apply (Hinj key key' e).
      * apply elem_of_cons in Hkey' as [->|Hkey']; [|done].
        exfalso. destruct (Hin key Hrest) as (e1 & Hv1 & He1 & _).
        rewrite Hout, Hd1, lookup_insert_eq in Hv' by done.
        by simplify_eq.
      * apply elem_of_cons in Hkey as [->|Hkey]; [|done].
        exfalso. destruct (Hin key' Hrest') as (e1 & Hv1 & He1 & _).
        rewrite Hout, Hd1, lookup_insert_eq in Hv by done.
        by simplify_eq.
      * apply elem_of_cons in Hkey as [->|Hkey]; [|done].
        apply elem_of_cons in Hkey' as [->|Hkey']; done.
Qed.

Lemma dict_of_empty_sections_run (keys : list string) (h : heap) :
  ∃ d h',
    dict_of_empty_sections keys h = (Ok d, h')
    ∧ (d ∉ dom h)
    ∧ (∀ l, l ∈ dom h → h' !! l = h !! l)
    ∧ (∀ key, is_Some (deref h' d !! key) ↔ key ∈ keys)
    ∧ (∀ key, key ∈ keys →
         ∃ e, deref h' d !! key = Some (VDict e)
              ∧ (e ∉ dom h) ∧ e ≠ d ∧ h' !! e = Some ∅)
    ∧ (∀ key key' e, deref h' d !! key = Some (VDict e) →
         deref h' d !! key' = Some (VDict e) → key = key').
Proof.
  unfold dict_of_empty_sections. unfold bind at 1. unfold new_dict at 1.
  set (d := fresh (dom h)). set (h0 := <[d := ∅]> h).
  assert (Hd : d ∉ dom h) by apply ResolverProofs.fresh_not_in_dom.
  assert (Hd0 : d ∈ dom h0).
  { unfold h0. rewrite dom_insert_L. apply elem_of_union_l.
    by apply elem_of_singleton. }
  assert (Hempty : deref h0 d = ∅)
    by (unfold h0; by rewrite ResolverProofs.deref_insert_eq).
  destruct (empty_sections_loop d keys h0 Hd0)
    as (h' & Hrun & Hsub & Hold & Hnew & Hout & Hin & Hinj).
  exists d, h'. unfold bind at 1. rewrite Hrun. unfold ret.
  assert (Hkeys : ∀ key, is_Some (deref h' d !! key) ↔ key ∈ keys).
  { intros key. split.
    - intros Hsome. destruct (decide (key ∈ keys)) as [|Hnot]; [done|].
      rewrite Hout, Hempty, lookup_empty in Hsome by done.
      by destruct Hsome.
    - intros Hkey. destruct (Hin key Hkey) as (e & -> & _). by eexists. }
  split; [done|]. split; [done|]. split; [|split; [done|split]].
  - intros l Hl. rewrite Hold.
    + unfold h0. rewrite lookup_insert_ne; [done|]. by intros <-.
    + unfold h0. by apply dom_insert_subseteq.
    + by intros ->.
  - intros key Hkey. destruct (Hin key Hkey) as (e & Hv & He & He').
    exists e. split; [done|].
    assert (Hed : e ≠ d) by (by intros ->).
    split; [|split; [done|by apply Hnew]].
    intros Hb. apply He. unfold h0. by apply dom_insert_subseteq.
  - intros key key' e Hv Hv'. apply (Hinj key key' e); try done.
    + apply Hkeys. by rewrite Hv.
    + apply Hkeys. by rewrite Hv'.
Qed.

(** [create_template] on an object whose model type has no template
    raises the [KeyError] of that model type and changes nothing; with a
    template, it stores the template and a new dictionary as the
    configuration of the object, whose keys are the sections of the
    template and whose entries are new empty dictionaries, one of its own
    for every section; no dictionary that existed is changed. *)
Theorem create_template_empty_sections
    (tpls : gmap string templates.design_template)
    (h : heap) (self : instance) :
  (tpls !! DER_model_type self = None →
   create_template tpls (h, self)
   = (Raised (earlier (KeyError (msg_key (DER_model_type self)))), (h, self)))
  ∧ (∀ t, tpls !! DER_model_type self = Some t →
     ∃ d h',
       create_template tpls (h, self)
       = (Returned tt,
          (h', set_DER_config d (set_DER_design_template t self)))
       ∧ (d ∉ dom h)
       ∧ (∀ l, l ∈ dom h → h' !! l = h !! l)
       ∧ (∀ key, is_Some (deref h' d !! key) ↔ key ∈ templates.sections t)
       ∧ (∀ key, key ∈ templates.sections t →
            ∃ e, deref h' d !! key = Some (VDict e)
                 ∧ (e ∉ dom h) ∧ e ≠ d ∧ h' !! e = Some ∅)
       ∧ (∀ key key' e, deref h' d !! key = Some (VDict e) →
            deref h' d !! key' = Some (VDict e) → key = key')).
Proof.
  split.
  - intros Hnone. unfold create_template, and_then, self_. simpl.
    by rewrite Hnone.
  - intros t Ht.
    destruct (dict_of_empty_sections_run (templates.sections t) h)
      as (d & h' & Hrun & Hfacts).
    exists d, h'. split; [|exact Hfacts].
    unfold create_template, and_then, self_, assign, change, on_heap, lift.
    simpl. rewrite Ht. simpl. by rewrite Hrun.
Qed.

Lemma create_template_empty_sections_witness :
  ∃ d h',
    create_template Examples.design_templates
      (∅, set_DER_model_type "SolarPVDERThreePhase" new_instance)
    = (Returned tt,
       (h', set_DER_config d
              (set_DER_design_template Examples.three_phase
                 (set_DER_model_type "SolarPVDERThreePhase" new_instance))))
    ∧ is_Some (deref h' d !! "basic_specs").
Proof.
  destruct (create_template_empty_sections Examples.design_templates ∅
              (set_DER_model_type "SolarPVDERThreePhase" new_instance))
    as (_ & Hfound).
  destruct (Hfound Examples.three_phase) as (d & h' & Hrun & _ & _ & Hkeys & _).
  - reflexivity.
  - exists d, h'. split; [exact Hrun|]. apply Hkeys.
    apply list_elem_of_In. simpl. tauto.
Defined.

(** ** check_model_type *)

Lemma eq_str_true (model : string) (v : pyval) :
  eq_str model v = true ↔ v = VStr model.
Proof.
  destruct v; simpl; try (split; [discriminate|by intros ?]).
  rewrite String.eqb_eq. split; [by intros ->|by intros [= ->]].
Qed.

Lemma check_model_type_own (self : instance) (cfg parent bs : positive)
    (h : heap) (t : pyval) :
  deref h cfg !! "basic_specs" = Some (VDict bs) →
  deref h bs !! "model_type" = Some t →
  check_model_type self cfg parent h = (verdict self t, h).
Proof.
  intros Hbs Ht.
  unfold check_model_type, verdict, and_then, lift, getitem.
  rewrite Hbs. simpl. unfold contains.
  rewrite bool_decide_eq_true_2 by eauto.
  rewrite Hbs. simpl. unfold getitem. rewrite Ht.
  by destruct (eq_str (DER_model_type self) t).
Qed.

Lemma check_model_type_parent (self : instance) (cfg parent bs pbs : positive)
    (h : heap) :
  deref h cfg !! "basic_specs" = Some (VDict bs) →
  deref h bs !! "model_type" = None →
  deref h parent !! "basic_specs" = Some (VDict pbs) →
  check_model_type self cfg parent h
  = (match deref h pbs !! "model_type" with
     | Some t => verdict self t
     | None =>
       Raised (ValueError_ (msg_model_type_not_found (name self)
                              (parameter_ID self)))
     end, h).
Proof.
  intros Hbs Ht Hpbs.
  unfold check_model_type, verdict, and_then, lift, getitem.
  rewrite Hbs. simpl. unfold contains.
  rewrite bool_decide_eq_false_2 by (rewrite Ht; by intros [? ?]).
  rewrite Hpbs. simpl.
  destruct (deref h pbs !! "model_type") as [t|] eqn:Hpt.
  - rewrite bool_decide_eq_true_2 by eauto.
    rewrite Hpbs. simpl. unfold getitem. rewrite Hpt.
    by destruct (eq_str (DER_model_type self) t).
  - by rewrite bool_decide_eq_false_2 by (by intros [? ?]).
Qed.

Lemma verdict_Returned (self : instance) (t : pyval) :
  verdict self t = Returned tt ↔ t = VStr (DER_model_type self).
Proof.
  unfold verdict. rewrite <- eq_str_true.
  by destruct (eq_str (DER_model_type self) t).
Qed.

Lemma check_model_type_run (self : instance) (cfg parent bs pbs : positive)
    (h : heap) :
  deref h cfg !! "basic_specs" = Some (VDict bs) →
  deref h parent !! "basic_specs" = Some (VDict pbs) →
  check_model_type self cfg parent h
  = (match declared_model_type h bs pbs with
     | Some t => verdict self t
     | None =>
       Raised (ValueError_ (msg_model_type_not_found (name self)
                              (parameter_ID self)))
     end, h).
Proof.
  intros Hbs Hpbs. unfold declared_model_type.
  destruct (deref h bs !! "model_type") as [t|] eqn:Ht.
  - by apply (check_model_type_own self cfg parent bs).
  - by apply (check_model_type_parent self cfg parent bs pbs).
Qed.

(** [check_model_type] reads the model type that the configuration
    declares in its basic specifications, and only when it declares none
    the one that the parent declares: a declaration of the configuration
    decides, whatever the parent holds.  The method returns exactly when
    the declared type is the string that is the model type of the object;
    another declared value is refused with the error that names both, no
    declaration with the error that names the parameter ID, and a
    configuration without basic specifications with a [KeyError].  The
    heap is left as it was. *)
Theorem check_model_type_declared (self : instance) (cfg : positive)
    (h : heap) :
  (∀ bs t parent,
     deref h cfg !! "basic_specs" = Some (VDict bs) →
     deref h bs !! "model_type" = Some t →
     check_model_type self cfg parent h = (verdict self t, h))
  ∧ (∀ bs pbs parent,
       deref h cfg !! "basic_specs" = Some (VDict bs) →
       deref h parent !! "basic_specs" = Some (VDict pbs) →
       check_model_type self cfg parent h
       = (match declared_model_type h bs pbs with
          | Some t => verdict self t
          | None =>
            Raised (ValueError_ (msg_model_type_not_found (name self)
                                   (parameter_ID self)))
          end, h)
       ∧ (check_model_type self cfg parent h = (Returned tt, h)
          ↔ declared_model_type h bs pbs = Some (VStr (DER_model_type self))))
  ∧ (∀ parent,
       deref h cfg !! "basic_specs" = None →
       check_model_type self cfg parent h
       = (Raised (earlier (KeyError (msg_key "basic_specs"))), h)).
Proof.
  split; [|split].
  - intros bs t parent Hbs Ht. by apply (check_model_type_own self cfg parent bs).
  - intros bs pbs parent Hbs Hpbs.
    pose proof (check_model_type_run self cfg parent bs pbs h Hbs Hpbs)
      as Hrun.
    split; [exact Hrun|]. rewrite Hrun.
    destruct (declared_model_type h bs pbs) as [t|].
    + split.
      * intros [= Hv]. apply verdict_Returned in Hv. by subst t.
      * intros [= ->]. f_equal. by apply verdict_Returned.
    + split; intros; discriminate.
  - intros parent Hnone.
    unfold check_model_type, and_then, lift, getitem. by rewrite Hnone.
Qed.

Lemma check_model_type_declared_witness :
  check_model_type (set_DER_model_type "SolarPVDERThreePhase" new_instance)
    2 3 heap_with_parent_type
  = (Returned tt, heap_with_parent_type).
Proof.
  destruct (check_model_type_declared
              (set_DER_model_type "SolarPVDERThreePhase" new_instance)
              2 heap_with_parent_type) as (_ & Hdecl & _).
  apply (Hdecl 4%positive 5%positive 3%positive).
  - reflexivity.
  - reflexivity.
  - reflexivity.
Defined.

(** After the loop of [setup_DER] over the sections of a template that has
    the section [basic_specs], [check_model_type] finds the basic
    specifications of the configuration and of its parent, provided that
    what the file holds under that key, if anything, is a JSON object: it
    returns or raises one of its two [ValueError]s, never a [KeyError].
    For a configuration and a parent that both came without basic
    specifications, it raises the one that says that no model type was
    found. *)
Theorem check_model_type_after_sections (t : templates.design_template)
    (self : instance) (cfg parent : positive) (h : heap) :
  cfg ∈ dom h → parent ∈ dom h →
  "basic_specs" ∈ templates.sections t →
  (∀ v, deref h cfg !! "basic_specs" = Some v → ∃ l, v = VDict l) →
  (∀ v, deref h parent !! "basic_specs" = Some v → ∃ l, v = VDict l) →
  ∃ h' bs pbs,
    setup_DER_sections t cfg parent h = (Ok tt, h')
    ∧ deref h' cfg !! "basic_specs" = Some (VDict bs)
    ∧ deref h' parent !! "basic_specs" = Some (VDict pbs)
    ∧ check_model_type self cfg parent h'
      = (match declared_model_type h' bs pbs with
         | Some t => verdict self t
         | None =>
           Raised (ValueError_ (msg_model_type_not_found (name self)
                                  (parameter_ID self)))
         end, h')
    ∧ (deref h cfg !! "basic_specs" = None →
       deref h parent !! "basic_specs" = None →
       check_model_type self cfg parent h'
       = (Raised (ValueError_ (msg_model_type_not_found (name self)
                                 (parameter_ID self))), h')).
Proof.
  intros Hcfg Hpar Hsec Hcfgdict Hpardict.
  destruct (ResolverProofs.setup_DER_sections_grows t cfg parent h Hcfg Hpar)
    as (h' & Hrun & (Hsub & Hold & Hnew & Hkeep & Hgain) & Hall & _).
  assert (Hsection : ∀ c, c = cfg ∨ c = parent →
            (∀ v, deref h c !! "basic_specs" = Some v → ∃ l, v = VDict l) →
            ∃ l, deref h' c !! "basic_specs" = Some (VDict l)
                 ∧ (deref h c !! "basic_specs" = None → deref h' l = ∅)).
  { intros c Hc Hdict.
    destruct (deref h c !! "basic_specs") as [v|] eqn:Hv.
    - destruct (Hdict v eq_refl) as [l ->]. exists l.
      split; [by apply Hkeep|discriminate].
    - destruct (Hgain c "basic_specs" Hc Hv) as [Hnone|(e & He & Hfresh & Hin)].
      + exfalso. destruct (Hall "basic_specs" Hsec) as [[v1 H1] [v2 H2]].
        destruct Hc as [-> | ->]; congruence.
      + exists e. split; [done|]. intros _. unfold deref.
        by rewrite (Hnew e Hfresh Hin). }
  destruct (Hsection cfg (or_introl eq_refl) Hcfgdict) as (bs & Hbs & Hbsnew).
  destruct (Hsection parent (or_intror eq_refl) Hpardict)
    as (pbs & Hpbs & Hpbsnew).
  pose proof (check_model_type_run self cfg parent bs pbs h' Hbs Hpbs)
    as Hcheck.
  exists h', bs, pbs. split; [done|]. split; [done|]. split; [done|].
  split; [exact Hcheck|].
  intros Hn1 Hn2. rewrite Hcheck. unfold declared_model_type.
  by rewrite (Hbsnew Hn1), (Hpbsnew Hn2), !lookup_empty.
Qed.

Lemma check_model_type_after_sections_witness :
  ∃ h',
    setup_DER_sections Examples.three_phase 2 3 Examples.heap_with_empty_configs
    = (Ok tt, h')
    ∧ check_model_type new_instance 2 3 h'
      = (Raised (ValueError_ (msg_model_type_not_found EmptyString VNone)), h').
Proof.
  destruct (check_model_type_after_sections Examples.three_phase new_instance
              2 3 Examples.heap_with_empty_configs)
    as (h' & bs & pbs & Hrun & _ & _ & _ & Hnone).
  - vm_compute. reflexivity.
  - vm_compute. reflexivity.
  - apply list_elem_of_In. simpl. tauto.
  - intros v Hv. vm_compute in Hv. discriminate Hv.
  - intros v Hv. vm_compute in Hv. discriminate Hv.
  - exists h'. split; [exact Hrun|]. apply Hnone; reflexivity.
Defined.

(** ** initialize_flags *)

Lemma isinstance_bool (v : pyval) :
  isinstance v [Tbool] = true → ∃ b, v = VBool b.
Proof. destruct v; try discriminate. by eexists. Qed.

Lemma flag_of_merge (cfg : positive) (kwargs : dict) (h h' : heap)
    (r : positive) (key : string) (default : bool) :
  cfg ∈ dom h →
  get_DER_arguments cfg kwargs h = (Ok r, h') →
  (key, {| default_value := VBool default; type := [Tbool] |})
    ∈ DER_argument_spec →
  ∃ b, deref h' r !! key = Some (VBool b)
       ∧ (kwargs !! key = None → b = default).
Proof.
  intros Hlive Hrun Hkv.
  destruct (ResolverProofs.get_DER_arguments_returned cfg kwargs h h' r
              Hlive Hrun) as (Hm & Hin & _).
  rewrite (Hin key _ Hkv). unfold merged_argument.
  pose proof (Hm key _ Hkv) as Hk.
  destruct (kwargs !! key) as [x|].
  - destruct (isinstance_bool x Hk) as [b ->]. exists b. split; [done|].
    discriminate.
  - exists default. by split.
Qed.

(** [initialize_flags] on what [get_DER_arguments] returned: the three
    flags are always there, thanks to their defaults, so that the method
    returns; each flag it stores is a [bool], the keyword argument if it
    was given and else [True], [True] and [False].  On a dictionary
    without [standAlone] it raises the [KeyError] of that key and assigns
    nothing; on one with [standAlone] and without
    [steadyStateInitialization] it raises after it has assigned the first
    flag. *)
Theorem initialize_flags_of_merge (cfg : positive) (kwargs : dict)
    (h h' : heap) (r : positive) (self : instance) :
  (cfg ∈ dom h →
   get_DER_arguments cfg kwargs h = (Ok r, h') →
   ∃ b1 b2 b3,
     initialize_flags r (h', self)
     = (Returned tt,
        (h', set_allow_unbalanced_m (VBool b3)
               (set_steady_state_initialization (VBool b2)
                  (set_standAlone (VBool b1) self))))
     ∧ (kwargs !! "standAlone" = None → b1 = true)
     ∧ (kwargs !! "steadyStateInitialization" = None → b2 = true)
     ∧ (kwargs !! "allowUnbalancedM" = None → b3 = false))
  ∧ (deref h r !! "standAlone" = None →
     initialize_flags r (h, self)
     = (Raised (earlier (KeyError (msg_key "standAlone"))), (h, self)))
  ∧ (∀ v, deref h r !! "standAlone" = Some v →
     deref h r !! "steadyStateInitialization" = None →
     initialize_flags r (h, self)
     = (Raised (earlier (KeyError (msg_key "steadyStateInitialization"))),
        (h, set_standAlone v self))).
Proof.
  split; [|split].
  - intros Hlive Hrun.
    destruct (flag_of_merge cfg kwargs h h' r "standAlone" true Hlive Hrun)
      as (b1 & H1 & Hd1); [apply list_elem_of_In; simpl; tauto|].
    destruct (flag_of_merge cfg kwargs h h' r "steadyStateInitialization" true
                Hlive Hrun)
      as (b2 & H2 & Hd2); [apply list_elem_of_In; simpl; tauto|].
    destruct (flag_of_merge cfg kwargs h h' r "allowUnbalancedM" false
                Hlive Hrun)
      as (b3 & H3 & Hd3); [apply list_elem_of_In; simpl; tauto|].
    exists b1, b2, b3. split; [|done].
    unfold initialize_flags, and_then, on_heap, lift, getitem, assign, change.
    simpl. rewrite H1. simpl. rewrite H2. simpl. by rewrite H3.
  - intros Hnone.
    unfold initialize_flags, and_then, on_heap, lift, getitem.
    simpl. by rewrite Hnone.
  - intros v Hv Hnone.
    unfold initialize_flags, and_then, on_heap, lift, getitem, assign, change.
    simpl. rewrite Hv. simpl. by rewrite Hnone.
Qed.

Lemma initialize_flags_of_merge_witness :
  ∃ b1 b2 b3,
    initialize_flags 4
      (<[4%positive := Examples.default_arguments]>
         Examples.heap_with_empty_configs, new_instance)
    = (Returned tt,
       (<[4%positive := Examples.default_arguments]>
          Examples.heap_with_empty_configs,
        set_allow_unbalanced_m (VBool b3)
          (set_steady_state_initialization (VBool b2)
             (set_standAlone (VBool b1) new_instance))))
    ∧ b1 = true ∧ b2 = true ∧ b3 = false.
Proof.
  destruct (initialize_flags_of_merge 2 ∅ Examples.heap_with_empty_configs
              (<[4%positive := Examples.default_arguments]>
                 Examples.heap_with_empty_configs) 4 new_instance)
    as (Hmerge & _).
  destruct Hmerge as (b1 & b2 & b3 & Hrun & H1 & H2 & H3).
  - vm_compute. reflexivity.
  - vm_compute. reflexivity.
  - exists b1, b2, b3. split; [exact Hrun|].
    split; [by apply H1|]. split; [by apply H2|by apply H3].
Defined.

(** ** setup_DER *)

Section SetupDER.

Variable tpls : gmap string templates.design_template.
Variable read_config_objects : string → M heap (gmap string positive).
Variable name_instance : pyval → MS (heap * instance) unit.
Variable initialize_logger : pyval → MS (heap * instance) unit.
Variable update_DER_config :
  positive → positive → positive → pyval → pyval → MS (heap * instance) unit.

Lemma get_DER_config_for_outcome (configFile : string) (derId : pyval)
    (h h1 : heap) (objects : gmap string positive) :
  read_config_objects configFile h = (Ok objects, h1) →
  get_DER_config_for read_config_objects configFile derId h
  = match object_of objects derId with
    | Some l => (Returned (VDict l), h1)
    | None =>
      (Raised (config_not_found derId configFile
                 (map_to_list (VDict <$> objects)).*1), h1)
    end.
Proof.
  intros Hread.
  destruct derId; try (by apply get_DER_config_for_string);
    unfold get_DER_config_for, and_then, lift, read_config, bind, ret;
    by rewrite Hread.
Qed.

Lemma create_template_known (h h0 : heap) (self : instance)
    (t : templates.design_template) (d : positive) :
  tpls !! DER_model_type self = Some t →
  dict_of_empty_sections (templates.sections t) h = (Ok d, h0) →
  create_template tpls (h, self)
  = (Returned tt, (h0, set_DER_config d (set_DER_design_template t self))).
Proof.
  intros Ht Hrun.
  unfold create_template, and_then, self_, assign, change, on_heap, lift.
  simpl. rewrite Ht. simpl. by rewrite Hrun.
Qed.

Lemma create_template_unknown (h : heap) (self : instance) :
  tpls !! DER_model_type self = None →
  create_template tpls (h, self)
  = (Raised (earlier (KeyError (msg_key (DER_model_type self)))), (h, self)).
Proof.
  intros Hnone. unfold create_template, and_then, self_. simpl.
  by rewrite Hnone.
Qed.

(** The first steps of [setup_DER], one at a time. *)
Ltac setup_step :=
  unfold and_then at 1; cbn [assign change self_ fst snd on_heap].

Ltac to_started events_ self :=
  change (set_DER_model_type (class_name (set_events events_ self))
            (set_events events_ self))
    with (started events_ self).

(** [setup_DER] fails in the order of its statements, before it reaches
    [name_instance], [initialize_logger] and [update_DER_config], whatever
    these three do: without a device ID it raises the exception of
    [get_DER_id] and reads no file; with an ID and a class that has no
    template it raises the [KeyError] of the class; with a template and an
    ID that is no key of the file it raises the [KeyError] that lists the
    IDs of the file, also when a keyword argument has an undeclared type;
    and with the configuration found, it raises the first exception of the
    merge of the arguments. *)
Theorem setup_DER_fails_in_order (events_ : pyval) (configFile : string)
    (kwargs : dict) (h : heap) (self : instance) :
  (∀ e,
     get_DER_id kwargs (h, started events_ self)
     = (Raised e, (h, started events_ self)) →
     setup_DER tpls read_config_objects name_instance initialize_logger
       update_DER_config events_ configFile kwargs (h, self)
     = (Raised e, (h, started events_ self)))
  ∧ (∀ DER_id,
       get_DER_id kwargs (h, started events_ self)
       = (Returned DER_id, (h, started events_ self)) →
       (tpls !! class_name self = None →
        setup_DER tpls read_config_objects name_instance initialize_logger
          update_DER_config events_ configFile kwargs (h, self)
        = (Raised (earlier (KeyError (msg_key (class_name self)))),
           (h, set_parameter_ID DER_id (started events_ self))))
       ∧ (∀ t d h0 objects h1,
            tpls !! class_name self = Some t →
            dict_of_empty_sections (templates.sections t) h = (Ok d, h0) →
            read_config_objects configFile h0 = (Ok objects, h1) →
            (object_of objects DER_id = None →
             setup_DER tpls read_config_objects name_instance
               initialize_logger update_DER_config events_ configFile kwargs
               (h, self)
             = (Raised (config_not_found DER_id configFile
                          (map_to_list (VDict <$> objects)).*1),
                (h1, set_DER_config d
                       (set_DER_design_template t
                          (set_parameter_ID DER_id (started events_ self))))))
            ∧ (∀ l e,
                 object_of objects DER_id = Some l →
                 l ∈ dom h1 →
                 merge_failure DER_argument_spec kwargs (deref h1 l)
                 = Some e →
                 ∃ h2,
                   setup_DER tpls read_config_objects name_instance
                     initialize_logger update_DER_config events_ configFile
                     kwargs (h, self)
                   = (Raised (earlier e),
                      (h2, set_DER_config d
                             (set_DER_design_template t
                                (set_parameter_ID DER_id
                                   (started events_ self)))))))).
Proof.
  split.
  - intros e Hid. unfold setup_DER. do 3 setup_step.
    to_started events_ self. setup_step. by rewrite Hid.
  - intros DER_id Hid. split.
    + intros Hnone. unfold setup_DER. do 3 setup_step.
      to_started events_ self. setup_step. rewrite Hid.
      do 2 setup_step.
      by rewrite create_template_unknown.
    + intros t d h0 objects h1 Ht Hd Hread.
      assert (Hprefix :
        create_template tpls
          (h, set_parameter_ID DER_id (started events_ self))
        = (Returned tt,
           (h0, set_DER_config d
                  (set_DER_design_template t
                     (set_parameter_ID DER_id (started events_ self))))))
        by (by apply create_template_known).
      split.
      * intros Hobj. unfold setup_DER. do 3 setup_step.
        to_started events_ self. setup_step. rewrite Hid.
        do 2 setup_step. rewrite Hprefix. do 2 setup_step.
        cbn [parameter_ID set_DER_config set_DER_design_template
             set_parameter_ID].
        unfold on_heap at 1; cbn [fst snd].
        rewrite (get_DER_config_for_outcome configFile DER_id h0 h1 objects)
          by done.
        by rewrite Hobj.
      * intros l e Hobj Hlive Hfail.
        pose proof (ResolverProofs.get_DER_arguments_outcome l kwargs h1 Hlive)
          as Hout.
        rewrite Hfail in Hout. destruct Hout as (h2 & Hmerge).
        exists h2. unfold setup_DER. do 3 setup_step.
        to_started events_ self. setup_step. rewrite Hid.
        do 2 setup_step. rewrite Hprefix. do 2 setup_step.
        cbn [parameter_ID set_DER_config set_DER_design_template
             set_parameter_ID].
        unfold on_heap at 1; cbn [fst snd].
        rewrite (get_DER_config_for_outcome configFile DER_id h0 h1 objects)
          by done.
        rewrite Hobj. setup_step. cbn [as_dict returns]. setup_step.
        unfold on_heap at 1; cbn [fst snd].
        unfold lift at 1. by rewrite Hmerge.
Qed.

End SetupDER.

Lemma setup_DER_fails_in_order_witness :
  ∃ s',
    setup_DER Examples.design_templates one_device
      (fun _ => returns tt) (fun _ => returns tt)
      (fun _ _ _ _ _ => returns tt)
      VNone "config.json"
      (<["derId" := VStr "10"]> (<["powerRating" := VStr "ten"]> ∅))
      (∅, new_instance)
    = (Raised (config_not_found (VStr "10") "config.json"
                 (map_to_list (VDict <$> (<["50" := 9%positive]> ∅))).*1),
       s').
Proof.
  destruct (setup_DER_fails_in_order Examples.design_templates one_device
              (fun _ => returns tt) (fun _ => returns tt)
              (fun _ _ _ _ _ => returns tt)
              VNone "config.json"
              (<["derId" := VStr "10"]> (<["powerRating" := VStr "ten"]> ∅))
              ∅ new_instance) as (_ & Hfrom).
  destruct (Hfrom (VStr "10")) as (_ & Hfile); [reflexivity|].
  edestruct (Hfile Examples.three_phase) as (Hmissing & _).
  - reflexivity.
  - vm_compute. reflexivity.
  - reflexivity.
  - eexists. apply Hmissing. reflexivity.
Defined.

(** ** What the pipeline writes to the configurations *)

Lemma argument_with_default (cfg : positive) (kwargs : dict) (h h' : heap)
    (r : positive) (key : string) (value : argument_spec) :
  cfg ∈ dom h →
  get_DER_arguments cfg kwargs h = (Ok r, h') →
  (key, value) ∈ DER_argument_spec →
  is_not_None (default_value value) = true →
  is_Some (deref h' r !! key).
Proof.
  intros Hlive Hrun Hkv Hdefault.
  destruct (ResolverProofs.get_DER_arguments_returned cfg kwargs h h' r
              Hlive Hrun) as (_ & Hin & _).
  rewrite (Hin key _ Hkv). unfold merged_argument.
  destruct (kwargs !! key); [done|]. by rewrite Hdefault.
Qed.

Lemma getitem_found (l : positive) (key : string) (v : pyval) (h : heap) :
  deref h l !! key = Some v → getitem l key h = (Ok v, h).
Proof. unfold getitem. by intros ->. Qed.

Section Resolver.

Variable tpls : gmap string templates.design_template.
Variable read_config_objects : string → M heap (gmap string positive).
Variable name_instance : pyval → MS (heap * instance) unit.
Variable initialize_logger : pyval → MS (heap * instance) unit.
Variable update_DER_config :
  positive → positive → positive → pyval → pyval → MS (heap * instance) unit.

Ltac resolver_step :=
  unfold and_then at 1; cbn [assign change self_ fst snd on_heap].

(** The run of [setup_DER] up to its loop, for a device ID given as a
    keyword argument, a configuration that the file holds, arguments that
    merge and a configuration without a parent. *)
Lemma setup_DER_reaches_checks (events_ : pyval) (configFile : string)
    (kwargs : dict) (h h0 h1 : heap) (self : instance) (id : string)
    (t : templates.design_template) (d cfg : positive)
    (objects : gmap string positive) :
  kwargs !! "derId" = Some (VStr id) →
  tpls !! class_name self = Some t →
  dict_of_empty_sections (templates.sections t) h = (Ok d, h0) →
  read_config_objects configFile h0 = (Ok objects, h1) →
  objects !! id = Some cfg →
  cfg ∈ dom h1 →
  merge_failure DER_argument_spec kwargs (deref h1 cfg) = None →
  deref h1 cfg !! "parent_config" = None →
  attribute_setter name_instance →
  attribute_setter initialize_logger →
  ∃ r h2 self',
    get_DER_arguments cfg kwargs h1 = (Ok r, h2)
    ∧ setup_DER tpls read_config_objects name_instance initialize_logger
        update_DER_config events_ configFile kwargs (h, self)
      = and_then
          (on_heap (lift (setup_DER_sections t cfg (fresh (dom h2)))))
          (fun _ => setup_DER_checks tpls update_DER_config cfg
                      (fresh (dom h2)) r)
          (<[fresh (dom h2) := ∅]> h2, self').
Proof.
  intros Hid Ht Hd Hread Hobj Hlive Hmerge Hparent Hname Hlogger.
  pose proof (ResolverProofs.get_DER_arguments_outcome cfg kwargs h1 Hlive)
    as Hout.
  rewrite Hmerge in Hout. destruct Hout as (r & h2 & Hrun & Hnew & Hargs).
  assert (Hcfg2 : deref h2 cfg = deref h1 cfg).
  { unfold deref.
    pose proof (ResolverProofs.get_DER_arguments_frame cfg kwargs h1 cfg Hlive)
      as Hframe.
    rewrite Hrun in Hframe. simpl in Hframe. by rewrite Hframe. }
  destruct (argument_with_default cfg kwargs h1 h2 r "identifier"
              {| default_value := VStr EmptyString; type := string_type |}
              Hlive Hrun) as [identifier Hidentifier];
    [apply list_elem_of_In; simpl; tauto|done|].
  destruct (argument_with_default cfg kwargs h1 h2 r "verbosity"
              {| default_value := VStr "INFO"; type := string_type |}
              Hlive Hrun) as [verbosity Hverbosity];
    [apply list_elem_of_In; simpl; tauto|done|].
  set (s2 := set_DER_config d
               (set_DER_design_template t
                  (set_parameter_ID (VStr id) (started events_ self)))).
  destruct (Hname identifier h2 s2) as (s3 & Hrun3 & Ht3).
  destruct (Hlogger verbosity h2 s3) as (s4 & Hrun4 & Ht4).
  exists r, h2, (set_DER_parent_ID (VStr EmptyString) s4).
  split; [exact Hrun|].
  unfold setup_DER. do 3 resolver_step.
  unfold and_then at 1. unfold get_DER_id at 1. rewrite Hid.
  unfold returns at 1. do 2 resolver_step.
  rewrite (create_template_known tpls h h0 _ t d) by done.
  do 2 resolver_step.
  cbn [parameter_ID set_DER_config set_DER_design_template set_parameter_ID].
  unfold on_heap at 1; cbn [fst snd].
  rewrite (get_DER_config_for_outcome read_config_objects configFile
             (VStr id) h0 h1 objects) by done.
  cbn [object_of]. rewrite Hobj.
  resolver_step. cbn [as_dict returns]. resolver_step.
  unfold on_heap at 1; cbn [fst snd].
  unfold lift at 1. rewrite Hrun.
  resolver_step. unfold on_heap at 1; cbn [fst snd].
  unfold lift at 1. rewrite (getitem_found r "identifier" identifier) by done.
  resolver_step.
  change (name_instance identifier (h2, _))
    with (name_instance identifier (h2, s2)).
  rewrite Hrun3.
  resolver_step. unfold on_heap at 1; cbn [fst snd].
  unfold lift at 1. rewrite (getitem_found r "verbosity" verbosity) by done.
  resolver_step. rewrite Hrun4.
  resolver_step. unfold on_heap at 1; cbn [fst snd].
  unfold get_DER_parent_id at 1. unfold and_then at 1, lift at 1, contains at 1.
  rewrite Hcfg2, Hparent.
  rewrite bool_decide_eq_false_2 by (by intros [? ?]).
  unfold returns at 1.
  do 3 resolver_step.
  cbn [DER_parent_ID set_DER_parent_ID].
  unfold on_heap at 1; cbn [fst snd].
  unfold get_DER_parent_config at 1. unfold and_then at 1, state at 1.
  cbn [truthy String.eqb negb].
  unfold and_then at 1, lift at 1, new_dict at 1. unfold returns at 1.
  resolver_step. cbn [as_dict returns]. do 2 resolver_step.
  change (DER_design_template (set_DER_parent_ID (VStr EmptyString) s4))
    with (DER_design_template s4).
  rewrite Ht4, Ht3. reflexivity.
Qed.

(** C2, as the code has it: [get_DER_arguments] leaves every dictionary
    that exists when it is called as it was, whether it returns or raises,
    and the dictionary it returns is a new one; the loop of [setup_DER] over
    the sections of the template does write to the configuration and to the
    parent configuration it is given: it returns, each of the two then has
    every section of the template, keeps the entries it had, has no other
    new entry, and each entry it gained is a new empty dictionary; no
    dictionary other than the two is changed.  And [setup_DER] as a whole,
    for a device ID given as a keyword argument, a configuration that the
    file holds without a parent, arguments that merge, and a naming and a
    logging that write to no dictionary, comes to [check_model_type] and
    [update_DER_config] with the configuration that was loaded from the
    file so changed: every section of the template that the file did not
    give it is there, with a new empty dictionary, what the file gave it is
    as it was, and so is every other dictionary that existed when the file
    was read. *)
Theorem resolver_writes_only_missing_sections :
  (∀ (cfg : positive) (kwargs : dict) (h : heap) (l : positive),
     l ∈ dom h → (get_DER_arguments cfg kwargs h).2 !! l = h !! l)
  ∧ (∀ (cfg : positive) (kwargs : dict) (h h' : heap) (r : positive),
       get_DER_arguments cfg kwargs h = (Ok r, h') → r ∉ dom h)
  ∧ (∀ (t : templates.design_template) (cfg parent : positive) (h : heap),
       cfg ∈ dom h → parent ∈ dom h →
       ∃ h', setup_DER_sections t cfg parent h = (Ok tt, h')
             ∧ (∀ l, l ∈ dom h → l ≠ cfg → l ≠ parent → h' !! l = h !! l)
             ∧ (∀ c key, c = cfg ∨ c = parent →
                  key ∈ templates.sections t → is_Some (deref h' c !! key))
             ∧ (∀ c key v, c = cfg ∨ c = parent →
                  deref h c !! key = Some v → deref h' c !! key = Some v)
             ∧ (∀ c key, c = cfg ∨ c = parent →
                  key ∉ templates.sections t →
                  deref h' c !! key = deref h c !! key)
             ∧ (∀ c key, c = cfg ∨ c = parent →
                  key ∈ templates.sections t → deref h c !! key = None →
                  ∃ e, deref h' c !! key = Some (VDict e)
                       ∧ (e ∉ dom h) ∧ h' !! e = Some ∅))
  ∧ (∀ (events_ : pyval) (configFile : string) (kwargs : dict)
       (h h0 h1 : heap) (self : instance) (id : string)
       (t : templates.design_template) (d cfg : positive)
       (objects : gmap string positive),
       kwargs !! "derId" = Some (VStr id) →
       tpls !! class_name self = Some t →
       dict_of_empty_sections (templates.sections t) h = (Ok d, h0) →
       read_config_objects configFile h0 = (Ok objects, h1) →
       objects !! id = Some cfg →
       cfg ∈ dom h1 →
       merge_failure DER_argument_spec kwargs (deref h1 cfg) = None →
       deref h1 cfg !! "parent_config" = None →
       attribute_setter name_instance →
       attribute_setter initialize_logger →
       ∃ r h2 h3 self',
         get_DER_arguments cfg kwargs h1 = (Ok r, h2)
         ∧ setup_DER tpls read_config_objects name_instance
             initialize_logger update_DER_config events_ configFile kwargs
             (h, self)
           = setup_DER_checks tpls update_DER_config cfg (fresh (dom h2)) r
               (h3, self')
         ∧ (∀ key, key ∈ templates.sections t →
              deref h1 cfg !! key = None →
              ∃ e, deref h3 cfg !! key = Some (VDict e)
                   ∧ (e ∉ dom h1) ∧ h3 !! e = Some ∅)
         ∧ (∀ key v, deref h1 cfg !! key = Some v →
              deref h3 cfg !! key = Some v)
         ∧ (∀ key, key ∉ templates.sections t →
              deref h3 cfg !! key = deref h1 cfg !! key)
         ∧ (∀ l, l ∈ dom h1 → l ≠ cfg → h3 !! l = h1 !! l)).
Proof.
  split; [exact ResolverProofs.get_DER_arguments_frame|].
  split; [exact ResolverProofs.get_DER_arguments_fresh|].
  split.
  - intros t cfg parent h Hcfg Hpar.
    destruct (ResolverProofs.setup_DER_sections_grows t cfg parent h Hcfg Hpar)
      as (h' & Hrun & (Ha & Hb & Hc & He & Hg) & Hs & Ho).
    exists h'. split; [done|]. split; [done|].
    split; [|split; [done|split]].
    + intros c key [-> | ->] Hin; by apply Hs.
    + intros c key [-> | ->] Hout; by apply Ho.
    + intros c key Hc_ Hin Hnone.
      destruct (Hg c key Hc_ Hnone) as [Hn|(e & Hv & He1 & He2)].
      * exfalso. assert (is_Some (deref h' c !! key)) as [v Hv]
          by (destruct Hc_ as [-> | ->]; by apply Hs).
        congruence.
      * exists e. split; [done|]. split; [done|]. by apply Hc.
  - intros events_ configFile kwargs h h0 h1 self id t d cfg objects
      Hid Ht Hd Hread Hobj Hlive Hmerge Hparent Hname Hlogger.
    destruct (setup_DER_reaches_checks events_ configFile kwargs h h0 h1 self
                id t d cfg objects Hid Ht Hd Hread Hobj Hlive Hmerge Hparent
                Hname Hlogger) as (r & h2 & self' & Hrun & Hsetup).
    set (parent := fresh (dom h2)) in *.
    assert (Hframe : ∀ l, l ∈ dom h1 → h2 !! l = h1 !! l).
    { intros l Hl.
      pose proof (ResolverProofs.get_DER_arguments_frame cfg kwargs h1 l Hl)
        as Hf.
      by rewrite Hrun in Hf. }
    assert (Hdom : ∀ l, l ∈ dom h1 → l ∈ dom h2).
    { intros l Hl. apply elem_of_dom. rewrite (Hframe l Hl).
      by apply elem_of_dom. }
    assert (Hfresh : ∀ l, l ∈ dom h1 → l ≠ parent).
    { intros l Hl. apply ResolverProofs.live_not_fresh. by apply Hdom. }
    assert (Hcfg : deref (<[parent := ∅]> h2) cfg = deref h1 cfg).
    { rewrite ResolverProofs.deref_insert_ne
        by (apply not_eq_sym; by apply Hfresh).
      unfold deref. by rewrite Hframe. }
    destruct (ResolverProofs.setup_DER_sections_grows t cfg parent
                (<[parent := ∅]> h2))
      as (h3 & Hloop & (Ha & Hb & Hc & He & Hg) & Hs & Ho).
    { apply dom_insert_subseteq. by apply Hdom. }
    { apply elem_of_dom. rewrite lookup_insert_eq. by eexists. }
    exists r, h2, h3, self'. split; [exact Hrun|]. split.
    { rewrite Hsetup. unfold and_then at 1, on_heap at 1, lift at 1.
      cbn [fst snd]. by rewrite Hloop. }
    split; [|split; [|split]].
    + intros key Hin Hnone.
      destruct (Hg cfg key) as [Hn|(e & Hv & He1 & He2)];
        [by left|by rewrite Hcfg| |].
      * exfalso. destruct (Hs key Hin) as [[v Hv] _]. congruence.
      * exists e. split; [done|]. split; [|by apply Hc].
        intros He0. apply He1. apply dom_insert_subseteq. by apply Hdom.
    + intros key v Hv. apply He; [by left|]. by rewrite Hcfg.
    + intros key Hout. rewrite <- Hcfg. apply Ho; [|done].
      apply dom_insert_subseteq. by apply Hdom.
    + intros l Hl Hne. rewrite Hb.
      * rewrite lookup_insert_ne by (apply not_eq_sym; by apply Hfresh).
        by apply Hframe.
      * apply dom_insert_subseteq. by apply Hdom.
      * done.
      * by apply Hfresh.
Qed.

End Resolver.

Lemma resolver_writes_only_missing_sections_witness :
  ∃ r parent e h3 self',
    setup_DER Examples.design_templates three_phase_device no_name no_logger
      adopt_config VNone "config.json" (<["derId" := VStr "50"]> ∅)
      (heap_at_start, new_instance)
    = setup_DER_checks Examples.design_templates adopt_config 20 parent r
        (h3, self')
    ∧ deref h3 20 !! "initial_states" = Some (VDict e)
    ∧ h3 !! e = Some ∅.
Proof.
  destruct (resolver_writes_only_missing_sections Examples.design_templates
              three_phase_device no_name no_logger adopt_config)
    as (_ & _ & _ & Hsetup).
  destruct (Hsetup VNone "config.json" (<["derId" := VStr "50"]> ∅)
              heap_at_start
              (dict_of_empty_sections
                 (templates.sections Examples.three_phase) heap_at_start).2
              (three_phase_device "config.json"
                 (dict_of_empty_sections
                    (templates.sections Examples.three_phase)
                    heap_at_start).2).2
              new_instance "50" Examples.three_phase 2%positive 20%positive
              (<["50" := 20%positive]> ∅))
    as (r & h2 & h3 & self' & Hmerge & Hrun & Hnew & _).
  - reflexivity.
  - reflexivity.
  - vm_compute. reflexivity.
  - reflexivity.
  - reflexivity.
  - vm_compute. reflexivity.
  - vm_compute. reflexivity.
  - vm_compute. reflexivity.
  - intros v h self. by exists self.
  - intros v h self. by exists self.
  - destruct (Hnew "initial_states") as (e & He & _ & Hempty).
    + apply list_elem_of_In. simpl. tauto.
    + vm_compute. reflexivity.
    + exists r, (fresh (dom h2)), e, h3, self'.
      split; [exact Hrun|]. split; [exact He|exact Hempty].
Defined.

(** C2, as stated, fails: a run of [setup_DER] that returns leaves the
    configuration that it loaded from the file with a section that the file
    did not give it.  The file holds the basic specifications of the device
    "50" and nothing else; the template of the class has the section
    [initial_states] too, and the loop adds it to the loaded dictionary,
    which the update then takes for the configuration of the object. *)
Lemma setup_DER_changes_loaded_config :
  let run :=
    setup_DER Examples.design_templates three_phase_device no_name
      no_logger adopt_config VNone "config.json"
      (<["derId" := VStr "50"]> ∅) (heap_at_start, new_instance) in
  (∀ h, (three_phase_device "config.json" h).2 !! 20%positive
        = Some loaded_three_phase)
  ∧ loaded_three_phase !! "initial_states" = None
  ∧ ∃ r e,
      run.1 = Returned r
      ∧ DER_config run.2.2 = 20%positive
      ∧ deref run.2.1 20 !! "initial_states" = Some (VDict e)
      ∧ deref run.2.1 20 !! "basic_specs" = loaded_three_phase !! "basic_specs"
      ∧ deref run.2.1 20 ≠ loaded_three_phase.
Proof.
  intros run.
  split; [intros h; apply lookup_insert_eq|]. split; [reflexivity|].
  eexists _, _.
  split; [vm_compute; reflexivity|].
  split; [vm_compute; reflexivity|].
  assert (Hkey : ∃ e, deref run.2.1 20 !! "initial_states" = Some (VDict e))
    by (eexists; vm_compute; reflexivity).
  destruct Hkey as [e Hkey].
  split; [vm_compute; reflexivity|].
  split; [vm_compute; reflexivity|].
  intros Heq. rewrite Heq in Hkey. discriminate Hkey.
Qed.

End SetupProofs.
